(** * tML-EC-QR: respiratory classification scripts

    A shallow embedding of the Python scripts under [TMLEC_QRScan/python]
    (and of the download loop of [download_coco_model.py]), with the
    properties their specification states.

    Conventions.
    - A Python [float] and a NumPy [float64] are IEEE 754 binary64 numbers:
      they are Rocq's primitive [float], with the same rounding and the same
      comparisons ([nan] compares false with everything).
    - A Python [int] is a [Z].  A NumPy [int64] is a [Z] from [-2^63] to
      [2^63 - 1], and arithmetic on it wraps around ([wrap64]).
    - A frame built by [pd.DataFrame] from a list of records is given as
      that list; a column read by [pd.read_csv] has one dtype, [int64],
      [float64] or [object].
    - A raised exception is the [Raise] case of [result]; every exception
      class that occurs is a subclass of [Exception], so [except Exception]
      catches each of them.
    - [print] appends an event to the console, a list read oldest first.
    - The file system is a finite map from path to file content. *)

From Stdlib Require Import Floats ZArith Ascii String Lia.
From stdpp Require Import base option list strings gmap sorting.

#[local] Set Warnings "-inexact-float,-register-all".
#[local] Open Scope Z_scope.

(** ** Python values, exceptions and the exception monad *)

Inductive exn : Type :=
| FileNotFoundError
| PermissionError
| UnpicklingError
| AttributeError
| IndexError
| KeyError
| ValueError
| TypeError
| UnboundLocalError
| ZeroDivisionError
| FileExistsError
| ConnectionError
| HTTPError.

Inductive result (A : Type) : Type :=
| Ok (a : A)
| Raise (e : exn).
Arguments Ok {A} a.
Arguments Raise {A} e.

#[global] Instance result_ret : MRet result := fun _ a => Ok a.

#[global] Instance result_bind : MBind result := fun _ _ k r =>
  match r with
  | Ok a => k a
  | Raise e => Raise e
  end.

(** JSON-like Python values. [PObject] stands for any object the [json]
    module cannot encode. Dictionaries keep their insertion order. *)
Inductive pyval : Type :=
| PNone
| PBool (b : bool)
| PInt (z : Z)
| PFloat (f : float)
| PStr (s : string)
| PList (l : list pyval)
| PDict (d : list (string * pyval))
| PObject (cls : string).

Definition dict : Type := list (string * pyval).

Fixpoint dict_get {V} (d : list (string * V)) (k : string) : option V :=
  match d with
  | [] => None
  | (k', v) :: d' => if String.eqb k' k then Some v else dict_get d' k
  end.

(** [d[k] = v]: an existing key keeps its position, a new one goes last. *)
Fixpoint dict_set {V} (d : list (string * V)) (k : string) (v : V)
  : list (string * V) :=
  match d with
  | [] => [(k, v)]
  | (k', v') :: d' =>
      if String.eqb k' k then (k', v) :: d' else (k', v') :: dict_set d' k v
  end.

Definition dict_keys {V} (d : list (string * V)) : list string := map fst d.

(** [dict(pairs)]: later pairs overwrite earlier ones. *)
Definition dict_of_pairs {V} (ps : list (string * V)) : list (string * V) :=
  fold_left (fun d p => dict_set d (fst p) (snd p)) ps [].

(** [zip(xs, ys)] stops at the shorter argument. *)
Fixpoint zip_py {A B} (xs : list A) (ys : list B) : list (A * B) :=
  match xs, ys with
  | x :: xs', y :: ys' => (x, y) :: zip_py xs' ys'
  | _, _ => []
  end.

(** [l[i]] for an index that is not negative. *)
Definition list_index {A} (l : list A) (i : nat) : result A :=
match l !! i with
| Some a => Ok a
| None => Raise IndexError
end.

(** ** The [str] methods the loaders use *)

Module Str.

(** Whitespace as [str.strip] sees it.  A character of a string stands for
    the code point of its number, so that the strings are the texts over
    the first 256 code points: the whitespace among them is U+0009 to
    U+000D, U+001C to U+0020, U+0085 and U+00A0. *)
Definition is_space (c : ascii) : bool :=
let n := nat_of_ascii c in
(Nat.leb 9 n && Nat.leb n 13) || (Nat.leb 28 n && Nat.leb n 32)
|| Nat.eqb n 133 || Nat.eqb n 160.

Fixpoint lstrip (s : string) : string :=
match s with
| EmptyString => EmptyString
| String c s' => if is_space c then lstrip s' else s
end.

Definition strip (s : string) : string :=
String.rev (lstrip (String.rev (lstrip s))).

(** [sub in s]. *)
Fixpoint contains (sub s : string) : bool :=
String.prefix sub s ||
match s with
| EmptyString => false
| String _ s' => contains sub s'
end.

(** [s.split(sep)] for a separator that is not empty: [cur] is the piece
    being read, reversed, and [skip] counts the characters of a separator
    still to pass over. *)
Fixpoint split_go (sep s : string) (skip : nat) (cur : string) : list string :=
match s with
| EmptyString => [String.rev cur]
| String c s' =>
    match skip with
    | S k => split_go sep s' k cur
    | O =>
        if String.prefix sep s
        then String.rev cur
             :: split_go sep s' (String.length sep - 1) EmptyString
        else split_go sep s' 0 (String c cur)
    end
end.

Definition split (sep s : string) : list string := split_go sep s 0 EmptyString.

End Str.

(** The two conversions of the Python run time that the loaders call on
    text. They are left open: every property below holds whatever they
    return. *)
Class Builtins : Type := {
  py_int : string -> result Z;
  py_float : string -> result float
}.

(** ** NumPy and pandas, as far as the loaders use them *)

(** [float(z)] for an integer below 2^63 in absolute value. *)
Definition float_of_Z (z : Z) : float :=
if (z <? 0)%Z then (- of_uint63 (Uint63.of_Z (- z)))%float
else of_uint63 (Uint63.of_Z z).

(** [a / b] of two Python integers, [0 < a] and [0 < b]: the float nearest
    to the quotient, ties to even.  The quotient is taken with 57 bits or
    more and a sticky bit, rounded once by the conversion, and scaled back
    by a power of two; a quotient beyond the normal floats is not
    considered. *)
Definition true_divide (a b : Z) : float :=
let e := (Z.log2 a - Z.log2 b - 57)%Z in
let n := if (e <? 0)%Z then Z.shiftl a (- e) else a in
let d := if (e <? 0)%Z then b else Z.shiftl b e in
let sticky := if (n mod d =? 0)%Z then 0%Z else 1%Z in
FloatOps.Z.ldexp (float_of_Z (Z.lor (n / d) sticky)) e.

(** The [int64] that arithmetic on [int64] gives for the integer [z]: the
    result wraps around. *)
Definition wrap64 (z : Z) : Z :=
((z + 2 ^ 63) mod 2 ^ 64 - 2 ^ 63)%Z.

(** An [int64] as [float64]: the nearest float, [-2^63] included. *)
Definition int64_float (z : Z) : float :=
if (z =? - 2 ^ 63)%Z then (-9223372036854775808)%float else float_of_Z z.

(** A NumPy scalar: an [int64] or a [float64]. *)
Inductive num : Type :=
| NInt (z : Z)
| NFloat (f : float).

Definition num_float (n : num) : float :=
match n with
| NInt z => int64_float z
| NFloat f => f
end.

Definition num_value (n : num) : pyval :=
match n with
| NInt z => PInt z
| NFloat f => PFloat f
end.

Module Np.

#[local] Open Scope float_scope.

(** Sums run in index order.  NumPy adds eight numbers or more in blocks and
    by pairs, which can change the last bits of a sum: the sums, the means
    and the deviations below are those of the order of the indices. *)
Definition sum (xs : list float) : float := fold_left PrimFloat.add xs 0.

(** [np.mean] on [float64]: the sum over the number of samples, a division
    of floats that gives [nan] for no sample and does not raise.  On
    objects the division is Python's: see [Pd.np_std]. *)
Definition mean (xs : list float) : float :=
sum xs / float_of_Z (Z.of_nat (length xs)).

(** [np.std]: the root of the mean squared deviation from the mean. *)
Definition std (xs : list float) : float :=
let m := mean xs in
sqrt (mean (map (fun x => (x - m) * (x - m)) xs)).

Definition maximum (a b : float) : float :=
if is_nan a then a else if is_nan b then b else if a <? b then b else a.

Definition minimum (a b : float) : float :=
if is_nan a then a else if is_nan b then b else if b <? a then b else a.

(** [np.max] and [np.min] raise on an empty argument. *)
Definition max (xs : list float) : result float :=
match xs with
| [] => Raise ValueError
| x :: xs' => Ok (fold_left maximum xs' x)
end.

Definition min (xs : list float) : result float :=
match xs with
| [] => Raise ValueError
| x :: xs' => Ok (fold_left minimum xs' x)
end.

Fixpoint diff (xs : list float) : list float :=
match xs with
| a :: (b :: _) as rest => (b - a) :: diff rest
| _ => []
end.

(** The same on [int64]; the differences wrap around. *)
Definition max_int (zs : list Z) : result Z :=
match zs with
| [] => Raise ValueError
| z :: zs' => Ok (fold_left Z.max zs' z)
end.

Definition min_int (zs : list Z) : result Z :=
match zs with
| [] => Raise ValueError
| z :: zs' => Ok (fold_left Z.min zs' z)
end.

Fixpoint diff_int (zs : list Z) : list Z :=
match zs with
| a :: (b :: _) as rest => wrap64 (b - a) :: diff_int rest
| _ => []
end.

(** [np.array(l)] of a list of scalars is [int64] when every scalar is, and
    [float64] otherwise: [ints] is the first case. *)
Fixpoint ints (l : list num) : option (list Z) :=
match l with
| [] => Some []
| NInt z :: rest => option_map (cons z) (ints rest)
| NFloat _ :: _ => None
end.

(** [np.max] and [np.min] of a list of scalars. *)
Definition max_num (l : list num) : result num :=
match ints l with
| Some zs => z ← max_int zs; Ok (NInt z)
| None => x ← max (map num_float l); Ok (NFloat x)
end.

Definition min_num (l : list num) : result num :=
match ints l with
| Some zs => z ← min_int zs; Ok (NInt z)
| None => x ← min (map num_float l); Ok (NFloat x)
end.

End Np.

Module Pd.

(** A column has one dtype: [int64], [float64] or [object] (text). *)
Inductive column : Type :=
| ColInt (l : list Z)
| ColFloat (l : list float)
| ColObj (l : list string).

Inductive cell : Type :=
| CInt (z : Z)
| CFloat (f : float)
| CStr (s : string).

Definition dataframe : Type := list (string * column).

(** [df[name]]. *)
Definition getitem (df : dataframe) (name : string) : result column :=
match dict_get df name with
| Some c => Ok c
| None => Raise KeyError
end.

Definition cells (c : column) : list cell :=
match c with
| ColInt l => map CInt l
| ColFloat l => map CFloat l
| ColObj l => map CStr l
end.

Definition len (c : column) : nat :=
match c with
| ColInt l => length l
| ColFloat l => length l
| ColObj l => length l
end.

(** The numbers of a column as [float64]; arithmetic on text raises. *)
Definition floats (c : column) : result (list float) :=
match c with
| ColInt l => Ok (map float_of_Z l)
| ColFloat l => Ok l
| ColObj _ => Raise TypeError
end.

(** Python's bounds for one end of a slice of a sequence of length [n]. *)
Definition slice_bound (n i : Z) : Z :=
if i <? 0 then Z.max 0 (i + n) else Z.min i n.

(** [l[start:stop]]. *)
Definition slice_list {A} (l : list A) (start stop : Z) : list A :=
let n := Z.of_nat (length l) in
let a := slice_bound n start in
let b := slice_bound n stop in
take (Z.to_nat (b - a)) (drop (Z.to_nat a) l).

Definition slice (c : column) (start stop : Z) : column :=
match c with
| ColInt l => ColInt (slice_list l start stop)
| ColFloat l => ColFloat (slice_list l start stop)
| ColObj l => ColObj (slice_list l start stop)
end.

(** The column of a table without rows: pandas reads no dtype from it and
    keeps it as objects. *)
Definition empty_objects (c : column) : bool :=
match c with
| ColObj [] => true
| _ => false
end.

(** [series.mean()], which skips [nan]; of no object it is [nan]. *)
Definition series_mean (c : column) : result float :=
if empty_objects c then Ok nan
else xs ← floats c;
     Ok (Np.mean (List.filter (fun x => negb (is_nan x)) xs)).

(** [series.abs().values]: no object has its absolute value taken. *)
Definition abs_values (c : column) : result (list float) :=
if empty_objects c then Ok []
else xs ← floats c; Ok (map abs xs).

(** [np.std(series.values)].  On objects the sum is Python's: of no object
    it is the integer 0, and dividing it by the count 0 raises. *)
Definition np_std (c : column) : result float :=
if empty_objects c then Raise ZeroDivisionError
else xs ← floats c; Ok (Np.std xs).

(** [np.mean(series.abs().values)], with the same division. *)
Definition np_mean_abs (c : column) : result float :=
if empty_objects c then Raise ZeroDivisionError
else xs ← floats c; Ok (Np.mean (map abs xs)).

End Pd.

(** ** create_sample_model.py: the labelling rule *)

Module SampleModel.

#[local] Open Scope float_scope.

(** One row of [X] after [np.random.rand(100, 4)]. *)
Record row : Type := mk_row { x0 : float; x1 : float; x2 : float; x3 : float }.

(** Lines 26-29: the columns are rescaled in place. *)
Definition normalize (r : row) : row :=
  {| x0 := x0 r * 30 + 5;
     x1 := x1 r * 0.8;
     x2 := x2 r * 80;
     x3 := x3 r * 15 |}.

(** Lines 41-61: the counter of abnormal factors of one row. *)
Definition abnormal_factors (r : row) : Z :=
  let breathing_rate := x0 r in
  let irregularity := x1 r in
  let amplitude_var := x2 r in
  let velocity := x3 r in
  let n := 0%Z in
  let n := if breathing_rate <? 10 then (n + 1)%Z else n in
  let n := if 24 <? breathing_rate then (n + 1)%Z else n in
  let n := if 0.4 <? irregularity then (n + 1)%Z else n in
  let n := if 40 <? amplitude_var then (n + 1)%Z else n in
  let n := if 8 <? velocity then (n + 1)%Z else n in
  n.

(** Lines 64-65: [y[i] = 1] when two or more factors were counted, and the
    [np.zeros] initial value 0 stays otherwise. *)
Definition label (r : row) : Z :=
  if (2 <=? abnormal_factors r)%Z then 1%Z else 0%Z.

(** Lines 23-65: the label vector of a random matrix. *)
Definition labels (X : list row) : list Z :=
  map (fun r => label (normalize r)) X.

(** The four criteria the specification names, each as a truth value. *)
Definition rate_criterion (r : row) : bool := (x0 r <? 10) || (24 <? x0 r).
Definition irregularity_criterion (r : row) : bool := 0.4 <? x1 r.
Definition amplitude_criterion (r : row) : bool := 40 <? x2 r.
Definition velocity_criterion (r : row) : bool := 8 <? x3 r.

Definition criteria (r : row) : list bool :=
  [rate_criterion r; irregularity_criterion r;
   amplitude_criterion r; velocity_criterion r].

Definition count_true (bs : list bool) : Z :=
  Z.of_nat (length (filter (fun b => b = true) bs)).

End SampleModel.

(** ** The world: files on disk and the console *)

(** What [joblib.load] can return. A fitted [LogisticRegression] has the
    attributes [coef_] (a two-dimensional array, one row per class, or one row
    for a binary problem) and [intercept_]; an unfitted one has neither. *)
Inductive pyobj : Type :=
| LogisticRegression (coef_ : option (list (list float)))
                     (intercept_ : option (list float))
| OtherEstimator (cls : string).

Inductive file : Type :=
| FPickle (obj : pyobj)
| FJson (v : pyval)
| FJsonPrefix (v : pyval)
| FBinary (chunks : list string).

(** One constructor per [print] call that the properties mention; [Say]
    covers the fixed banners, without the pictograph that opens some of
    them. *)
Inductive event : Type :=
| Say (text : string)
| LoadingModel (path : string)
| ExpectedLogisticRegression (cls : string)
| WeightCountMismatch (n_weights n_names : nat)
| ExportedTo (path : string)
| ShowWeights (weights : dict)
| ShowThresholds (thresholds : pyval)
| ErrorExporting (e : exn)
| ProcessedSubject (subject_id : Z) (abnormal : bool)
| ErrorProcessingSubject (subject_id : Z) (e : exn)
| ClassDistribution (abnormal_count total : Z)
| ProcessedFile (path : string) (breathing_rate : float)
| ErrorLoadingFile (path : string) (e : exn)
| BackedUp (path : string)
| Downloading (filename : string)
| Progress (downloaded total_size : Z)
| Downloaded (filename : string)
| DownloadDescription (description : string)
| FailedToDownload (filename : string) (e : exn).

Record world : Type := mk_world {
  files : gmap string file;
  (** paths that [open(path, 'w')] refuses *)
  locked : gset string;
  console : list event
}.

(** Where [print] writes. *)
Class Console (S : Type) : Type := say : event -> S -> S.

#[global] Instance world_console : Console world := fun e w =>
  {| files := files w; locked := locked w; console := console w ++ [e] |}.

(** Computations that may raise and that change a state [S]: the world, or
    the world together with the local variables of a running function. The
    state an exception leaves behind is kept. *)
Definition io (S A : Type) : Type := S -> result A * S.

Definition io_ret {S A} (a : A) : io S A := fun s => (Ok a, s).

Definition io_bind {S A B} (m : io S A) (k : A -> io S B) : io S B := fun s =>
  match m s with
  | (Ok a, s') => k a s'
  | (Raise e, s') => (Raise e, s')
  end.

Notation "'let*' x ':=' m 'in' k" := (io_bind m (fun x => k))
  (at level 10, x pattern, m at level 100, k at level 200).

Definition lift {S A} (r : result A) : io S A := fun s => (r, s).

Definition print {S} `{Console S} (e : event) : io S unit := fun s =>
  (Ok tt, say e s).

Definition write_file (path : string) (f : file) (w : world) : world :=
  {| files := <[path := f]> (files w); locked := locked w;
     console := console w |}.

(** [try: body except Exception as e: handler e]. *)
Definition try_except {S A} (body : io S A) (handler : exn -> io S A)
  : io S A :=
  fun s =>
    match body s with
    | (Ok a, s') => (Ok a, s')
    | (Raise e, s') => handler e s'
    end.

(** [for x in xs: body x], the loop ending at the first exception that
    escapes a body. *)
Fixpoint for_each {S A} (xs : list A) (body : A -> io S unit) : io S unit :=
  match xs with
  | [] => io_ret tt
  | x :: xs' => let* _ := body x in for_each xs' body
  end.

(** ** export_model_weights.py *)

Module ExportWeights.

(** [joblib.load(path)].  A file that is not a pickle makes the unpickler
    raise at its first byte: a JSON object opens with a brace, which is no
    opcode, and the look-up of the opcode raises [KeyError].  For the other
    contents the class depends on the bytes, and [UnpicklingError] stands
    for it. *)
Definition joblib_load (path : string) : io world pyobj := fun w =>
  match files w !! path with
  | None => (Raise FileNotFoundError, w)
  | Some (FPickle obj) => (Ok obj, w)
  | Some (FJson (PDict _)) | Some (FJsonPrefix (PDict _)) =>
      (Raise KeyError, w)
  | Some _ => (Raise UnpicklingError, w)
  end.

(** What the [json] encoder accepts. *)
Fixpoint json_encodable (v : pyval) : bool :=
  match v with
  | PObject _ => false
  | PList l => forallb json_encodable l
  | PDict d => forallb (fun kv => json_encodable (snd kv)) d
  | _ => true
  end.

(** [with open(path, 'w') as f: json.dump(v, f, indent=2)]. Opening
    truncates the file; the encoder writes as it goes, so a value it
    cannot encode leaves an incomplete document behind.  A refused [open]
    raises an [OSError]: [PermissionError] stands for its class, which is
    [FileNotFoundError] when the directory is missing. *)
Definition dump_json (path : string) (v : pyval) : io world unit := fun w =>
  if decide (path ∈ locked w) then (Raise PermissionError, w)
  else if json_encodable v then (Ok tt, write_file path (FJson v) w)
  else (Raise TypeError, write_file path (FJsonPrefix v) w).

Definition attribute {A} (a : option A) : result A :=
  match a with
  | Some x => Ok x
  | None => Raise AttributeError
  end.

(** Lines 28-36. *)
Definition extract_parameters (coef_ : option (list (list float)))
    (intercept_ : option (list float)) : result (list float * float) :=
  coef ← attribute coef_;
  if Nat.eqb (length coef) 1 then
    feature_weights ← list_index coef 0;
    intercept ← attribute intercept_;
    bias ← list_index intercept 0;
    Ok (feature_weights, bias)
  else
    feature_weights ← list_index coef 1;
    intercept ← attribute intercept_;
    bias ← list_index intercept 1;
    Ok (feature_weights, bias).

Definition feature_names : list string :=
  ["breathing_rate"; "irregularity_index"; "amplitude_variation";
   "avg_velocity"].

(** Lines 50-56: the value used when [thresholds is None]. *)
Definition default_thresholds : dict :=
  [("BRADYPNEA_THRESHOLD", PFloat 10.0);
   ("TACHYPNEA_THRESHOLD", PFloat 24.0);
   ("IRREGULARITY_THRESHOLD", PFloat 0.4);
   ("AMPLITUDE_VARIATION_THRESHOLD", PFloat 40.0);
   ("VELOCITY_THRESHOLD", PFloat 8.0)].

(** Lines 44-46. *)
Definition make_weights (feature_weights : list float) (bias : float) : dict :=
  let weights :=
    dict_of_pairs (zip_py feature_names (map PFloat feature_weights)) in
  dict_set weights "bias" (PFloat bias).

(** Lines 59-64. *)
Definition make_output (weights : dict) (thresholds : pyval) : pyval :=
  PDict [("model_type", PStr "logistic_regression");
         ("weights", PDict weights);
         ("thresholds", thresholds);
         ("feature_names", PList (map PStr feature_names))].

(** Lines 41-42: a count that differs is reported and nothing else. *)
Definition warn_on_mismatch (feature_weights : list float)
  : io world unit :=
  if negb (Nat.eqb (length feature_weights) (length feature_names))
  then print (WeightCountMismatch (length feature_weights)
                                  (length feature_names))
  else io_ret tt.

(** Lines 49-56. *)
Definition chosen_thresholds (thresholds : option pyval) : pyval :=
  match thresholds with
  | None => PDict default_thresholds
  | Some t => t
  end.

(** Lines 21-74, the body of the [try]. *)
Definition export_body (model_path output_path : string)
    (thresholds : option pyval) : io world bool :=
  let* _ := print (LoadingModel model_path) in
  let* model := joblib_load model_path in
  match model with
  | OtherEstimator cls =>
      let* _ := print (ExpectedLogisticRegression cls) in
      io_ret false
  | LogisticRegression coef_ intercept_ =>
      let* (feature_weights, bias) :=
        lift (extract_parameters coef_ intercept_) in
      let* _ := warn_on_mismatch feature_weights in
      let weights := make_weights feature_weights bias in
      let thresholds := chosen_thresholds thresholds in
      let output := make_output weights thresholds in
      let* _ := dump_json output_path output in
      let* _ := print (ExportedTo output_path) in
      let* _ := print (ShowWeights weights) in
      let* _ := print (ShowThresholds thresholds) in
      io_ret true
  end.

(** Lines 11-78. *)
Definition export_model_weights (model_path output_path : string)
    (thresholds : option pyval) : io world bool :=
  try_except (export_body model_path output_path thresholds)
    (fun e => let* _ := print (ErrorExporting e) in io_ret false).

(** Lines 93-99: the thresholds the entry point passes. *)
Definition main_thresholds : dict :=
  [("BRADYPNEA_THRESHOLD", PFloat 10.0);
   ("TACHYPNEA_THRESHOLD", PFloat 24.0);
   ("IRREGULARITY_THRESHOLD", PFloat 0.4);
   ("AMPLITUDE_VARIATION_THRESHOLD", PFloat 40.0);
   ("VELOCITY_THRESHOLD", PFloat 8.0)].

(** [os.path.dirname]: [seen] is what has been read, reversed, and [head]
    what had been read at the last ['/'], reversed. *)
Fixpoint dirname_go (s seen head : string) : string :=
  match s with
  | EmptyString => head
  | String c s' =>
      let seen' := String c seen in
      if Ascii.eqb c "/" then dirname_go s' seen' seen'
      else dirname_go s' seen' head
  end.

Fixpoint all_slashes (s : string) : bool :=
  match s with
  | EmptyString => true
  | String c s' => Ascii.eqb c "/" && all_slashes s'
  end.

Fixpoint lstrip_slashes (s : string) : string :=
  match s with
  | EmptyString => EmptyString
  | String c s' => if Ascii.eqb c "/" then lstrip_slashes s' else s
  end.

(** The head through the last ['/'], without its closing slashes unless it
    is made of slashes only. *)
Definition dirname (path : string) : string :=
  let head := dirname_go path EmptyString EmptyString in
  if all_slashes head then String.rev head
  else String.rev (lstrip_slashes head).

(** [os.makedirs(name, exist_ok=True)].  The world holds files and no
    directories: a directory is there once it is asked for, unless its name
    is empty, which raises, or is the path of a file. *)
Definition makedirs (name : string) : io world unit := fun w =>
  if String.eqb name "" then (Raise FileNotFoundError, w)
  else match files w !! name with
       | Some _ => (Raise FileExistsError, w)
       | None => (Ok tt, w)
       end.

(** Lines 82-87: the two paths of the entry point. *)
Definition model_path_of (argv : list string) : string :=
  default "../model/respiratory_classifier.joblib" (argv !! 1%nat).

Definition output_path_of (argv : list string) : string :=
  default "../app/src/main/assets/python_model_weights.json"
          (argv !! 2%nat).

(** Lines 80-111, the entry point.  The value is [success]; the script
    exits with status 1 when it is [False], and with a traceback when
    [os.makedirs] raises. *)
Definition main (argv : list string) : io world bool :=
  let model_path := model_path_of argv in
  let output_path := output_path_of argv in
  let* _ := makedirs (dirname output_path) in
  let* success :=
    export_model_weights model_path output_path
                         (Some (PDict main_thresholds)) in
  if success : bool then
    let* _ := print (Say "Model weights exported successfully!") in
    let* _ := print (Say ("  Model source: " +:+ model_path)) in
    let* _ := print (Say ("  Exported to: " +:+ output_path)) in
    let* _ :=
      print (Say "Copy this file to the app's assets folder to use with the Android app.") in
    io_ret true
  else
    let* _ := print (Say "Failed to export model weights.") in
    io_ret false.

End ExportWeights.

(** Where the loaders record, as a ghost of the run, the denominator of each
    division they evaluate for a variability metric. *)
Class DivisionLog (S : Type) : Type := record_division : float -> S -> S.

(** [a / b] on [float64]; the division of NumPy never raises. *)
Definition divide {S} `{DivisionLog S} (a b : float) : io S float := fun s =>
  (Ok (a / b)%float, record_division b s).

(** [v > c] for a number [v]. *)
Definition py_gt (v : pyval) (c : float) : bool :=
match v with
| PFloat x => (c <? x)%float
| PInt z => (c <? float_of_Z z)%float
| _ => false
end.

(** ** respiratory_pattern_classification.py: load_bidmc_data *)

Module Bidmc.

#[local] Open Scope float_scope.

(** What the four files of one subject hold: the lines of [_Fix.txt] and the
    frames [pd.read_csv] returns for the three CSV files, or the exception
    that opening or parsing raises. *)
Record subject_files : Type := mk_subject_files {
  fix_txt : result (list string);
  signals_csv : result Pd.dataframe;
  numerics_csv : result Pd.dataframe;
  breaths_csv : result Pd.dataframe
}.

(** The console, the list [all_subjects] and the ghost record of divisions. *)
Record state : Type := mk_state {
  printed : list event;
  all_subjects : list dict;
  denominators : list float
}.

#[global] Instance state_console : Console state := fun e s =>
  {| printed := printed s ++ [e]; all_subjects := all_subjects s;
     denominators := denominators s |}.

#[global] Instance state_divisions : DivisionLog state := fun d s =>
  {| printed := printed s; all_subjects := all_subjects s;
     denominators := denominators s ++ [d] |}.

(** [all_subjects.append(row)]. *)
Definition append (row : dict) : io state unit := fun s =>
  (Ok tt, {| printed := printed s; all_subjects := all_subjects s ++ [row];
             denominators := denominators s |}).

(** [info[i].split(': ')[1].strip()]. *)
Definition info_field (info : list string) (i : nat) : result string :=
line ← list_index info i;
field ← list_index (Str.split ": " line) 1;
Ok (Str.strip field).

(** Lines 39-44. *)
Definition read_age `{Builtins} (info : list string) : result Z :=
age_line ← info_field info 5;
match py_int age_line with
| Ok age => Ok age
| Raise ValueError => Ok (if Str.contains "90+" age_line then 90 else 50)%Z
| Raise e => Raise e
end.

(** The three lists the breath loop fills: the durations are Python floats,
    the amplitudes and the velocities NumPy scalars of the dtype of the
    signal. *)
Record breaths : Type := mk_breaths {
  breath_durations : list float;
  breath_amplitudes : list num;
  breath_velocities : list num
}.

(** Line 77, [np.max(a) - np.min(a)]: on [int64] the difference wraps
    around, and text has no difference. *)
Definition segment_amplitude (breath_segment : Pd.column) : result num :=
match breath_segment with
| Pd.ColInt l =>
    highest ← Np.max_int l;
    lowest ← Np.min_int l;
    Ok (NInt (wrap64 (highest - lowest)))
| Pd.ColFloat l =>
    highest ← Np.max l;
    lowest ← Np.min l;
    Ok (NFloat (highest - lowest))
| Pd.ColObj [] => Raise ValueError
| Pd.ColObj (_ :: _) => Raise TypeError
end.

(** Line 82, [np.max(np.abs(np.diff(a)))]: on [int64] the differences and
    the absolute value wrap around. *)
Definition segment_velocity (breath_segment : Pd.column) : result num :=
match breath_segment with
| Pd.ColInt l =>
    v ← Np.max_int (map (fun d => wrap64 (Z.abs d)) (Np.diff_int l));
    Ok (NInt v)
| Pd.ColFloat l =>
    v ← Np.max (map abs (Np.diff l));
    Ok (NFloat v)
| Pd.ColObj (_ :: _ :: _) => Raise TypeError
| Pd.ColObj _ => Raise ValueError
end.

(** Lines 69-83, one turn of the loop over the annotated breaths. *)
Definition breath_step (resp_signal : Pd.column) (acc : breaths)
    (annotation : Pd.cell * Pd.cell) : result breaths :=
match annotation with
| (Pd.CInt start, Pd.CInt stop) =>
    if (start <? stop)%Z then
      let breath_segment := Pd.slice resp_signal start stop in
      if (0 <? Pd.len breath_segment)%nat then
        let duration := true_divide (stop - start) 125 in
        amplitude ← segment_amplitude breath_segment;
        velocities ←
          (if (1 <? Pd.len breath_segment)%nat then
             velocity ← segment_velocity breath_segment;
             Ok (breath_velocities acc ++ [velocity])
           else Ok (breath_velocities acc));
        Ok {| breath_durations := breath_durations acc ++ [duration];
              breath_amplitudes := breath_amplitudes acc ++ [amplitude];
              breath_velocities := velocities |}
      else Ok acc
    else Ok acc
| _ => Ok acc
end.

(** Lines 64-83. *)
Fixpoint breath_loop (resp_signal : Pd.column) (acc : breaths)
    (annotations : list (Pd.cell * Pd.cell)) : result breaths :=
match annotations with
| [] => Ok acc
| a :: rest =>
    acc' ← breath_step resp_signal acc a;
    breath_loop resp_signal acc' rest
end.

(** Lines 104-110. *)
Definition is_abnormal (breathing_rate : float)
    (amplitude_variability duration_variability : pyval) : bool :=
(breathing_rate <? 10) || (24 <? breathing_rate)
|| py_gt amplitude_variability 0.4 || py_gt duration_variability 0.4.

(** Lines 85-127: the row of a subject that has breaths to measure. *)
Definition summarize (subject_id age : Z) (gender : string) (b : breaths)
    : io state unit :=
match breath_durations b, breath_amplitudes b, breath_velocities b with
| _ :: _, _ :: _, _ :: _ =>
    let total_duration := Np.sum (breath_durations b) in
    let breathing_rate := 60 / Np.mean (breath_durations b) in
    let avg_amplitude := Np.mean (map num_float (breath_amplitudes b)) in
    let* max_amplitude := lift (Np.max_num (breath_amplitudes b)) in
    let* min_amplitude := lift (Np.min_num (breath_amplitudes b)) in
    let avg_velocity := Np.mean (map num_float (breath_velocities b)) in
    let* amplitude_variability :=
      if 0 <? avg_amplitude
      then let* q := divide (Np.std (map num_float (breath_amplitudes b)))
                            avg_amplitude in
           io_ret (PFloat q)
      else io_ret (PInt 0) in
    let* duration_variability :=
      if 0 <? Np.mean (breath_durations b)
      then let* q := divide (Np.std (breath_durations b))
                            (Np.mean (breath_durations b)) in
           io_ret (PFloat q)
      else io_ret (PInt 0) in
    let abnormal :=
      is_abnormal breathing_rate amplitude_variability duration_variability in
    let subject_data : dict :=
      [("subject_id", PInt subject_id);
       ("age", PInt age);
       ("gender", PInt (if String.eqb gender "M" then 1 else 0));
       ("breathing_rate", PFloat breathing_rate);
       ("avg_amplitude", PFloat avg_amplitude);
       ("max_amplitude", num_value max_amplitude);
       ("min_amplitude", num_value min_amplitude);
       ("avg_velocity", PFloat avg_velocity);
       ("amplitude_variability", amplitude_variability);
       ("duration_variability", duration_variability);
       ("abnormal", PInt (if abnormal then 1 else 0))] in
    let* _ := append subject_data in
    print (ProcessedSubject subject_id abnormal)
| _, _, _ => io_ret tt
end.

(** Lines 36-83: everything read and measured for one subject. *)
Definition measure `{Builtins} (f : subject_files)
    : result (Z * string * breaths) :=
info ← fix_txt f;
age ← read_age info;
gender ← info_field info 6;
location ← info_field info 7;
signals_df ← signals_csv f;
resp_signal ← Pd.getitem signals_df "RESP";
numerics_df ← numerics_csv f;
numerics_resp ← Pd.getitem numerics_df "RESP";
resp_rate ← Pd.series_mean numerics_resp;
breaths_df ← breaths_csv f;
breath_start ← Pd.getitem breaths_df "breath_start";
breath_end ← Pd.getitem breaths_df "breath_end";
b ← breath_loop resp_signal
       {| breath_durations := []; breath_amplitudes := [];
          breath_velocities := [] |}
       (zip_py (Pd.cells breath_start) (Pd.cells breath_end));
Ok (age, gender, b).

(** Lines 35-130, one turn of the loop over the subjects. *)
Definition process_subject `{Builtins} (dataset : Z -> subject_files)
    (subject_id : Z) : io state unit :=
try_except
  (let* m := lift (measure (dataset subject_id)) in
   summarize subject_id (fst (fst m)) (snd (fst m)) (snd m))
  (fun e => print (ErrorProcessingSubject subject_id e)).

(** [s['abnormal']] of a row. *)
Definition abnormal_of (row : dict) : Z :=
match dict_get row "abnormal" with
| Some (PInt z) => z
| _ => 0%Z
end.

(** Lines 29-138.  The value returned is the list [all_subjects] of which
    the frame is built: [pd.DataFrame] makes a row of each record, in
    order, and gives each column one dtype, so that an integer that meets
    floats in its column is read back from the frame as a float.  The list
    keeps the records as they were appended. *)
Definition load_bidmc_data `{Builtins} (dataset : Z -> subject_files)
    : io state (list dict) :=
let* _ := (fun s => (Ok tt, {| printed := printed s; all_subjects := [];
                               denominators := denominators s |})) in
let* _ := for_each (seqZ 1 53) (process_subject dataset) in
let* rows := (fun s => (Ok (all_subjects s), s)) in
let* _ :=
  match rows with
  | [] => io_ret tt
  | _ :: _ =>
      print (ClassDistribution (foldr Z.add 0%Z (map abnormal_of rows))
                               (Z.of_nat (length rows)))
  end in
io_ret rows.

End Bidmc.

(** ** respiratory_pattern_classification.py: load_qr_respiratory_data *)

Module Qr.

#[local] Open Scope float_scope.

(** One file matched by the [glob]: its path, what [f.read()] returns, and
    the frame [pd.read_csv(file_path, skiprows=k)] returns for each [k]. *)
Record log_file : Type := mk_log_file {
  file_path : string;
  content : result string;
  read_csv : nat -> result Pd.dataframe
}.

(** The console, the list [all_data], the local variable [header_index]
    (unbound until a line with ['timestamp'] has been seen, and kept from one
    file to the next) and the ghost record of divisions. *)
Record state : Type := mk_state {
  printed : list event;
  all_data : list dict;
  header_index : option nat;
  denominators : list float
}.

#[global] Instance state_console : Console state := fun e s =>
  {| printed := printed s ++ [e]; all_data := all_data s;
     header_index := header_index s; denominators := denominators s |}.

#[global] Instance state_divisions : DivisionLog state := fun d s =>
  {| printed := printed s; all_data := all_data s;
     header_index := header_index s;
     denominators := denominators s ++ [d] |}.

Definition append (row : dict) : io state unit := fun s =>
  (Ok tt, {| printed := printed s; all_data := all_data s ++ [row];
             header_index := header_index s;
             denominators := denominators s |}).

Definition set_header_index (i : nat) : io state unit := fun s =>
  (Ok tt, {| printed := printed s; all_data := all_data s;
             header_index := Some i; denominators := denominators s |}).

(** Reading a local variable that was never assigned raises. *)
Definition get_header_index : io state nat := fun s =>
  match header_index s with
  | Some i => (Ok i, s)
  | None => (Raise UnboundLocalError, s)
  end.

(** Lines 214-223: the values read from the header, [None] at first. *)
Record header : Type := mk_header {
  patient_id : option string;
  age : option Z;
  gender : option string;
  health_status : option string;
  total_duration : option float;
  breathing_rate : option float;
  avg_amplitude : option float;
  max_amplitude : option float;
  min_amplitude : option float;
  total_breaths : option Z
}.

Definition no_header : header :=
{| patient_id := None; age := None; gender := None; health_status := None;
   total_duration := None; breathing_rate := None; avg_amplitude := None;
   max_amplitude := None; min_amplitude := None; total_breaths := None |}.

(** [line.split(key)[1]]. *)
Definition after (key line : string) : result string :=
list_index (Str.split key line) 1.

(** [text.split(unit)[0]]. *)
Definition before (unit_name text : string) : result string :=
list_index (Str.split unit_name text) 0.

(** Lines 228-247: the chain of tests on one line. *)
Definition header_line `{Builtins} (h : header) (line : string)
    : result header :=
if Str.contains "ID:" line then
  v ← after "ID:" line;
  Ok {| patient_id := Some (Str.strip v); age := age h; gender := gender h;
        health_status := health_status h;
        total_duration := total_duration h;
        breathing_rate := breathing_rate h; avg_amplitude := avg_amplitude h;
        max_amplitude := max_amplitude h; min_amplitude := min_amplitude h;
        total_breaths := total_breaths h |}
else if Str.contains "Age:" line then
  v ← after "Age:" line;
  n ← py_int (Str.strip v);
  Ok {| patient_id := patient_id h; age := Some n; gender := gender h;
        health_status := health_status h;
        total_duration := total_duration h;
        breathing_rate := breathing_rate h; avg_amplitude := avg_amplitude h;
        max_amplitude := max_amplitude h; min_amplitude := min_amplitude h;
        total_breaths := total_breaths h |}
else if Str.contains "Gender:" line then
  v ← after "Gender:" line;
  Ok {| patient_id := patient_id h; age := age h;
        gender := Some (Str.strip v);
        health_status := health_status h;
        total_duration := total_duration h;
        breathing_rate := breathing_rate h; avg_amplitude := avg_amplitude h;
        max_amplitude := max_amplitude h; min_amplitude := min_amplitude h;
        total_breaths := total_breaths h |}
else if Str.contains "Health Status:" line then
  v ← after "Health Status:" line;
  Ok {| patient_id := patient_id h; age := age h; gender := gender h;
        health_status := Some (Str.strip v);
        total_duration := total_duration h;
        breathing_rate := breathing_rate h; avg_amplitude := avg_amplitude h;
        max_amplitude := max_amplitude h; min_amplitude := min_amplitude h;
        total_breaths := total_breaths h |}
else if Str.contains "Total Duration:" line then
  v ← after "Total Duration:" line;
  u ← before "seconds" v;
  x ← py_float (Str.strip u);
  Ok {| patient_id := patient_id h; age := age h; gender := gender h;
        health_status := health_status h;
        total_duration := Some x;
        breathing_rate := breathing_rate h; avg_amplitude := avg_amplitude h;
        max_amplitude := max_amplitude h; min_amplitude := min_amplitude h;
        total_breaths := total_breaths h |}
else if Str.contains "Breathing Rate:" line then
  v ← after "Breathing Rate:" line;
  u ← before "breaths/minute" v;
  x ← py_float (Str.strip u);
  Ok {| patient_id := patient_id h; age := age h; gender := gender h;
        health_status := health_status h;
        total_duration := total_duration h;
        breathing_rate := Some x; avg_amplitude := avg_amplitude h;
        max_amplitude := max_amplitude h; min_amplitude := min_amplitude h;
        total_breaths := total_breaths h |}
else if Str.contains "Average Amplitude:" line then
  v ← after "Average Amplitude:" line;
  x ← py_float (Str.strip v);
  Ok {| patient_id := patient_id h; age := age h; gender := gender h;
        health_status := health_status h;
        total_duration := total_duration h;
        breathing_rate := breathing_rate h; avg_amplitude := Some x;
        max_amplitude := max_amplitude h; min_amplitude := min_amplitude h;
        total_breaths := total_breaths h |}
else if Str.contains "Maximum Amplitude:" line then
  v ← after "Maximum Amplitude:" line;
  x ← py_float (Str.strip v);
  Ok {| patient_id := patient_id h; age := age h; gender := gender h;
        health_status := health_status h;
        total_duration := total_duration h;
        breathing_rate := breathing_rate h; avg_amplitude := avg_amplitude h;
        max_amplitude := Some x; min_amplitude := min_amplitude h;
        total_breaths := total_breaths h |}
else if Str.contains "Minimum Amplitude:" line then
  v ← after "Minimum Amplitude:" line;
  x ← py_float (Str.strip v);
  Ok {| patient_id := patient_id h; age := age h; gender := gender h;
        health_status := health_status h;
        total_duration := total_duration h;
        breathing_rate := breathing_rate h; avg_amplitude := avg_amplitude h;
        max_amplitude := max_amplitude h; min_amplitude := Some x;
        total_breaths := total_breaths h |}
else if Str.contains "Total Breaths:" line then
  v ← after "Total Breaths:" line;
  n ← py_int (Str.strip v);
  Ok {| patient_id := patient_id h; age := age h; gender := gender h;
        health_status := health_status h;
        total_duration := total_duration h;
        breathing_rate := breathing_rate h; avg_amplitude := avg_amplitude h;
        max_amplitude := max_amplitude h; min_amplitude := min_amplitude h;
        total_breaths := Some n |}
else Ok h.

(** Lines 227-252: the loop over the lines, left at the first line that
    holds ['timestamp']. *)
Fixpoint parse_header `{Builtins} (lines : list string) (i : nat) (h : header)
    : io state header :=
match lines with
| [] => io_ret h
| line :: rest =>
    let* h' := lift (header_line h line) in
    if Str.contains "timestamp" line
    then let* _ := set_header_index i in io_ret h'
    else parse_header rest (S i) h'
end.

Definition cell_eqb (a b : Pd.cell) : bool :=
match a, b with
| Pd.CInt x, Pd.CInt y => (x =? y)%Z
| Pd.CFloat x, Pd.CFloat y => (x =? y)%float
| Pd.CStr x, Pd.CStr y => String.eqb x y
| _, _ => false
end.

(** [s != s.shift()]: a row against the row before it; the first row has a
    missing value before it and differs from it. *)
Fixpoint ne_shift_from (prev : option Pd.cell) (cs : list Pd.cell)
    : list bool :=
match cs with
| [] => []
| c :: rest =>
    match prev with
    | None => true
    | Some p => negb (cell_eqb c p)
    end :: ne_shift_from (Some c) rest
end.

Definition ne_shift (c : Pd.column) : list bool :=
ne_shift_from None (Pd.cells c).

(** [.cumsum()] on truth values. *)
Fixpoint cumsum_from (acc : Z) (bs : list bool) : list Z :=
match bs with
| [] => []
| b :: rest =>
    let acc' := if b then (acc + 1)%Z else acc in
    acc' :: cumsum_from acc' rest
end.

Definition cumsum (bs : list bool) : list Z := cumsum_from 0 bs.

(** [df.groupby(keys)]: the distinct keys in increasing order, each with the
    positions of its rows. *)
Definition groupby (keys : list Z) : list (Z * list nat) :=
map (fun k =>
       (k, map snd (List.filter (fun p => (fst p =? k)%Z)
                                (zip_py keys (seq 0 (length keys))))))
    (merge_sort Z.le (remove_dups keys)).

(** [end_time - start_time] as NumPy later reads it: the difference of two
    [int64] wraps around. *)
Definition elapsed (end_time start_time : Pd.cell) : result float :=
match end_time, start_time with
| Pd.CInt e, Pd.CInt b => Ok (int64_float (wrap64 (e - b)))
| Pd.CFloat e, Pd.CFloat b => Ok (e - b)
| _, _ => Raise TypeError
end.

(** Lines 267-271. *)
Fixpoint phase_loop (df : Pd.dataframe) (groups : list (Z * list nat))
    (phase_durations : list float) : result (list float) :=
match groups with
| [] => Ok phase_durations
| (_, group) :: rest =>
    if (1 <? length group)%nat then
      timestamp ← Pd.getitem df "timestamp";
      start_time ← list_index (Pd.cells timestamp) (List.hd 0%nat group);
      end_time ← list_index (Pd.cells timestamp) (List.last group 0%nat);
      d ← elapsed end_time start_time;
      phase_loop df rest (phase_durations ++ [d])
    else phase_loop df rest phase_durations
end.

(** [x if x else 0] for an optional number. *)
Definition float_or_zero (x : option float) : pyval :=
match x with
| Some v => if v =? 0 then PInt 0 else PFloat v
| None => PInt 0
end.

(** [os.path.basename]: what follows the last ['/']. *)
Fixpoint basename_go (s cur : string) : string :=
match s with
| EmptyString => String.rev cur
| String c s' =>
    if Ascii.eqb c "/" then basename_go s' EmptyString
    else basename_go s' (String c cur)
end.

Definition basename (path : string) : string := basename_go path EmptyString.

(** Lines 255-273 and 285: the metrics computed from the frame, the mean
    of the velocities being taken last, where the row is built. *)
Definition metrics (df : Pd.dataframe) (h : header)
    : io state (float * pyval * pyval) :=
let* amplitudes := lift (Pd.getitem df "amplitude") in
let* velocity := lift (Pd.getitem df "velocity") in
let* velocities := lift (Pd.abs_values velocity) in
let* amplitude_variability :=
  match avg_amplitude h with
  | None => lift (Raise TypeError)
  | Some avg =>
      if 0 <? avg
      then let* spread := lift (Pd.np_std amplitudes) in
           let* q := divide spread avg in
           io_ret (PFloat q)
      else io_ret (PInt 0)
  end in
let* breathing_phase := lift (Pd.getitem df "breathing_phase") in
let phase_groups := groupby (cumsum (ne_shift breathing_phase)) in
let* phase_durations := lift (phase_loop df phase_groups []) in
let* duration_variability :=
  match phase_durations with
  | [] => io_ret (PInt 0)
  | _ :: _ =>
      if 0 <? Np.mean phase_durations
      then let* q := divide (Np.std phase_durations)
                            (Np.mean phase_durations) in
           io_ret (PFloat q)
      else io_ret (PInt 0)
  end in
let* avg_velocity := lift (Pd.np_mean_abs velocity) in
io_ret (avg_velocity, amplitude_variability, duration_variability).

(** Lines 276-289. *)
Definition summary (f : log_file) (h : header) (avg_velocity : float)
    (amplitude_variability duration_variability : pyval) : dict :=
[("patient_id",
  PStr (match patient_id h with
        | Some p => if String.eqb p "" then "0" else p
        | None => "0"
        end));
 ("age", PInt (default 0%Z (age h)));
 ("gender",
  PInt (match gender h with
        | Some g => if String.eqb g "Male" then 1 else 0
        | None => 0
        end));
 ("health_status",
  PStr (match health_status h with
        | Some p => if String.eqb p "" then "Unknown" else p
        | None => "Unknown"
        end));
 ("breathing_rate", float_or_zero (breathing_rate h));
 ("avg_amplitude", float_or_zero (avg_amplitude h));
 ("max_amplitude", float_or_zero (max_amplitude h));
 ("min_amplitude", float_or_zero (min_amplitude h));
 ("avg_velocity", PFloat avg_velocity);
 ("amplitude_variability", amplitude_variability);
 ("duration_variability", duration_variability);
 ("file_path", PStr (basename (file_path f)))].

(** Lines 209-289: the header and the row of one file. *)
Definition summarize `{Builtins} (f : log_file) : io state (header * dict) :=
let* text := lift (content f) in
let lines := Str.split (String "010"%char EmptyString) text in
let* h := parse_header lines 0 no_header in
let* skiprows := get_header_index in
let* df := lift (read_csv f skiprows) in
let* m := metrics df h in
io_ret (h, summary f h (fst (fst m)) (snd (fst m)) (snd m)).

(** Line 292: formatting an absent breathing rate with [:.2f] raises. *)
Definition report (f : log_file) (h : header) : io state unit :=
match breathing_rate h with
| Some rate => print (ProcessedFile (file_path f) rate)
| None => lift (Raise TypeError)
end.

(** Lines 209-292, the body of the [try]. *)
Definition process_body `{Builtins} (f : log_file) : io state unit :=
let* hs := summarize f in
let* _ := append (snd hs) in
report f (fst hs).

(** Lines 207-295, one turn of the loop over the files. *)
Definition process_file `{Builtins} (f : log_file) : io state unit :=
try_except (process_body f)
  (fun e => print (ErrorLoadingFile (file_path f) e)).

(** Lines 202-300.  As for [load_bidmc_data], the value returned is the
    list [all_data] of which the frame is built, with the records as they
    were appended. *)
Definition load_qr_respiratory_data `{Builtins} (files : list log_file)
    : io state (list dict) :=
let* _ := (fun s => (Ok tt, {| printed := printed s; all_data := [];
                               header_index := None;
                               denominators := denominators s |})) in
let* _ := for_each files process_file in
let* rows := (fun s => (Ok (all_data s), s)) in
match rows with
| [] => lift (Raise ValueError)
| _ :: _ => io_ret rows
end.

End Qr.

(** ** download_coco_model.py *)

Module Download.

(** What [requests.get(url, stream=True)] gives back: whether the status is
    a success, the [content-length] header when there is one, the chunks the
    body delivers, and the exception that breaks the stream after them, if
    any. *)
Record response : Type := mk_response {
  status_ok : bool;
  content_length : option string;
  body : list string;
  broken : option exn
}.

(** The network: the answer to a request for a URL, or the exception the
    request raises. *)
Definition network : Type := string -> result response.

(** [open(filename, 'wb')]: the file is created empty, or emptied. *)
Definition open_wb (filename : string) : io world unit := fun w =>
  if decide (filename ∈ locked w) then (Raise PermissionError, w)
  else (Ok tt, write_file filename (FBinary []) w).

(** [f.write(chunk)]. *)
Definition write_chunk (filename chunk : string) : io world unit := fun w =>
  match files w !! filename with
  | Some (FBinary chunks) =>
      (Ok tt, write_file filename (FBinary (chunks ++ [chunk])) w)
  | _ => (Ok tt, write_file filename (FBinary [chunk]) w)
  end.

(** Lines 21-27: the loop over the chunks of the body. *)
Fixpoint write_chunks (filename : string) (total_size downloaded : Z)
    (chunks : list string) (broken : option exn) : io world unit :=
match chunks with
| [] =>
    match broken with
    | Some e => lift (Raise e)
    | None => io_ret tt
    end
| chunk :: rest =>
    if String.eqb chunk "" then
      write_chunks filename total_size downloaded rest broken
    else
      let* _ := write_chunk filename chunk in
      let downloaded := downloaded + Z.of_nat (String.length chunk) in
      let* _ :=
        if 0 <? total_size then print (Progress downloaded total_size)
        else io_ret tt in
      write_chunks filename total_size downloaded rest broken
end.

(** Lines 10-29. *)
Definition download_file `{Builtins} (net : network) (url filename : string)
    : io world unit :=
let* _ := print (Downloading filename) in
let* response := lift (net url) in
let* _ := if status_ok response then io_ret tt else lift (Raise HTTPError) in
let* total_size :=
  match content_length response with
  | Some text => lift (py_int text)
  | None => io_ret 0
  end in
let* _ := open_wb filename in
let* _ := write_chunks filename total_size 0 (body response)
                       (broken response) in
print (Downloaded filename).

Record model : Type := mk_model {
  url : string;
  filename : string;
  description : string
}.

(** Lines 33-48. *)
Definition assets_dir : string := "app/src/main/assets".

Definition models : list model :=
[{| url := "https://github.com/ultralytics/yolov5/releases/download/v7.0/yolov5s.tflite";
    filename := assets_dir +:+ "/yolov5s_coco.tflite";
    description := "YOLOv5s COCO model (14MB) - Good balance of speed and accuracy" |};
 {| url := "https://github.com/ultralytics/yolov5/releases/download/v7.0/yolov5n.tflite";
    filename := assets_dir +:+ "/yolov5n_coco.tflite";
    description := "YOLOv5n COCO model (4MB) - Fastest, lower accuracy" |}].

(** Lines 54-59: the model in place is renamed once, never overwritten. *)
Definition backup : io world unit := fun w =>
  let qr_model := assets_dir +:+ "/qr_yolov5_tiny.tflite" in
  let backup_path := assets_dir +:+ "/qr_yolov5_tiny.tflite.backup" in
  match files w !! qr_model, files w !! backup_path with
  | Some f, None =>
      print (BackedUp backup_path)
        {| files := <[backup_path := f]> (delete qr_model (files w));
           locked := locked w; console := console w |}
  | _, _ => (Ok tt, w)
  end.

(** Lines 63-68, one turn of the loop over the models. *)
Definition attempt `{Builtins} (net : network) (m : model) : io world unit :=
let* _ := print (DownloadDescription (description m)) in
try_except (download_file net (url m) (filename m))
  (fun e => print (FailedToDownload (filename m) e)).

(** Lines 31-76. The listing of the directory that follows (lines 78-82)
    only prints, and is left out. *)
Definition main `{Builtins} (net : network) : io world unit :=
let* _ := print (Say "YOLOv5 COCO Model Downloader") in
let* _ := print (Say "==================================================") in
let* _ := backup in
let* _ := for_each models (attempt net) in
let* _ := print (Say "==================================================") in
let* _ := print (Say "Download complete!") in
let* _ := print (Say "Next steps:") in
let* _ := print (Say "1. Update YoloChestDetector.kt to use 'yolov5s_coco.tflite'") in
let* _ := print (Say "2. Modify the detection logic for person detection") in
let* _ := print (Say "3. Implement chest region cropping") in
print (Say "4. Test the application").

End Download.

(** ** respiratory_pattern_classification.py: the report of
    analyze_breathing_patterns *)

Module Analysis.

#[local] Open Scope float_scope.

(** A row of the session frame with the two columns the model adds, as
    [iterrows] yields it. *)
Record row : Type := mk_row {
  patient_id : string;
  file_path : string;
  predicted_abnormal : Z;
  abnormal_probability : float;
  breathing_rate : float;
  avg_amplitude : float;
  amplitude_variability : float;
  duration_variability : float
}.

(** The lines the report prints, with the values they format. *)
Inductive line : Type :=
| Title
| Rule
| Pattern (patient file : string) (abnormal : bool) (confidence : float)
| Rate (rate : float) (normal : bool)
| Amplitude (average variability : float)
| DurationVariability (variability : float)
| Bradypnea
| Tachypnea
| HighAmplitudeVariability
| HighTimingVariability.

(** Lines 330-354, one turn of the loop over the rows. *)
Definition interpret (r : row) : list line :=
let pattern := (predicted_abnormal r =? 1)%Z in
let confidence := abnormal_probability r * 100 in
let rate_status := (12 <=? breathing_rate r) && (breathing_rate r <=? 20) in
[Pattern (patient_id r) (file_path r) pattern confidence;
 Rate (breathing_rate r) rate_status;
 Amplitude (avg_amplitude r) (amplitude_variability r);
 DurationVariability (duration_variability r)]
++ (if breathing_rate r <? 12 then [Bradypnea]
    else if 20 <? breathing_rate r then [Tachypnea]
    else [])
++ (if 0.3 <? amplitude_variability r then [HighAmplitudeVariability]
    else [])
++ (if 0.3 <? duration_variability r then [HighTimingVariability] else [])
++ [Rule].

(** Lines 327-354. *)
Definition report (rows : list row) : list line :=
Title :: Rule :: concat (map interpret rows).

End Analysis.

(** ** Vocabulary of the properties of the report *)

Section AnalysisVocabulary.

Import Analysis.

(** The rate of a row is reported as normal. *)
Definition says_normal_rate (lines : list line) : bool :=
existsb (fun l => match l with Rate _ true => true | _ => false end) lines.

(** The rate of a row is reported as abnormal. *)
Definition says_abnormal_rate (lines : list line) : bool :=
existsb (fun l => match l with Rate _ false => true | _ => false end) lines.

Definition says_bradypnea (lines : list line) : bool :=
existsb (fun l => match l with Bradypnea => true | _ => false end) lines.

Definition says_tachypnea (lines : list line) : bool :=
existsb (fun l => match l with Tachypnea => true | _ => false end) lines.

End AnalysisVocabulary.

(** ** A sample row of the report *)

Module AnalysisSamples.

#[local] Open Scope float_scope.

(** A session with 27 breaths a minute that the model finds abnormal. *)
Definition fast_row : Analysis.row :=
{| Analysis.patient_id := "17";
   Analysis.file_path := "respiratory_data_1.csv";
   Analysis.predicted_abnormal := 1;
   Analysis.abnormal_probability := 0.75;
   Analysis.breathing_rate := 27;
   Analysis.avg_amplitude := 2;
   Analysis.amplitude_variability := 0.5;
   Analysis.duration_variability := 0.25 |}.

End AnalysisSamples.

(** ** Sample inputs for the loaders *)

(** An instance of the conversions for the sample inputs: plain decimal
    literals, read as [int] and [float] read them. *)
Module Decimal.

Fixpoint digits (s : string) (acc : Z) : option Z :=
match s with
| EmptyString => Some acc
| String c s' =>
    match Ascii.is_nat c with
    | Some d => digits s' (10 * acc + Z.of_nat d)
    | None => None
    end
end.

Definition unsigned (s : string) : option Z :=
if String.eqb s "" then None else digits s 0.

Definition signed (s : string) : bool * string :=
match s with
| String "-" s' => (true, s')
| String "+" s' => (false, s')
| _ => (false, s)
end.

Definition int_literal (s : string) : result Z :=
let '(negative, body) := signed (Str.strip s) in
match unsigned body with
| Some n => Ok (if negative then - n else n)
| None => Raise ValueError
end.

Definition float_literal (s : string) : result float :=
let '(negative, body) := signed (Str.strip s) in
let with_sign (x : float) := if negative then (- x)%float else x in
match Str.split "." body with
| [whole] =>
    match unsigned whole with
    | Some n => Ok (with_sign (float_of_Z n))
    | None => Raise ValueError
    end
| [whole; fraction] =>
    if String.eqb whole "" && String.eqb fraction "" then Raise ValueError
    else
      match digits whole 0, digits fraction 0 with
      | Some a, Some b =>
          let scale := 10 ^ Z.of_nat (String.length fraction) in
          Ok (with_sign (float_of_Z (a * scale + b) / float_of_Z scale)%float)
      | _, _ => Raise ValueError
      end
| _ => Raise ValueError
end.

#[global] Instance builtins : Builtins :=
{| py_int := int_literal; py_float := float_literal |}.

End Decimal.

Module BidmcSamples.

#[local] Open Scope float_scope.

Definition fix_lines (age gender : string) : list string :=
["Subject details"; "ID: bidmc"; "Recording"; "Sampling: 125 Hz"; "Notes";
 "Age: " +:+ age; "Gender: " +:+ gender; "Location: micu"].

(** One annotated breath of 1000 samples (8 seconds) on a flat signal. *)
Definition slow_subject : Bidmc.subject_files :=
{| Bidmc.fix_txt := Ok (fix_lines "34" "M");
   Bidmc.signals_csv := Ok [("RESP", Pd.ColFloat (replicate 1000 0.5))];
   Bidmc.numerics_csv := Ok [("RESP", Pd.ColInt [8; 7; 8]%Z)];
   Bidmc.breaths_csv := Ok [("breath_start", Pd.ColInt [0]%Z);
                            ("breath_end", Pd.ColInt [1000]%Z)] |}.

(** Two breaths of 500 samples (4 seconds) each on a signal of period 4. *)
Definition steady_subject : Bidmc.subject_files :=
{| Bidmc.fix_txt := Ok (fix_lines "90+" "F");
   Bidmc.signals_csv :=
     Ok [("RESP", Pd.ColFloat (mjoin (replicate 250 [0; 1; 2; 1])))];
   Bidmc.numerics_csv := Ok [("RESP", Pd.ColFloat [15; 15.5])];
   Bidmc.breaths_csv := Ok [("breath_start", Pd.ColInt [0; 500]%Z);
                            ("breath_end", Pd.ColInt [500; 1000]%Z)] |}.

(** A subject whose files are not on disk. *)
Definition missing_subject : Bidmc.subject_files :=
{| Bidmc.fix_txt := Raise FileNotFoundError;
   Bidmc.signals_csv := Raise FileNotFoundError;
   Bidmc.numerics_csv := Raise FileNotFoundError;
   Bidmc.breaths_csv := Raise FileNotFoundError |}.

(** A subject with files in order and no breath annotated. *)
Definition silent_subject : Bidmc.subject_files :=
{| Bidmc.fix_txt := Ok (fix_lines "61" "F");
   Bidmc.signals_csv := Ok [("RESP", Pd.ColFloat [0; 1; 0])];
   Bidmc.numerics_csv := Ok [("RESP", Pd.ColFloat [14])];
   Bidmc.breaths_csv := Ok [("breath_start", Pd.ColInt []%Z);
                            ("breath_end", Pd.ColInt []%Z)] |}.

Definition dataset (subject_id : Z) : Bidmc.subject_files :=
if (subject_id =? 1)%Z then slow_subject
else if (subject_id =? 3)%Z then steady_subject
else if (subject_id =? 4)%Z then silent_subject
else missing_subject.

Definition start : Bidmc.state :=
{| Bidmc.printed := []; Bidmc.all_subjects := []; Bidmc.denominators := [] |}.

End BidmcSamples.

Module QrSamples.

#[local] Open Scope float_scope.

Definition newline : string := String "010"%char EmptyString.

Definition table_header : string :=
"timestamp,amplitude,velocity,breathing_phase".

Definition table_rows : list string :=
["0,1.0,2.0,inhaling"; "1,3.0,-2.0,exhaling"; "2,1.0,2.0,exhaling";
 "3,3.0,-2.0,exhaling"; "4,1.0,2.0,inhaling"; "6,3.0,-2.0,inhaling"].

(** The frame of these six samples: a run of one, a run of three and a run
    of two. *)
Definition frame : Pd.dataframe :=
[("timestamp", Pd.ColInt [0; 1; 2; 3; 4; 6]%Z);
 ("amplitude", Pd.ColFloat [1; 3; 1; 3; 1; 3]);
 ("velocity", Pd.ColFloat [2; -2; 2; -2; 2; -2]);
 ("breathing_phase",
  Pd.ColObj ["inhaling"; "exhaling"; "exhaling"; "exhaling";
             "inhaling"; "inhaling"])].

Definition log (path : string) (header_lines : list string) : Qr.log_file :=
{| Qr.file_path := path;
   Qr.content :=
     Ok (String.concat newline (header_lines ++ table_header :: table_rows));
   Qr.read_csv := fun k =>
     if Nat.eqb k (length header_lines) then Ok frame else Raise ValueError |}.

Definition full_log : Qr.log_file :=
log "respiratory_data/respiratory_data_1.csv"
    ["Patient ID: 17"; "Age: 41"; "Gender: Male"; "Health Status: Healthy";
     "Total Duration: 6.0 seconds"; "Breathing Rate: 15.5 breaths/minute";
     "Average Amplitude: 2.0"; "Maximum Amplitude: 3.0";
     "Minimum Amplitude: 1.0"; "Total Breaths: 2"].

(** The same session with an average amplitude of zero in the header. *)
Definition flat_log : Qr.log_file :=
log "respiratory_data/respiratory_data_2.csv"
    ["Patient ID: 18"; "Breathing Rate: 12.0 breaths/minute";
     "Average Amplitude: 0.0"].

(** A header without the breathing rate. *)
Definition no_rate_log : Qr.log_file :=
log "respiratory_data/respiratory_data_3.csv"
    ["Patient ID: 19"; "Average Amplitude: 2.0"].

(** A file that cannot be read. *)
Definition unreadable_log : Qr.log_file :=
{| Qr.file_path := "respiratory_data/respiratory_data_4.csv";
   Qr.content := Raise PermissionError;
   Qr.read_csv := fun _ => Raise PermissionError |}.

Definition start : Qr.state :=
{| Qr.printed := []; Qr.all_data := []; Qr.header_index := None;
   Qr.denominators := [] |}.

End QrSamples.

Module DownloadSamples.

(** A network on which only the smaller model can be fetched. *)
Definition small_model_only : Download.network := fun url =>
  if String.eqb url
       "https://github.com/ultralytics/yolov5/releases/download/v7.0/yolov5n.tflite"
  then Ok {| Download.status_ok := true;
             Download.content_length := Some "4";
             Download.body := ["ab"; ""; "cd"];
             Download.broken := None |}
  else Raise ConnectionError.

Definition small_model : Download.model :=
{| Download.url :=
     "https://github.com/ultralytics/yolov5/releases/download/v7.0/yolov5n.tflite";
   Download.filename := "app/src/main/assets/yolov5n_coco.tflite";
   Download.description :=
     "YOLOv5n COCO model (4MB) - Fastest, lower accuracy" |}.

Definition empty_disk : world :=
{| files := ∅; locked := ∅; console := [] |}.

End DownloadSamples.

(** ** More sample logs *)

Module BidmcMoreSamples.

#[local] Open Scope float_scope.

(** A subject of unknown age whose signal is stored as integers: two
    breaths of four samples. *)
Definition integer_subject : Bidmc.subject_files :=
{| Bidmc.fix_txt := Ok (BidmcSamples.fix_lines "NaN" "M");
   Bidmc.signals_csv := Ok [("RESP", Pd.ColInt [3; 7; 2; 9; 5; 5; 6; 5]%Z)];
   Bidmc.numerics_csv := Ok [("RESP", Pd.ColInt [18; 19]%Z)];
   Bidmc.breaths_csv := Ok [("breath_start", Pd.ColInt [0; 4]%Z);
                            ("breath_end", Pd.ColInt [4; 8]%Z)] |}.

(** A subject whose signal goes from the least [int64] to the greatest
    within one breath. *)
Definition extreme_subject : Bidmc.subject_files :=
{| Bidmc.fix_txt := Ok (BidmcSamples.fix_lines "61" "F");
   Bidmc.signals_csv :=
     Ok [("RESP", Pd.ColInt [- 2 ^ 63; 2 ^ 63 - 1]%Z)];
   Bidmc.numerics_csv := Ok [("RESP", Pd.ColFloat [14])];
   Bidmc.breaths_csv := Ok [("breath_start", Pd.ColInt [0]%Z);
                            ("breath_end", Pd.ColInt [2]%Z)] |}.

Definition dataset (subject_id : Z) : Bidmc.subject_files :=
if (subject_id =? 2)%Z then integer_subject
else if (subject_id =? 3)%Z then BidmcSamples.steady_subject
else if (subject_id =? 5)%Z then extreme_subject
else BidmcSamples.missing_subject.

End BidmcMoreSamples.

Module QrMoreSamples.

(** A log that ends before its table: no line holds [timestamp], and pandas
    finds nothing to parse. *)
Definition headless_log : Qr.log_file :=
{| Qr.file_path := "respiratory_data/respiratory_data_5.csv";
   Qr.content :=
     Ok (String.concat QrSamples.newline
           ["Patient ID: 20"; "Average Amplitude: 2.0"]);
   Qr.read_csv := fun _ => Raise ValueError |}.



End QrMoreSamples.

(** ** Vocabulary of the loader properties *)

Section BidmcVocabulary.

Context `{Builtins}.
Import Bidmc.

#[local] Open Scope float_scope.

(** The three lists of a subject all have an entry. *)
Definition measurable (b : breaths) : bool :=
match breath_durations b, breath_amplitudes b, breath_velocities b with
| _ :: _, _ :: _, _ :: _ => true
| _, _, _ => false
end.

(** Spread over centre when the centre is strictly positive, the integer 0
    otherwise. *)
Definition variability (spread center : float) : pyval :=
if 0 <? center then PFloat (spread / center) else PInt 0.

Definition extreme (r : result num) : num :=
match r with
| Ok x => x
| Raise _ => NFloat nan
end.

Definition amplitude_variability_of (b : breaths) : pyval :=
variability (Np.std (map num_float (breath_amplitudes b)))
            (Np.mean (map num_float (breath_amplitudes b))).

Definition duration_variability_of (b : breaths) : pyval :=
variability (Np.std (breath_durations b)) (Np.mean (breath_durations b)).

Definition breathing_rate_of (b : breaths) : float :=
60 / Np.mean (breath_durations b).

Definition abnormal_of_breaths (b : breaths) : bool :=
is_abnormal (breathing_rate_of b) (amplitude_variability_of b)
            (duration_variability_of b).

(** The record of a subject, as the specification lists its fields. *)
Definition expected_row (subject_id age : Z) (gender : string) (b : breaths)
    : dict :=
[("subject_id", PInt subject_id);
 ("age", PInt age);
 ("gender", PInt (if String.eqb gender "M" then 1 else 0));
 ("breathing_rate", PFloat (breathing_rate_of b));
 ("avg_amplitude", PFloat (Np.mean (map num_float (breath_amplitudes b))));
 ("max_amplitude", num_value (extreme (Np.max_num (breath_amplitudes b))));
 ("min_amplitude", num_value (extreme (Np.min_num (breath_amplitudes b))));
 ("avg_velocity", PFloat (Np.mean (map num_float (breath_velocities b))));
 ("amplitude_variability", amplitude_variability_of b);
 ("duration_variability", duration_variability_of b);
 ("abnormal", PInt (if abnormal_of_breaths b then 1 else 0))].

(** The denominators of the divisions a record needs. *)
Definition expected_denominators (b : breaths) : list float :=
(if 0 <? Np.mean (map num_float (breath_amplitudes b))
 then [Np.mean (map num_float (breath_amplitudes b))] else [])
++ (if 0 <? Np.mean (breath_durations b)
    then [Np.mean (breath_durations b)] else []).

(** What one subject adds to the result, to the console and to the record of
    divisions. *)
Definition subject_rows (dataset : Z -> subject_files) (subject_id : Z)
    : list dict :=
match measure (dataset subject_id) with
| Ok (age, gender, b) =>
    if measurable b then [expected_row subject_id age gender b] else []
| Raise _ => []
end.

Definition subject_events (dataset : Z -> subject_files) (subject_id : Z)
    : list event :=
match measure (dataset subject_id) with
| Ok (_, _, b) =>
    if measurable b
    then [ProcessedSubject subject_id (abnormal_of_breaths b)] else []
| Raise e => [ErrorProcessingSubject subject_id e]
end.

Definition subject_denominators (dataset : Z -> subject_files)
    (subject_id : Z) : list float :=
match measure (dataset subject_id) with
| Ok (_, _, b) => if measurable b then expected_denominators b else []
| Raise _ => []
end.

(** The rows of a run, in the order of the subjects. *)
Definition bidmc_rows (dataset : Z -> subject_files) : list dict :=
concat (map (subject_rows dataset) (seqZ 1 53)).

(** The state one turn of the loop leaves. *)
Definition after_subject (dataset : Z -> subject_files) (s : state)
    (subject_id : Z) : state :=
{| printed := printed s ++ subject_events dataset subject_id;
   all_subjects := all_subjects s ++ subject_rows dataset subject_id;
   denominators := denominators s ++ subject_denominators dataset subject_id |}.

(** The criteria of the BIDMC labelling, read off a record. *)
Definition row_float (row : dict) (k : string) : float :=
match dict_get row k with
| Some (PFloat x) => x
| Some (PInt z) => float_of_Z z
| _ => nan
end.

Definition bidmc_criteria (row : dict) : list bool :=
[row_float row "breathing_rate" <? 10;
 24 <? row_float row "breathing_rate";
 0.4 <? row_float row "amplitude_variability";
 0.4 <? row_float row "duration_variability"].

(** The four criteria of the specification, read off a record: the rate,
    the irregularity of the breath durations, the variation of the
    amplitude and the velocity. *)
Definition spec_criteria (row : dict) : list bool :=
[(row_float row "breathing_rate" <? 10)
 || (24 <? row_float row "breathing_rate");
 0.4 <? row_float row "duration_variability";
 40 <? row_float row "amplitude_variability";
 8 <? row_float row "avg_velocity"].

(** The age of a subject, as lines 39-44 read it from the lines of the
    [_Fix.txt]: the integer of the sixth line or, when the text is not an
    integer, 90 with [90+] in it and 50 without. *)
Definition age_from (info : list string) (age : Z) : Prop :=
exists text,
  info_field info 5 = Ok text /\
  (py_int text = Ok age
   \/ py_int text = Raise ValueError
      /\ age = (if Str.contains "90+" text then 90 else 50)%Z).

(** The gender and the breaths of a subject, as lines 37-83 read them from
    its four files: [info] is the text of the [_Fix.txt], and the breath
    loop runs on the [RESP] column of the signals and the two columns of the
    annotations. *)
Definition measured_from (f : subject_files) (info : list string)
    (gender : string) (b : breaths) : Prop :=
fix_txt f = Ok info /\
info_field info 6 = Ok gender /\
exists location signals_df resp_signal numerics_df numerics_resp resp_rate
       breaths_df breath_start breath_end,
  info_field info 7 = Ok location /\
  signals_csv f = Ok signals_df /\
  Pd.getitem signals_df "RESP" = Ok resp_signal /\
  numerics_csv f = Ok numerics_df /\
  Pd.getitem numerics_df "RESP" = Ok numerics_resp /\
  Pd.series_mean numerics_resp = Ok resp_rate /\
  breaths_csv f = Ok breaths_df /\
  Pd.getitem breaths_df "breath_start" = Ok breath_start /\
  Pd.getitem breaths_df "breath_end" = Ok breath_end /\
  breath_loop resp_signal
    {| breath_durations := []; breath_amplitudes := [];
       breath_velocities := [] |}
    (zip_py (Pd.cells breath_start) (Pd.cells breath_end)) = Ok b.

(** The seconds of one annotated breath at 125 samples a second: an
    annotation counts when it is two integers, the start below the end, and
    the signal has a sample between them. *)
Definition breath_seconds (resp_signal : Pd.column)
    (annotation : Pd.cell * Pd.cell) : list float :=
match annotation with
| (Pd.CInt start, Pd.CInt stop) =>
    if (start <? stop)%Z
       && (0 <? Pd.len (Pd.slice resp_signal start stop))%nat
    then [true_divide (stop - start) 125]
    else []
| _ => []
end.

Definition expected_durations (resp_signal : Pd.column)
    (annotations : list (Pd.cell * Pd.cell)) : list float :=
concat (map (breath_seconds resp_signal) annotations).

End BidmcVocabulary.

Section QrVocabulary.

Context `{Builtins}.
Import Qr.

#[local] Open Scope float_scope.

(** The maximal runs of consecutive rows that hold the same value, each as
    the list of its row positions; the first row has position [i]. *)
Fixpoint runs_from (i : nat) (cs : list Pd.cell) {struct cs}
    : list (list nat) :=
match cs with
| [] => []
| c :: rest =>
    match runs_from (S i) rest with
    | [] => [[i]]
    | run :: others =>
        if cell_eqb (List.hd c rest) c then (i :: run) :: others
        else [i] :: run :: others
    end
end.

Definition runs (c : Pd.column) : list (list nat) := runs_from 0 (Pd.cells c).

(** The time from the first to the last sample of a run. *)
Definition run_duration (df : Pd.dataframe) (run : list nat) : result float :=
timestamp ← Pd.getitem df "timestamp";
start_time ← list_index (Pd.cells timestamp) (List.hd 0%nat run);
end_time ← list_index (Pd.cells timestamp) (List.last run 0%nat);
elapsed end_time start_time.

(** The durations of the runs that have more than one sample. *)
Fixpoint run_durations (df : Pd.dataframe) (rs : list (list nat))
    : result (list float) :=
match rs with
| [] => Ok []
| run :: rest =>
    if (1 <? length run)%nat then
      d ← run_duration df run;
      ds ← run_durations df rest;
      Ok (d :: ds)
    else run_durations df rest
end.

(** Standard deviation over mean, guarded as the code guards it. *)
Definition coefficient_of_variation (xs : list float) : pyval :=
match xs with
| [] => PInt 0
| _ :: _ => variability (Np.std xs) (Np.mean xs)
end.

(** The same over every run, a run of one sample lasting no time: the
    reading of the specification that keeps all the runs. *)
Definition all_run_durations (df : Pd.dataframe) (rs : list (list nat))
    : result (list float) :=
mapM (run_duration df) rs.

(** A denominator that passed the guard. *)
Definition positive (d : float) : Prop := (0 <? d) = true.

(** Lines 255-273 without the state: the mean absolute velocity and the two
    variabilities of a frame, the runs standing for the groups. *)
Definition expected_metrics (df : Pd.dataframe) (h : header)
    : result (float * pyval * pyval) :=
amplitudes ← Pd.getitem df "amplitude";
velocity ← Pd.getitem df "velocity";
velocities ← Pd.abs_values velocity;
amplitude_variability ←
  match avg_amplitude h with
  | None => Raise TypeError
  | Some avg =>
      if 0 <? avg
      then spread ← Pd.np_std amplitudes; Ok (PFloat (spread / avg))
      else Ok (PInt 0)
  end;
breathing_phase ← Pd.getitem df "breathing_phase";
phase_durations ← run_durations df (runs breathing_phase);
avg_velocity ← Pd.np_mean_abs velocity;
Ok (avg_velocity, amplitude_variability,
    coefficient_of_variation phase_durations).

(** A step that prints nothing, appends no row, and records only
    denominators that passed the guard. *)
Definition quiet (s s' : state) : Prop :=
printed s' = printed s /\ all_data s' = all_data s /\
exists recorded,
  denominators s' = denominators s ++ recorded /\ Forall positive recorded.

(** The positions of the rows whose key is [k], the first row having
    position [i]. *)
Definition positions (keys : list Z) (i : nat) (k : Z) : list nat :=
map snd (List.filter (fun p => (fst p =? k)%Z)
                     (zip_py keys (seq i (length keys)))).

End QrVocabulary.

Section DownloadVocabulary.

Context `{Builtins}.
Import Download.

(** The chunks of a body that are written: the empty ones are skipped. *)
Definition delivered (chunks : list string) : list string :=
List.filter (fun chunk => negb (String.eqb chunk "")) chunks.

(** A step that leaves alone every file but [path], and the set of paths
    that cannot be written. *)
Definition touches_only (path : string) (w w' : world) : Prop :=
locked w' = locked w /\
forall p, p <> path -> files w' !! p = files w !! p.

(** The download of a model goes through: the request is answered with a
    success, the length header, if any, is a number, the stream does not
    break and the file can be opened. *)
Definition ready (net : network) (m : model) (w : world) (r : response)
    : Prop :=
net (url m) = Ok r /\
status_ok r = true /\
broken r = None /\
match content_length r with
| Some text => exists n, py_int text = Ok n
| None => True
end /\
filename m ∉ locked w.

End DownloadVocabulary.

(** ** Vocabulary of the properties of the breath loop *)

Section BreathVocabulary.

Import Bidmc.

(** The three empty lists the breath loop starts from. *)
Definition no_breaths : breaths :=
{| breath_durations := []; breath_amplitudes := []; breath_velocities := [] |}.

(** [row['subject_id']] of a record. *)
Definition subject_id_of (row : dict) : option Z :=
match dict_get row "subject_id" with
| Some (PInt z) => Some z
| _ => None
end.

(** The annotations that leave no trace: a cell that is not an integer, an
    end not after the start, a start at or beyond the end of the signal. *)
Definition skipped (resp : Pd.column) (first last : Pd.cell) : bool :=
match first, last with
| Pd.CInt start, Pd.CInt stop =>
    (stop <=? start)%Z
    || (0 <=? start)%Z && (Z.of_nat (Pd.len resp) <=? start)%Z
| _, _ => true
end.

(** What the loop over the subjects prints for one subject, [records] being
    the records of the run: nothing, or the line of an exception, when the
    subject has no record, and the line of its label when it has one. *)
Definition line_of (records : list dict) (subject_id : Z)
    (line : list event) : Prop :=
(line = [] /\
 forall row, row ∈ records -> subject_id_of row <> Some subject_id)
\/ (exists e,
      line = [ErrorProcessingSubject subject_id e] /\
      forall row, row ∈ records -> subject_id_of row <> Some subject_id)
\/ (exists row,
      row ∈ records /\ subject_id_of row = Some subject_id /\
      line = [ProcessedSubject subject_id (abnormal_of row =? 1)%Z]).

End BreathVocabulary.

(** ** Vocabulary of the further download properties *)

Section DownloadMoreVocabulary.

Context `{Builtins}.
Import Download.

(** The value of [downloaded] after each chunk that is written. *)
Fixpoint running_totals (downloaded : Z) (chunks : list string) : list Z :=
match chunks with
| [] => []
| chunk :: rest =>
    let downloaded := (downloaded + Z.of_nat (String.length chunk))%Z in
    downloaded :: running_totals downloaded rest
end.

(** The number of bytes of a body. *)
Definition total_bytes (chunks : list string) : Z :=
foldr (fun chunk n => (Z.of_nat (String.length chunk) + n)%Z) 0%Z chunks.

(** The lines of progress of a body: one for each chunk written, when the
    length announced is positive. *)
Definition progress_lines (total_size : Z) (chunks : list string)
    : list event :=
if (0 <? total_size)%Z
then map (fun downloaded => Progress downloaded total_size)
         (running_totals 0 (delivered chunks))
else [].

(** The length a response announces, 0 without the header. *)
Definition announced (r : response) (total_size : Z) : Prop :=
match content_length r with
| Some text => py_int text = Ok total_size
| None => total_size = 0%Z
end.

(** The download stops before the file is opened, or when it is opened:
    the request raises, its status is an error, the length announced is not
    a number, or the file cannot be opened for writing. *)
Inductive refused (net : network) (url filename : string) (w : world)
    : exn -> Prop :=
| no_answer (e : exn) :
    net url = Raise e -> refused net url filename w e
| error_status (r : response) :
    net url = Ok r -> status_ok r = false ->
    refused net url filename w HTTPError
| bad_length (r : response) (text : string) (e : exn) :
    net url = Ok r -> status_ok r = true ->
    content_length r = Some text -> py_int text = Raise e ->
    refused net url filename w e
| cannot_open (r : response) (total_size : Z) :
    net url = Ok r -> status_ok r = true -> announced r total_size ->
    filename ∈ locked w ->
    refused net url filename w PermissionError.

End DownloadMoreVocabulary.

(** ** More sample networks *)

Module DownloadMoreSamples.

(** A network whose stream breaks after two bytes of four. *)
Definition cut_off : Download.network := fun _ =>
  Ok {| Download.status_ok := true;
        Download.content_length := Some "4";
        Download.body := ["ab"; ""];
        Download.broken := Some ConnectionError |}.

End DownloadMoreSamples.

(** ** Vocabulary of the export properties *)

Section ExportVocabulary.

Import ExportWeights.

(** The model file holds a logistic regression whose parameters can be
    read: [fw] and [bias] are what lines 28-36 extract from it. *)
Inductive loaded (w : world) (model_path : string)
  : list float -> float -> Prop :=
| loaded_intro coef_ intercept_ fw bias :
    files w !! model_path
      = Some (FPickle (LogisticRegression coef_ intercept_)) ->
    extract_parameters coef_ intercept_ = Ok (fw, bias) ->
    loaded w model_path fw bias.

(** The document a run writes for these parameters. *)
Definition bundle (fw : list float) (bias : float) (thr : option pyval)
  : pyval :=
  make_output (make_weights fw bias) (chosen_thresholds thr).

(** [v[k]] for a JSON object [v]. *)
Definition field (v : pyval) (k : string) : option pyval :=
  match v with
  | PDict d => dict_get d k
  | _ => None
  end.

(** [v["weights"][name]] when it is a number. *)
Definition weight_of (v : pyval) (name : string) : option float :=
  match field v "weights" with
  | Some ws =>
      match field ws name with
      | Some (PFloat c) => Some c
      | _ => None
      end
  | None => None
  end.

(** The bundle gives a coefficient to each of the four feature names. *)
Definition maps_every_feature (v : pyval) : bool :=
  forallb (fun name => bool_decide (is_Some (weight_of v name)))
          feature_names.

(** The run of [export_model_weights] from world [w]. *)
Definition returned (w : world) (mp op : string) (thr : option pyval)
  : result bool :=
  fst (export_model_weights mp op thr w).

Definition world_after (w : world) (mp op : string) (thr : option pyval)
  : world :=
  snd (export_model_weights mp op thr w).

(** [thresholds[name]] as a number; [nan] when absent. *)
Definition threshold (t : dict) (name : string) : float :=
match dict_get t name with
| Some (PFloat c) => c
| _ => nan
end.

(** The counter of [create_sample_model.py] with the five literals replaced
    by the entries of a thresholds dictionary. *)
Definition abnormal_factors_with (t : dict) (r : SampleModel.row) : Z :=
let test (b : bool) (n : Z) : Z := if b then n + 1 else n in
test (threshold t "VELOCITY_THRESHOLD" <? SampleModel.x3 r)%float
  (test (threshold t "AMPLITUDE_VARIATION_THRESHOLD" <? SampleModel.x2 r)%float
    (test (threshold t "IRREGULARITY_THRESHOLD" <? SampleModel.x1 r)%float
      (test (threshold t "TACHYPNEA_THRESHOLD" <? SampleModel.x0 r)%float
        (test (SampleModel.x0 r <? threshold t "BRADYPNEA_THRESHOLD")%float
           0)))).

End ExportVocabulary.

(** ** Vocabulary of the further export properties *)

Section ExportMoreVocabulary.

Import ExportWeights.

(** What a run leaves at the output path, if anything: the document when the
    model is read, its parameters are extracted and the file is opened, and
    the incomplete document when the encoder then refuses a value. *)
Definition written (w : world) (mp op : string) (thr : option pyval)
    : option file :=
match files w !! mp with
| Some (FPickle (LogisticRegression coef_ intercept_)) =>
    match extract_parameters coef_ intercept_ with
    | Ok (fw, b) =>
        if decide (op ∈ locked w) then None
        else if json_encodable (bundle fw b thr)
             then Some (FJson (bundle fw b thr))
             else Some (FJsonPrefix (bundle fw b thr))
    | Raise _ => None
    end
| _ => None
end.

End ExportMoreVocabulary.

(** ** Sample worlds for the export script *)

Module ExportSamples.

#[local] Open Scope float_scope.

(** A model fitted on four features, as [create_sample_model.py] saves. *)
Definition four_feature_world : world :=
  {| files :=
       {[ "model.joblib" :=
            FPickle (LogisticRegression (Some [[0.125; 2; -0.5; 0.75]])
                                        (Some [-3])) ]};
     locked := ∅;
     console := [] |}.

(** A model fitted on two features only. *)
Definition two_feature_world : world :=
  {| files :=
       {[ "model.joblib" :=
            FPickle (LogisticRegression (Some [[0.5; 1.5]]) (Some [0.25])) ]};
     locked := ∅;
     console := [] |}.

(** A model of another class, and an output path that cannot be opened. *)
Definition forest_world : world :=
  {| files :=
       {[ "model.joblib" := FPickle (OtherEstimator "RandomForestClassifier");
          "weights.json" := FJson PNone ]};
     locked := {[ "readonly/weights.json" ]};
     console := [] |}.

End ExportSamples.

(** * Properties *)

(** ** Facts about binary64 comparisons *)

Section FloatOrder.

#[local] Open Scope float_scope.

Lemma SFltb_10_24 (s : spec_float) :
  SFltb s (Prim2SF 10) = true -> SFltb (Prim2SF 24) s = false.
Proof.
  replace (Prim2SF 10) with (S754_finite false 5629499534213120 (-49))
    by (vm_compute; reflexivity).
  replace (Prim2SF 24) with (S754_finite false 6755399441055744 (-48))
    by (vm_compute; reflexivity).
  unfold SFltb, SFcompare.
  destruct s as [[]|[]| |[] m e]; try congruence.
  rewrite (Z.compare_antisym e (-48)).
  destruct (Z.compare_spec e (-49)) as [->|He|He]; try congruence.
  - reflexivity.
  - intros _. destruct (Z.compare_spec e (-48)); simpl; try reflexivity; lia.
Qed.

(** A rate below 10 is not above 24: the two rate tests of the sample
    labelling never fire together. *)
Lemma ltb_10_24 (x : float) : (x <? 10) = true -> (24 <? x) = false.
Proof. rewrite !FloatAxioms.ltb_spec. apply SFltb_10_24. Qed.


End FloatOrder.

(** ** export_model_weights.py *)

Section ExportProperties.

Import ExportWeights.

Lemma warn_on_mismatch_run (fw : list float) (w : world) :
  warn_on_mismatch fw w =
    (Ok tt,
     {| files := files w; locked := locked w;
        console := console w ++
          (if Nat.eqb (length fw) 4 then []
           else [WeightCountMismatch (length fw) 4]) |}).
Proof.
  unfold warn_on_mismatch. change (length feature_names) with 4%nat.
  destruct (Nat.eqb (length fw) 4); cbn.
  - unfold io_ret. rewrite app_nil_r. now destruct w.
  - reflexivity.
Qed.

(** Every run ends in one of three ways: it stops before the output file is
    opened and leaves the files as they were; it stops inside [json.dump]
    and leaves an incomplete document; or it writes the bundle and returns
    [True]. *)
Lemma export_run (w : world) (mp op : string) (thr : option pyval) :
  (returned w mp op thr = Ok false /\
   files (world_after w mp op thr) = files w /\
   ((forall fw b, ¬ loaded w mp fw b) \/ op ∈ locked w))
  \/ (exists fw b, loaded w mp fw b /\ (op ∉ locked w) /\
        ((json_encodable (bundle fw b thr) = false /\
          returned w mp op thr = Ok false /\
          files (world_after w mp op thr)
            = <[op := FJsonPrefix (bundle fw b thr)]> (files w))
         \/ (json_encodable (bundle fw b thr) = true /\
          returned w mp op thr = Ok true /\
          files (world_after w mp op thr)
            = <[op := FJson (bundle fw b thr)]> (files w)))).
Proof.
  unfold returned, world_after, export_model_weights, try_except,
    export_body, io_bind, print, say, world_console, joblib_load.
  cbn [files locked console].
  destruct (files w !! mp) as [[[coef_ intercept_|cls]|[]|[]| ]|] eqn:Hf; cbn.
  2-20: left; split; [reflexivity|]; split; [reflexivity|]; left;
        intros fw' b' H; inversion H; congruence.
  unfold lift.
  destruct (extract_parameters coef_ intercept_) as [[fw b]|e] eqn:He;
    cbn -[make_output make_weights json_encodable].
  2: { left. split; [reflexivity|]; split; [reflexivity|]. left.
       intros fw b H; inversion H; congruence. }
  rewrite warn_on_mismatch_run.
  unfold dump_json. cbn [files locked console].
  destruct (decide (op ∈ locked w)) as [Hl|Hl];
    cbn -[make_output make_weights json_encodable].
  { left. auto. }
  right. exists fw, b. split; [econstructor; eassumption|].
  split; [assumption|]. unfold bundle.
  destruct (json_encodable (make_output _ _)) eqn:Hj;
    cbn -[make_output make_weights json_encodable]; [right|left]; auto.
Qed.

Lemma loaded_functional (w : world) (mp : string) fw b fw' b' :
  loaded w mp fw b -> loaded w mp fw' b' -> fw' = fw /\ b' = b.
Proof.
  intros [c i ? ? Hf He] [c' i' ? ? Hf' He']. split; congruence.
Qed.

(** The feature names are distinct and none is ["bias"], so the weights
    dictionary is the positional pairing followed by the bias entry. *)
Lemma make_weights_eq (fw : list float) (b : float) :
  make_weights fw b
  = zip_py feature_names (map PFloat fw) ++ [("bias", PFloat b)].
Proof.
  destruct fw as [|c0 [|c1 [|c2 [|c3 rest]]]]; reflexivity.
Qed.

Lemma bundle_weight_positional (fw : list float) (b : float)
    (thr : option pyval) (i : nat) (name : string) :
  feature_names !! i = Some name ->
  weight_of (bundle fw b thr) name = fw !! i.
Proof.
  intros Hi.
  destruct i as [|[|[|[|i]]]]; cbn in Hi; try discriminate;
    injection Hi as <-;
    destruct fw as [|c0 [|c1 [|c2 [|c3 rest]]]]; reflexivity.
Qed.

Lemma bundle_weight_bias (fw : list float) (b : float) (thr : option pyval) :
  weight_of (bundle fw b thr) "bias" = Some b.
Proof. destruct fw as [|c0 [|c1 [|c2 [|c3 rest]]]]; reflexivity. Qed.

Lemma bundle_weight_keys (fw : list float) (b : float) :
  dict_keys (make_weights fw b)
  = take (length fw) feature_names ++ ["bias"].
Proof.
  destruct fw as [|c0 [|c1 [|c2 [|c3 rest]]]]; try reflexivity.
  cbn [length take feature_names firstn]. now rewrite take_nil.
Qed.

Lemma bundle_encodable (fw : list float) (b : float) (thr : option pyval) :
  json_encodable (bundle fw b thr) = json_encodable (chosen_thresholds thr).
Proof.
  destruct fw as [|c0 [|c1 [|c2 [|c3 rest]]]]; cbn;
    now rewrite andb_true_r.
Qed.

(** A call that returns [True] has loaded a logistic regression and written
    its bundle at the output path. *)
Lemma export_true_written (w : world) (mp op : string) (thr : option pyval) :
  returned w mp op thr = Ok true ->
  exists fw b,
    loaded w mp fw b /\
    files (world_after w mp op thr) !! op = Some (FJson (bundle fw b thr)).
Proof.
  intros Hr.
  destruct (export_run w mp op thr)
    as [(Hf & _)|(fw & b & Hl & _ & [(_ & Hf & _)|(_ & _ & Hw)])];
    try congruence.
  exists fw, b. split; [assumption|]. rewrite Hw. apply lookup_insert_eq.
Qed.

(** Claim C2, as the code has it. When [export_model_weights] returns
    [True], the file at the output path is a JSON object with exactly the
    keys [model_type], [weights], [thresholds] and [feature_names];
    [model_type] is ["logistic_regression"], [feature_names] lists the four
    names, [thresholds] is the argument or the default, and [weights] maps
    ["bias"] to the intercept and the i-th feature name to the i-th
    coefficient for each coefficient the model has among the first four.
    All four names are mapped when the model has at least four
    coefficients. *)
Theorem export_bundle_contents (w : world) (mp op : string)
    (thr : option pyval) :
  returned w mp op thr = Ok true ->
  exists fw b v ws,
    loaded w mp fw b /\
    files (world_after w mp op thr) !! op = Some (FJson v) /\
    v = PDict [("model_type", PStr "logistic_regression");
               ("weights", PDict ws);
               ("thresholds", chosen_thresholds thr);
               ("feature_names", PList (map PStr feature_names))] /\
    dict_keys ws = take (length fw) feature_names ++ ["bias"] /\
    weight_of v "bias" = Some b /\
    (forall i name,
        feature_names !! i = Some name -> weight_of v name = fw !! i) /\
    ((4 <= length fw)%nat -> maps_every_feature v = true).
Proof.
  intros Hr.
  destruct (export_true_written w mp op thr Hr) as (fw & b & Hl & Hw).
  exists fw, b, (bundle fw b thr), (make_weights fw b).
  split; [assumption|]. split; [exact Hw|].
  split; [reflexivity|]. split; [apply bundle_weight_keys|].
  split; [apply bundle_weight_bias|].
  split; [intros i name; apply bundle_weight_positional|].
  intros Hlen. destruct fw as [|c0 [|c1 [|c2 [|c3 rest]]]];
    cbn in Hlen; try lia; reflexivity.
Qed.

(** Claim C8. A logistic regression whose coefficient count is not four is
    exported all the same (the output path being writable and the
    thresholds encodable): the call returns [True], the bundle is written,
    its [weights] pair the feature names with the coefficients by position
    and stop at the shorter of the two, and the only trace of the mismatch
    is one warning on the console. *)
Theorem export_count_mismatch (w : world) (mp op : string)
    (thr : option pyval) (fw : list float) (b : float) :
  loaded w mp fw b ->
  length fw <> 4%nat ->
  op ∉ locked w ->
  json_encodable (chosen_thresholds thr) = true ->
  returned w mp op thr = Ok true /\
  files (world_after w mp op thr) !! op = Some (FJson (bundle fw b thr)) /\
  field (bundle fw b thr) "weights"
    = Some (PDict (zip_py feature_names (map PFloat fw)
                   ++ [("bias", PFloat b)])) /\
  (forall i name,
      feature_names !! i = Some name ->
      weight_of (bundle fw b thr) name = fw !! i) /\
  (forall name,
      name ∈ drop (length fw) feature_names ->
      weight_of (bundle fw b thr) name = None) /\
  console (world_after w mp op thr)
    = console w ++
      [LoadingModel mp; WeightCountMismatch (length fw) 4; ExportedTo op;
       ShowWeights (make_weights fw b);
       ShowThresholds (chosen_thresholds thr)].
Proof.
  intros Hl Hlen Hop Hthr.
  destruct Hl as [coef_ intercept_ fw b Hf He].
  assert (Hrun : export_model_weights mp op thr w =
    (Ok true,
     {| files := <[op := FJson (bundle fw b thr)]> (files w);
        locked := locked w;
        console := console w ++
          [LoadingModel mp; WeightCountMismatch (length fw) 4;
           ExportedTo op; ShowWeights (make_weights fw b);
           ShowThresholds (chosen_thresholds thr)] |})).
  { unfold export_model_weights, try_except, export_body, io_bind, print,
      say, world_console, joblib_load, lift.
    cbn [files locked console]. rewrite Hf, He.
    cbn -[make_output make_weights json_encodable].
    rewrite warn_on_mismatch_run.
    apply Nat.eqb_neq in Hlen. rewrite Hlen.
    unfold dump_json. cbn [files locked console].
    destruct (decide (op ∈ locked w)); [contradiction|].
    fold (bundle fw b thr). rewrite bundle_encodable, Hthr.
    cbn -[make_output make_weights json_encodable bundle].
    rewrite <- !app_assoc. reflexivity. }
  unfold returned, world_after. rewrite Hrun. cbn [fst snd files console].
  split; [reflexivity|]. split; [apply lookup_insert_eq|].
  split; [cbn [bundle make_output field dict_get String.eqb Ascii.eqb Bool.eqb];
          now rewrite make_weights_eq|].
  split; [intros i name; apply bundle_weight_positional|].
  split; [|reflexivity].
  intros name Hin.
  destruct fw as [|c0 [|c1 [|c2 [|c3 rest]]]];
    cbn [length drop feature_names skipn] in Hin;
    rewrite ?drop_nil in Hin;
    repeat (apply elem_of_cons in Hin as [->|Hin]; [reflexivity|]);
    apply elem_of_nil in Hin; contradiction.
Qed.

(** Claim C2, the counterexample. A logistic regression fitted on two
    features is exported with success, and the bundle maps only the first
    two feature names: [amplitude_variation] and [avg_velocity] have no
    coefficient. *)
Lemma export_two_features_succeeds_without_all_names :
  returned ExportSamples.two_feature_world "model.joblib" "weights.json" None
    = Ok true /\
  files (world_after ExportSamples.two_feature_world
           "model.joblib" "weights.json" None) !! "weights.json"
    = Some (FJson (bundle [0.5; 1.5]%float 0.25%float None)) /\
  maps_every_feature (bundle [0.5; 1.5]%float 0.25%float None) = false /\
  weight_of (bundle [0.5; 1.5]%float 0.25%float None) "amplitude_variation"
    = None.
Proof. repeat split; vm_compute; reflexivity. Qed.

Lemma export_bundle_contents_witness :
  exists fw b v ws,
    loaded ExportSamples.four_feature_world "model.joblib" fw b /\
    files (world_after ExportSamples.four_feature_world
             "model.joblib" "weights.json" None) !! "weights.json"
      = Some (FJson v) /\
    v = PDict [("model_type", PStr "logistic_regression");
               ("weights", PDict ws);
               ("thresholds", chosen_thresholds None);
               ("feature_names", PList (map PStr feature_names))] /\
    dict_keys ws = take (length fw) feature_names ++ ["bias"] /\
    weight_of v "bias" = Some b /\
    (forall i name,
        feature_names !! i = Some name -> weight_of v name = fw !! i) /\
    ((4 <= length fw)%nat -> maps_every_feature v = true).
Proof.
  apply (export_bundle_contents ExportSamples.four_feature_world
           "model.joblib" "weights.json" None).
  vm_compute. reflexivity.
Defined.

Lemma export_count_mismatch_witness :
  returned ExportSamples.two_feature_world "model.joblib" "weights.json" None
    = Ok true /\
  console (world_after ExportSamples.two_feature_world
             "model.joblib" "weights.json" None)
    = [LoadingModel "model.joblib"; WeightCountMismatch 2 4;
       ExportedTo "weights.json";
       ShowWeights (make_weights [0.5; 1.5]%float 0.25%float);
       ShowThresholds (PDict default_thresholds)].
Proof.
  pose proof (export_count_mismatch ExportSamples.two_feature_world
    "model.joblib" "weights.json" None [0.5; 1.5]%float 0.25%float) as H.
  destruct H as (Hr & _ & _ & _ & _ & Hc).
  - eapply loaded_intro; vm_compute; reflexivity.
  - cbn. lia.
  - apply not_elem_of_empty.
  - vm_compute. reflexivity.
  - split; [exact Hr | exact Hc].
Defined.

(** Claim C9. The call returns [True] or [False] and never raises. It
    returns [True] only when the bundle has been written in full at the
    output path. A model file that cannot be loaded, an object that is not
    a logistic regression, parameters that cannot be extracted, and an
    output path that cannot be opened each give [False] and leave every
    file as it was; an exception inside [json.dump] gives [False] too. *)
Theorem export_true_only_after_write (w : world) (mp op : string)
    (thr : option pyval) :
  (returned w mp op thr = Ok true \/ returned w mp op thr = Ok false) /\
  (returned w mp op thr = Ok true ->
     exists fw b,
       loaded w mp fw b /\
       json_encodable (bundle fw b thr) = true /\
       files (world_after w mp op thr)
         = <[op := FJson (bundle fw b thr)]> (files w)) /\
  (forall e, fst (joblib_load mp w) = Raise e ->
     returned w mp op thr = Ok false /\
     files (world_after w mp op thr) = files w) /\
  (forall cls, files w !! mp = Some (FPickle (OtherEstimator cls)) ->
     returned w mp op thr = Ok false /\
     files (world_after w mp op thr) = files w) /\
  (forall coef_ intercept_ e,
     files w !! mp = Some (FPickle (LogisticRegression coef_ intercept_)) ->
     extract_parameters coef_ intercept_ = Raise e ->
     returned w mp op thr = Ok false /\
     files (world_after w mp op thr) = files w) /\
  (op ∈ locked w ->
     returned w mp op thr = Ok false /\
     files (world_after w mp op thr) = files w) /\
  (forall fw b,
     loaded w mp fw b -> json_encodable (bundle fw b thr) = false ->
     returned w mp op thr = Ok false).
Proof.
  pose proof (export_run w mp op thr) as Hrun.
  assert (Hnot : (forall fw b, ¬ loaded w mp fw b) ->
                 returned w mp op thr = Ok false /\
                 files (world_after w mp op thr) = files w).
  { intros Hn.
    destruct Hrun as [(Hr & Hf & _)|(fw & b & Hl & _)]; [auto|].
    exfalso. exact (Hn fw b Hl). }
  split.
  { destruct Hrun
      as [(Hr & _)|(fw & b & _ & _ & [(_ & Hr & _)|(_ & Hr & _)])]; auto. }
  split.
  { intros Hr.
    destruct Hrun
      as [(Hr' & _)|(fw & b & Hl & _ & [(_ & Hr' & _)|(Hj & _ & Hf)])];
      try congruence.
    exists fw, b. auto. }
  split.
  { intros e He. apply Hnot. intros fw b [c i ? ? Hf Hx].
    unfold joblib_load in He. rewrite Hf in He. discriminate. }
  split.
  { intros cls Hcls. apply Hnot. intros fw b [c i ? ? Hf Hx]. congruence. }
  split.
  { intros c i e Hf He. apply Hnot. intros fw b [c' i' ? ? Hf' Hx].
    congruence. }
  split.
  { intros Hop.
    destruct Hrun as [(Hr & Hf & _)|(fw & b & _ & Hl & _)]; [auto|].
    contradiction. }
  intros fw b Hl Hj.
  destruct Hrun
    as [(Hr & _)|(fw' & b' & Hl' & _ & [(_ & Hr & _)|(Hj' & _)])]; auto.
  destruct (loaded_functional _ _ _ _ _ _ Hl Hl') as [-> ->]. congruence.
Qed.

Lemma export_true_only_after_write_witness :
  (exists fw b,
      loaded ExportSamples.four_feature_world "model.joblib" fw b /\
      json_encodable (bundle fw b None) = true /\
      files (world_after ExportSamples.four_feature_world
               "model.joblib" "weights.json" None)
        = <[ "weights.json" := FJson (bundle fw b None) ]>
            (files ExportSamples.four_feature_world)) /\
  (returned ExportSamples.forest_world "model.joblib" "weights.json" None
     = Ok false /\
   files (world_after ExportSamples.forest_world
            "model.joblib" "weights.json" None)
     = files ExportSamples.forest_world) /\
  (returned ExportSamples.four_feature_world
     "model.joblib" "weights.json" (Some (PObject "ndarray")) = Ok false).
Proof.
  split; [|split].
  - apply (export_true_only_after_write ExportSamples.four_feature_world
             "model.joblib" "weights.json" None).
    vm_compute. reflexivity.
  - apply (export_true_only_after_write ExportSamples.forest_world
             "model.joblib" "weights.json" None)
      with (cls := "RandomForestClassifier").
    vm_compute. reflexivity.
  - apply (export_true_only_after_write ExportSamples.four_feature_world
             "model.joblib" "weights.json" (Some (PObject "ndarray")))
      with (fw := [0.125; 2; -0.5; 0.75]%float) (b := (-3)%float).
    + eapply loaded_intro; vm_compute; reflexivity.
    + vm_compute. reflexivity.
Defined.

Lemma main_true (argv : list string) (w : world) :
  fst (main argv w) = Ok true ->
  returned w (model_path_of argv) (output_path_of argv)
    (Some (PDict main_thresholds)) = Ok true /\
  files (snd (main argv w))
  = files (world_after w (model_path_of argv) (output_path_of argv)
             (Some (PDict main_thresholds))).
Proof.
  unfold main, returned, world_after, io_bind, makedirs.
  destruct (String.eqb (dirname (output_path_of argv)) "");
    [discriminate|].
  destruct (files w !! dirname (output_path_of argv)); [discriminate|].
  destruct (export_model_weights (model_path_of argv) (output_path_of argv)
              (Some (PDict main_thresholds)) w) as [[[|]|e] w'];
    cbn; intros Hr; try discriminate.
  split; reflexivity.
Qed.

Lemma main_runs (argv : list string) (w : world) :
  dirname (output_path_of argv) <> "" ->
  files w !! dirname (output_path_of argv) = None ->
  returned w (model_path_of argv) (output_path_of argv)
    (Some (PDict main_thresholds)) = Ok true ->
  fst (main argv w) = Ok true.
Proof.
  intros Hdir Hfree. unfold main, returned, io_bind, makedirs.
  apply String.eqb_neq in Hdir. rewrite Hdir, Hfree.
  destruct (export_model_weights (model_path_of argv) (output_path_of argv)
              (Some (PDict main_thresholds)) w) as [[[|]|e] w'];
    cbn; intros Hr; try discriminate.
  reflexivity.
Qed.

(** Claim C3. The default thresholds and the thresholds of the entry point
    are the same five entries, 10.0, 24.0, 0.4, 40.0 and 8.0 under their
    names; a successful export writes them under [thresholds] of the
    document at its output path, both when no thresholds are passed and
    when the entry point runs with any arguments; the entry point ends in
    success whenever the directory of its output path can be made and the
    export succeeds, and stops with [FileNotFoundError] before any export
    when the output path has no directory part; and the five values are the
    cutoffs of the labelling rule of [create_sample_model.py]. *)
Theorem exported_thresholds_are_the_rule_cutoffs :
  default_thresholds
    = [("BRADYPNEA_THRESHOLD", PFloat 10.0);
       ("TACHYPNEA_THRESHOLD", PFloat 24.0);
       ("IRREGULARITY_THRESHOLD", PFloat 0.4);
       ("AMPLITUDE_VARIATION_THRESHOLD", PFloat 40.0);
       ("VELOCITY_THRESHOLD", PFloat 8.0)] /\
  main_thresholds = default_thresholds /\
  (forall w mp op,
      returned w mp op None = Ok true ->
      exists v,
        files (world_after w mp op None) !! op = Some (FJson v) /\
        field v "thresholds" = Some (PDict default_thresholds)) /\
  (forall w argv,
      fst (main argv w) = Ok true ->
      exists v,
        files (snd (main argv w)) !! output_path_of argv = Some (FJson v) /\
        field v "thresholds" = Some (PDict default_thresholds)) /\
  (forall w argv,
      dirname (output_path_of argv) <> "" ->
      files w !! dirname (output_path_of argv) = None ->
      returned w (model_path_of argv) (output_path_of argv)
        (Some (PDict main_thresholds)) = Ok true ->
      fst (main argv w) = Ok true) /\
  (forall w argv,
      dirname (output_path_of argv) = "" ->
      main argv w = (Raise FileNotFoundError, w)) /\
  (forall r,
      SampleModel.abnormal_factors r
      = abnormal_factors_with default_thresholds r).
Proof.
  split; [reflexivity|]. split; [reflexivity|].
  split; [|split; [|split; [|split]]].
  - intros w mp op Hr.
    destruct (export_true_written w mp op None Hr) as (fw & b & _ & Hf).
    eexists. split; [exact Hf|reflexivity].
  - intros w argv Hr.
    destruct (main_true argv w Hr) as [Hexport ->].
    destruct (export_true_written w _ _ _ Hexport) as (fw & b & _ & Hf).
    eexists. split; [exact Hf|reflexivity].
  - intros w argv. apply main_runs.
  - intros w argv Hdir. unfold main, io_bind, makedirs. now rewrite Hdir.
  - intros r. unfold SampleModel.abnormal_factors, abnormal_factors_with.
    reflexivity.
Qed.

Lemma exported_thresholds_witness :
  (exists v,
     files (world_after ExportSamples.four_feature_world
              "model.joblib" "weights.json" None) !! "weights.json"
       = Some (FJson v) /\
     field v "thresholds" = Some (PDict default_thresholds)) /\
  (exists v,
     files (snd (main ["export_model_weights.py"; "model.joblib";
                       "assets/weights.json"]
                      ExportSamples.four_feature_world))
     !! "assets/weights.json" = Some (FJson v) /\
     field v "thresholds" = Some (PDict default_thresholds)).
Proof.
  destruct exported_thresholds_are_the_rule_cutoffs
    as (_ & _ & Hdefault & Hmain & Hruns & _).
  split.
  - apply (Hdefault ExportSamples.four_feature_world "model.joblib"
             "weights.json").
    vm_compute. reflexivity.
  - apply (Hmain ExportSamples.four_feature_world
             ["export_model_weights.py"; "model.joblib";
              "assets/weights.json"]).
    apply Hruns.
    + vm_compute. discriminate.
    + vm_compute. reflexivity.
    + vm_compute. reflexivity.
Defined.

End ExportProperties.

(** ** Loops that catch *)

Section Loops.

Context {S A : Type}.

(** A loop whose body never raises visits every item. *)
Lemma for_each_total (xs : list A) (body : A -> io S unit) (s : S) :
  (forall x s, fst (body x s) = Ok tt) ->
  for_each xs body s = (Ok tt, foldl (fun s x => snd (body x s)) s xs).
Proof.
  intros Hbody. revert s.
  induction xs as [|x xs IH]; intros s; [reflexivity|].
  cbn [for_each foldl]. unfold io_bind.
  specialize (Hbody x s). destruct (body x s) as [r s'].
  cbn in Hbody. subst r. cbn. apply IH.
Qed.

(** A [try] whose handler only prints never raises. *)
Lemma try_except_total `{Console S} (body : io S unit) (report : exn -> event)
    (s : S) :
  fst (try_except body (fun e => print (report e)) s) = Ok tt.
Proof.
  unfold try_except. destruct (body s) as [[[]|e] s']; reflexivity.
Qed.

End Loops.

(** ** load_bidmc_data *)

Section BidmcProperties.

Context `{Builtins}.
Import Bidmc.

#[local] Open Scope float_scope.

Lemma extremes_of_cons (a : num) (l : list num) :
  Np.max_num (a :: l) = Ok (extreme (Np.max_num (a :: l)))
  /\ Np.min_num (a :: l) = Ok (extreme (Np.min_num (a :: l))).
Proof.
  unfold Np.max_num, Np.min_num.
  destruct (Np.ints (a :: l)) as [zs|] eqn:Hints.
  - destruct a as [z|x]; [|discriminate]. cbn in Hints.
    destruct (Np.ints l) as [zs'|]; [|discriminate].
    injection Hints as <-. split; reflexivity.
  - split; reflexivity.
Qed.

Lemma summarize_run (subject_id age : Z) (gender : string) (b : breaths)
    (s : state) :
  summarize subject_id age gender b s =
  (Ok tt,
   if measurable b then
     {| printed := printed s
                   ++ [ProcessedSubject subject_id (abnormal_of_breaths b)];
        all_subjects := all_subjects s
                        ++ [expected_row subject_id age gender b];
        denominators := denominators s ++ expected_denominators b |}
   else s).
Proof.
  unfold summarize, measurable.
  destruct b as [ds amps vs]. cbn [breath_durations breath_amplitudes breath_velocities].
  destruct ds as [|d ds]; [reflexivity|].
  destruct amps as [|a amps]; [reflexivity|].
  destruct vs as [|v vs]; [reflexivity|].
  unfold expected_row, expected_denominators, abnormal_of_breaths,
    amplitude_variability_of, duration_variability_of, breathing_rate_of,
    variability.
  cbn [breath_durations breath_amplitudes breath_velocities].
  set (amps' := a :: amps). set (ds' := d :: ds). set (vs' := v :: vs).
  unfold io_bind, lift, divide, io_ret, print, append, say, record_division,
    state_console, state_divisions.
  destruct (extremes_of_cons a amps) as [Hmax Hmin]. fold amps' in Hmax, Hmin.
  rewrite Hmax, Hmin.
  destruct (0 <? Np.mean (map num_float amps')); destruct (0 <? Np.mean ds');
    cbn [printed all_subjects denominators];
    rewrite ?app_nil_r, <- ?app_assoc; reflexivity.
Qed.

Lemma process_subject_run (dataset : Z -> subject_files) (subject_id : Z)
    (s : state) :
  process_subject dataset subject_id s
  = (Ok tt, after_subject dataset s subject_id).
Proof.
  unfold process_subject, try_except, io_bind, lift, after_subject,
    subject_rows, subject_events, subject_denominators.
  destruct (measure (dataset subject_id)) as [[[age gender] b]|e].
  2: { unfold print, say, state_console. now rewrite !app_nil_r. }
  cbn [fst snd]. rewrite summarize_run.
  destruct (measurable b); [reflexivity|].
  rewrite !app_nil_r. now destruct s.
Qed.

Lemma bidmc_loop (dataset : Z -> subject_files) (ids : list Z) (s : state) :
  for_each ids (process_subject dataset) s
  = (Ok tt, foldl (after_subject dataset) s ids).
Proof.
  rewrite for_each_total by (intros; now rewrite process_subject_run).
  f_equal. revert s. induction ids as [|i ids IH]; intros s; [reflexivity|].
  cbn [foldl]. rewrite process_subject_run. apply IH.
Qed.

Lemma after_subjects (dataset : Z -> subject_files) (ids : list Z)
    (s : state) :
  foldl (after_subject dataset) s ids
  = {| printed := printed s ++ concat (map (subject_events dataset) ids);
       all_subjects :=
         all_subjects s ++ concat (map (subject_rows dataset) ids);
       denominators :=
         denominators s ++ concat (map (subject_denominators dataset) ids) |}.
Proof.
  revert s. induction ids as [|i ids IH]; intros s.
  - cbn. rewrite !app_nil_r. now destruct s.
  - cbn [foldl map concat]. rewrite IH. unfold after_subject.
    cbn [printed all_subjects denominators].
    now rewrite <- !app_assoc.
Qed.

(** The loader never raises, and its result, its console and its divisions
    are those of the subjects taken one by one. *)
Lemma load_bidmc_data_run (dataset : Z -> subject_files) (s : state) :
  load_bidmc_data dataset s
  = (Ok (bidmc_rows dataset),
     {| printed :=
          printed s ++ concat (map (subject_events dataset) (seqZ 1 53))
          ++ match bidmc_rows dataset with
             | [] => []
             | _ :: _ =>
                 [ClassDistribution
                    (foldr Z.add 0%Z (map abnormal_of (bidmc_rows dataset)))
                    (Z.of_nat (length (bidmc_rows dataset)))]
             end;
        all_subjects := bidmc_rows dataset;
        denominators :=
          denominators s
          ++ concat (map (subject_denominators dataset) (seqZ 1 53)) |}).
Proof.
  unfold load_bidmc_data, io_bind. rewrite bidmc_loop, after_subjects.
  cbn [printed all_subjects denominators app]. fold (bidmc_rows dataset).
  destruct (bidmc_rows dataset) as [|row rows]; cbn.
  - now rewrite app_nil_r.
  - unfold print, say, state_console. cbn. now rewrite <- app_assoc.
Qed.

Lemma bidmc_row_origin (dataset : Z -> subject_files) (row : dict) :
  row ∈ bidmc_rows dataset ->
  exists subject_id age gender b,
    (1 <= subject_id <= 53)%Z /\
    measure (dataset subject_id) = Ok (age, gender, b) /\
    measurable b = true /\
    row = expected_row subject_id age gender b.
Proof.
  unfold bidmc_rows. rewrite list_elem_of_In, in_concat.
  intros (rows & Hrows & Hrow).
  apply in_map_iff in Hrows as (subject_id & <- & Hid).
  apply list_elem_of_In, elem_of_seqZ in Hid.
  unfold subject_rows in Hrow.
  destruct (measure (dataset subject_id)) as [[[age gender] b]|e] eqn:Hm;
    [|contradiction].
  destruct (measurable b) eqn:Hb; [|contradiction].
  destruct Hrow as [<-|[]].
  exists subject_id, age, gender, b. repeat split; auto; lia.
Qed.

Lemma breath_step_lengths (resp : Pd.column) (acc acc' : breaths)
    (a : Pd.cell * Pd.cell) :
  breath_step resp acc a = Ok acc' ->
  length (breath_durations acc) = length (breath_amplitudes acc) ->
  (length (breath_velocities acc) <= length (breath_durations acc))%nat ->
  length (breath_durations acc') = length (breath_amplitudes acc') /\
  (length (breath_velocities acc') <= length (breath_durations acc'))%nat /\
  (length (breath_durations acc') <= S (length (breath_durations acc)))%nat.
Proof.
  intros Hstep Heq Hle. unfold breath_step in Hstep.
  destruct a as [[start| |] [stop| |]];
    try (injection Hstep as <-; repeat split; auto; lia).
  destruct (start <? stop)%Z;
    [|injection Hstep as <-; repeat split; auto; lia].
  destruct (0 <? _)%nat;
    [|injection Hstep as <-; repeat split; auto; lia].
  destruct (segment_amplitude _) as [amplitude|]; [|discriminate].
  cbn in Hstep.
  destruct (Pd.len (Pd.slice resp start stop)) as [|[|n]].
  3: destruct (segment_velocity _) as [velocity|]; [|discriminate].
  all: cbn in Hstep; injection Hstep as <-; cbn; rewrite !length_app; cbn;
    repeat split; lia.
Qed.

Lemma breath_loop_invariant (resp : Pd.column)
    (annotations : list (Pd.cell * Pd.cell)) (acc b : breaths) :
  breath_loop resp acc annotations = Ok b ->
  length (breath_durations acc) = length (breath_amplitudes acc) ->
  (length (breath_velocities acc) <= length (breath_durations acc))%nat ->
  length (breath_durations b) = length (breath_amplitudes b) /\
  (length (breath_velocities b) <= length (breath_durations b))%nat /\
  (length (breath_durations b)
   <= length (breath_durations acc) + length annotations)%nat.
Proof.
  revert acc. induction annotations as [|a rest IH]; intros acc Hloop Heq Hle.
  - injection Hloop as <-. repeat split; auto; lia.
  - cbn in Hloop.
    destruct (breath_step resp acc a) as [acc'|] eqn:Hstep; [|discriminate].
    cbn in Hloop.
    destruct (breath_step_lengths _ _ _ _ Hstep Heq Hle) as (Heq' & Hle' & Hn).
    destruct (IH acc' Hloop Heq' Hle') as (? & ? & ?).
    repeat split; auto. cbn. lia.
Qed.

Lemma breath_step_durations (resp : Pd.column) (acc acc' : breaths)
    (a : Pd.cell * Pd.cell) :
  breath_step resp acc a = Ok acc' ->
  breath_durations acc' = breath_durations acc ++ breath_seconds resp a.
Proof.
  intros Hstep. unfold breath_step in Hstep. unfold breath_seconds.
  destruct a as [[start| |] [stop| |]];
    try (injection Hstep as <-; now rewrite app_nil_r).
  destruct (start <? stop)%Z; cbn [andb];
    [|injection Hstep as <-; now rewrite app_nil_r].
  destruct (0 <? _)%nat;
    [|injection Hstep as <-; now rewrite app_nil_r].
  destruct (segment_amplitude _) as [amplitude|]; [|discriminate].
  cbn [mbind result_bind] in Hstep.
  destruct (1 <? _)%nat.
  - destruct (segment_velocity _) as [velocity|]; [|discriminate].
    cbn [mbind result_bind] in Hstep. now injection Hstep as <-.
  - cbn [mbind result_bind] in Hstep. now injection Hstep as <-.
Qed.

Lemma breath_loop_durations (resp : Pd.column)
    (annotations : list (Pd.cell * Pd.cell)) (acc b : breaths) :
  breath_loop resp acc annotations = Ok b ->
  breath_durations b
  = breath_durations acc ++ expected_durations resp annotations.
Proof.
  revert acc. induction annotations as [|a rest IH]; intros acc Hloop.
  - injection Hloop as <-. now rewrite app_nil_r.
  - cbn in Hloop.
    destruct (breath_step resp acc a) as [acc'|] eqn:Hstep; [|discriminate].
    cbn in Hloop. rewrite (IH acc' Hloop).
    rewrite (breath_step_durations _ _ _ _ Hstep).
    unfold expected_durations. cbn [map concat]. now rewrite app_assoc.
Qed.

Lemma measurable_extremes (b : breaths) :
  measurable b = true ->
  Np.max_num (breath_amplitudes b)
  = Ok (extreme (Np.max_num (breath_amplitudes b)))
  /\ Np.min_num (breath_amplitudes b)
     = Ok (extreme (Np.min_num (breath_amplitudes b))).
Proof.
  unfold measurable. destruct (breath_durations b); [discriminate|].
  destruct (breath_amplitudes b); [discriminate|]. intros _.
  apply extremes_of_cons.
Qed.

Lemma measure_reads (f : subject_files) (age : Z) (gender : string)
    (b : breaths) :
  measure f = Ok (age, gender, b)
  <-> exists info, age_from info age /\ measured_from f info gender b.
Proof.
  unfold measure, measured_from, age_from, read_age. split.
  - intros Hm.
    destruct (fix_txt f) as [info|] eqn:Hinfo; [|discriminate].
    cbn [mbind result_bind] in Hm.
    destruct (info_field info 5) as [text|] eqn:Htext; [|discriminate].
    cbn [mbind result_bind] in Hm.
    assert (Hage : exists age',
              (py_int text = Ok age'
               \/ py_int text = Raise ValueError
                  /\ age' = (if Str.contains "90+" text then 90 else 50)%Z)
              /\ match py_int text with
                 | Ok age => Ok age
                 | Raise ValueError =>
                     Ok (if Str.contains "90+" text then 90 else 50)%Z
                 | Raise e => Raise e
                 end = Ok age').
    { destruct (py_int text) as [z|[]]; try discriminate; eauto. }
    destruct Hage as (age' & Hage & Hread). rewrite Hread in Hm.
    cbn [mbind result_bind] in Hm.
    destruct (info_field info 6) as [gender'|] eqn:Hgender; [|discriminate].
    cbn [mbind result_bind] in Hm.
    destruct (info_field info 7) as [location|] eqn:Hlocation;
      [|discriminate].
    cbn [mbind result_bind] in Hm.
    destruct (signals_csv f) as [signals_df|] eqn:Hsignals; [|discriminate].
    cbn [mbind result_bind] in Hm.
    destruct (Pd.getitem signals_df "RESP") as [resp_signal|] eqn:Hresp;
      [|discriminate].
    cbn [mbind result_bind] in Hm.
    destruct (numerics_csv f) as [numerics_df|] eqn:Hnumerics;
      [|discriminate].
    cbn [mbind result_bind] in Hm.
    destruct (Pd.getitem numerics_df "RESP") as [numerics_resp|]
      eqn:Hnresp; [|discriminate].
    cbn [mbind result_bind] in Hm.
    destruct (Pd.series_mean numerics_resp) as [resp_rate|] eqn:Hrate;
      [|discriminate].
    cbn [mbind result_bind] in Hm.
    destruct (breaths_csv f) as [breaths_df|] eqn:Hbreaths; [|discriminate].
    cbn [mbind result_bind] in Hm.
    destruct (Pd.getitem breaths_df "breath_start") as [breath_start|]
      eqn:Hstart; [|discriminate].
    cbn [mbind result_bind] in Hm.
    destruct (Pd.getitem breaths_df "breath_end") as [breath_end|]
      eqn:Hend; [|discriminate].
    cbn [mbind result_bind] in Hm.
    destruct (breath_loop resp_signal _ _) as [b'|] eqn:Hloop;
      [|discriminate].
    cbn [mbind result_bind] in Hm. injection Hm as <- <- <-.
    exists info. split; [exists text; split; assumption|].
    split; [reflexivity|]. split; [exact Hgender|].
    exists location, signals_df, resp_signal, numerics_df, numerics_resp,
      resp_rate, breaths_df, breath_start, breath_end.
    repeat split; assumption.
  - intros (info & (text & Htext & Hage) & Hinfo & Hgender & location
            & signals_df & resp_signal & numerics_df & numerics_resp
            & resp_rate & breaths_df & breath_start & breath_end & Hlocation
            & Hsignals & Hresp & Hnumerics & Hnresp & Hrate & Hbreaths
            & Hstart & Hend & Hloop).
    rewrite Hinfo. cbn [mbind result_bind]. rewrite Htext.
    cbn [mbind result_bind].
    assert (Hread : match py_int text with
                    | Ok age => Ok age
                    | Raise ValueError =>
                        Ok (if Str.contains "90+" text then 90 else 50)%Z
                    | Raise e => Raise e
                    end = Ok age).
    { destruct Hage as [->|[-> ->]]; reflexivity. }
    rewrite Hread. cbn [mbind result_bind].
    rewrite Hgender. cbn [mbind result_bind].
    rewrite Hlocation. cbn [mbind result_bind].
    rewrite Hsignals. cbn [mbind result_bind].
    rewrite Hresp. cbn [mbind result_bind].
    rewrite Hnumerics. cbn [mbind result_bind].
    rewrite Hnresp. cbn [mbind result_bind].
    rewrite Hrate. cbn [mbind result_bind].
    rewrite Hbreaths. cbn [mbind result_bind].
    rewrite Hstart. cbn [mbind result_bind].
    rewrite Hend. cbn [mbind result_bind].
    rewrite Hloop. reflexivity.
Qed.

Lemma measured_velocities (f : subject_files) (info : list string)
    (gender : string) (b : breaths) :
  measured_from f info gender b ->
  (measurable b = true <-> breath_velocities b <> []).
Proof.
  intros (_ & _ & location & signals_df & resp_signal & numerics_df
          & numerics_resp & resp_rate & breaths_df & breath_start
          & breath_end & _ & _ & _ & _ & _ & _ & _ & _ & _ & Hloop).
  destruct (breath_loop_invariant _ _ _ _ Hloop eq_refl (le_n _))
    as (Heq & Hle & _).
  unfold measurable. split.
  - intros Hm Hv. rewrite Hv in Hm.
    destruct (breath_durations b), (breath_amplitudes b); discriminate.
  - intros Hv. destruct (breath_velocities b) as [|v vs]; [contradiction|].
    destruct (breath_durations b); [cbn in Hle; lia|].
    destruct (breath_amplitudes b); [discriminate|]. reflexivity.
Qed.

Lemma subject_row_in (dataset : Z -> subject_files) (subject_id : Z)
    (row : dict) :
  (1 <= subject_id <= 53)%Z ->
  row ∈ subject_rows dataset subject_id ->
  row ∈ bidmc_rows dataset.
Proof.
  intros Hid Hrow. unfold bidmc_rows.
  apply list_elem_of_In, in_concat.
  exists (subject_rows dataset subject_id). split.
  - apply in_map, list_elem_of_In, elem_of_seqZ. lia.
  - now apply list_elem_of_In.
Qed.

(** Claim C5. The loader does not raise, and the records it has appended
    to [all_subjects] are those of which it builds its frame.  Each is the
    record of a subject between 1 and 53 whose four files were read and in
    which a velocity was measured: it has exactly the eleven fields
    [subject_id], [age], [gender], [breathing_rate], [avg_amplitude],
    [max_amplitude], [min_amplitude], [avg_velocity],
    [amplitude_variability], [duration_variability] and [abnormal], in this
    order.  The age is the one read from the sixth line of the [_Fix.txt],
    the gender is 1 when the text of its seventh line is ["M"] and 0
    otherwise, the rate is 60 divided by the mean of the breath durations
    that the breath loop measured on the files, the amplitudes and the
    velocity are those of the same breaths, in the type of the signal, and
    the label is 0 or 1.  Conversely every such subject has its record.
    The durations are those of the annotations of the [_Breaths.csv] on the
    [RESP] column of the [_Signals.csv], end minus start over 125, in the
    order of the file. *)
Theorem bidmc_record_fields (dataset : Z -> subject_files) (s : state) :
  exists records,
    all_subjects (snd (load_bidmc_data dataset s)) = records /\
    fst (load_bidmc_data dataset s) = Ok records /\
    (forall row, row ∈ records ->
       exists subject_id info age gender b highest lowest,
         (1 <= subject_id <= 53)%Z /\
         age_from info age /\
         measured_from (dataset subject_id) info gender b /\
         breath_velocities b <> [] /\
         Np.max_num (breath_amplitudes b) = Ok highest /\
         Np.min_num (breath_amplitudes b) = Ok lowest /\
         row
         = [("subject_id", PInt subject_id);
            ("age", PInt age);
            ("gender", PInt (if String.eqb gender "M" then 1 else 0));
            ("breathing_rate", PFloat (60 / Np.mean (breath_durations b)));
            ("avg_amplitude",
             PFloat (Np.mean (map num_float (breath_amplitudes b))));
            ("max_amplitude", num_value highest);
            ("min_amplitude", num_value lowest);
            ("avg_velocity",
             PFloat (Np.mean (map num_float (breath_velocities b))));
            ("amplitude_variability",
             variability (Np.std (map num_float (breath_amplitudes b)))
                         (Np.mean (map num_float (breath_amplitudes b))));
            ("duration_variability",
             variability (Np.std (breath_durations b))
                         (Np.mean (breath_durations b)));
            ("abnormal",
             PInt (if is_abnormal
                        (60 / Np.mean (breath_durations b))
                        (variability
                           (Np.std (map num_float (breath_amplitudes b)))
                           (Np.mean (map num_float (breath_amplitudes b))))
                        (variability (Np.std (breath_durations b))
                                     (Np.mean (breath_durations b)))
                   then 1 else 0))]) /\
    (forall subject_id info age gender b,
       (1 <= subject_id <= 53)%Z ->
       age_from info age ->
       measured_from (dataset subject_id) info gender b ->
       breath_velocities b <> [] ->
       exists row,
         row ∈ records /\
         dict_get row "subject_id" = Some (PInt subject_id) /\
         dict_get row "age" = Some (PInt age) /\
         dict_get row "breathing_rate"
         = Some (PFloat (60 / Np.mean (breath_durations b)))) /\
    (forall subject_id info gender b,
       measured_from (dataset subject_id) info gender b ->
       exists signals_df resp_signal breaths_df breath_start breath_end,
         signals_csv (dataset subject_id) = Ok signals_df /\
         Pd.getitem signals_df "RESP" = Ok resp_signal /\
         breaths_csv (dataset subject_id) = Ok breaths_df /\
         Pd.getitem breaths_df "breath_start" = Ok breath_start /\
         Pd.getitem breaths_df "breath_end" = Ok breath_end /\
         breath_durations b
         = expected_durations resp_signal
             (zip_py (Pd.cells breath_start) (Pd.cells breath_end))).
Proof.
  exists (bidmc_rows dataset). rewrite load_bidmc_data_run.
  split; [reflexivity|]. split; [reflexivity|].
  split; [|split]; cycle 2.
  { intros subject_id info gender b
      (_ & _ & location & signals_df & resp_signal & numerics_df
       & numerics_resp & resp_rate & breaths_df & breath_start & breath_end
       & _ & Hsig & Hresp & _ & _ & _ & Hbr & Hstart & Hend & Hloop).
    exists signals_df, resp_signal, breaths_df, breath_start, breath_end.
    do 5 (split; [assumption|]).
    now rewrite (breath_loop_durations _ _ _ _ Hloop). }
  - intros row Hrow.
    destruct (bidmc_row_origin dataset row Hrow)
      as (subject_id & age & gender & b & Hid & Hm & Hb & ->).
    apply measure_reads in Hm as (info & Hage & Hread).
    destruct (measurable_extremes b Hb) as [Hmax Hmin].
    exists subject_id, info, age, gender, b,
      (extreme (Np.max_num (breath_amplitudes b))),
      (extreme (Np.min_num (breath_amplitudes b))).
    split; [exact Hid|]. split; [exact Hage|]. split; [exact Hread|].
    split; [now apply (measured_velocities _ _ _ _ Hread)|].
    split; [exact Hmax|]. split; [exact Hmin|]. reflexivity.
  - intros subject_id info age gender b Hid Hage Hread Hv.
    assert (Hm : measure (dataset subject_id) = Ok (age, gender, b))
      by (apply measure_reads; eauto).
    apply (measured_velocities _ _ _ _ Hread) in Hv.
    exists (expected_row subject_id age gender b).
    split; [|repeat split].
    apply (subject_row_in dataset subject_id); [exact Hid|].
    unfold subject_rows. rewrite Hm, Hv. now left.
Qed.

Lemma bidmc_label_of_criteria (subject_id age : Z) (gender : string)
    (b : breaths) :
  abnormal_of_breaths b
  = existsb (fun c : bool => c)
      (bidmc_criteria (expected_row subject_id age gender b)).
Proof.
  unfold abnormal_of_breaths, is_abnormal, bidmc_criteria, row_float.
  cbn [expected_row dict_get String.eqb Ascii.eqb Bool.eqb existsb].
  unfold amplitude_variability_of, duration_variability_of, variability.
  destruct (0 <? Np.mean (map num_float (breath_amplitudes b)));
    destruct (0 <? Np.mean (breath_durations b)); cbn [py_gt];
    change (0.4 <? float_of_Z 0) with false;
    repeat rewrite orb_false_r; repeat rewrite <- orb_assoc; reflexivity.
Qed.

End BidmcProperties.

(** ** The two labelling rules *)

Section LabellingRules.

Context `{Builtins}.
Import SampleModel.

#[local] Open Scope float_scope.

(** The five tests of the sample labelling count the four criteria: the two
    tests on the rate never fire together. *)
Lemma abnormal_factors_count (r : row) :
  abnormal_factors r = count_true (criteria r).
Proof.
  unfold abnormal_factors, criteria, rate_criterion, irregularity_criterion,
    amplitude_criterion, velocity_criterion, count_true.
  destruct (x0 r <? 10) eqn:Hslow; [rewrite (ltb_10_24 _ Hslow)|];
    destruct (24 <? x0 r); destruct (0.4 <? x1 r); destruct (40 <? x2 r);
    destruct (8 <? x3 r); reflexivity.
Qed.

Lemma some_criterion (bs : list bool) :
  existsb (fun c : bool => c) bs = true <-> (1 <= count_true bs)%Z.
Proof.
  unfold count_true.
  induction bs as [|[] bs IH]; simpl.
  - split; [discriminate|lia].
  - split; [lia|reflexivity].
  - exact IH.
Qed.

(** Claim C1, as the code has it. In [create_sample_model.py] a sample is
    labelled abnormal exactly when two or more of the four criteria (rate
    below 10 or above 24, irregularity above 0.4, amplitude variation above
    40, velocity above 8) hold, and normal when at most one holds. In
    [load_bidmc_data] a subject is labelled abnormal exactly when at least
    one of its own four criteria (rate below 10, rate above 24, amplitude
    variability above 0.4, duration variability above 0.4) holds, and normal
    when none holds. *)
Theorem labelling_rules :
  (forall r : row,
      (label r = 1%Z <-> (2 <= count_true (criteria r))%Z) /\
      ((count_true (criteria r) <= 1)%Z -> label r = 0%Z)) /\
  (forall (X : list row) (i : nat) (r : row),
      X !! i = Some r ->
      labels X !! i
      = Some (if (2 <=? count_true (criteria (normalize r)))%Z
              then 1%Z else 0%Z)) /\
  (forall (dataset : Z -> Bidmc.subject_files) (record : dict),
      record ∈ bidmc_rows dataset ->
      (dict_get record "abnormal" = Some (PInt 1)
       <-> (1 <= count_true (bidmc_criteria record))%Z) /\
      (count_true (bidmc_criteria record) = 0%Z ->
       dict_get record "abnormal" = Some (PInt 0))).
Proof.
  split; [|split].
  - intros r. unfold label. rewrite abnormal_factors_count.
    destruct (Z.leb_spec 2 (count_true (criteria r))); split;
      try split; intros; try lia; try reflexivity; try discriminate.
  - intros X i r Hi. unfold labels, label.
    rewrite list_lookup_fmap, Hi. cbn. now rewrite abnormal_factors_count.
  - intros dataset record Hrow.
    destruct (bidmc_row_origin dataset record Hrow)
      as (subject_id & age & gender & b & _ & _ & _ & ->).
    rewrite <- some_criterion, <- bidmc_label_of_criteria.
    assert (Hzero : count_true (bidmc_criteria
                      (expected_row subject_id age gender b)) = 0%Z ->
                    abnormal_of_breaths b = false).
    { intros Hc. destruct (abnormal_of_breaths b) eqn:Hab; [|reflexivity].
      rewrite (bidmc_label_of_criteria subject_id age gender) in Hab.
      apply some_criterion in Hab. lia. }
    change (dict_get (expected_row subject_id age gender b) "abnormal")
      with (Some (PInt (if abnormal_of_breaths b then 1 else 0))).
    split.
    + destruct (abnormal_of_breaths b); split; intros; try reflexivity;
        discriminate.
    + intros Hc. now rewrite (Hzero Hc).
Qed.

End LabellingRules.

(** Claim C1, the counterexample. The first subject of the sample dataset
    breathes 7.5 times a minute on a flat signal: one criterion holds for
    its record, whichever of the two lists of criteria is read, and the
    record is labelled abnormal. *)
Lemma bidmc_flags_on_one_criterion :
  exists record rest,
    fst (Bidmc.load_bidmc_data BidmcSamples.dataset BidmcSamples.start)
    = Ok (record :: rest) /\
    dict_get record "breathing_rate" = Some (PFloat 7.5) /\
    dict_get record "abnormal" = Some (PInt 1) /\
    SampleModel.count_true (spec_criteria record) = 1%Z /\
    SampleModel.count_true (bidmc_criteria record) = 1%Z.
Proof.
  eexists. eexists. split; [vm_compute; reflexivity|].
  repeat split; vm_compute; reflexivity.
Qed.

Lemma labelling_rules_witness :
  SampleModel.label
    {| SampleModel.x0 := 5; SampleModel.x1 := 0.5;
       SampleModel.x2 := 10; SampleModel.x3 := 2 |} = 1%Z /\
  SampleModel.label
    {| SampleModel.x0 := 5; SampleModel.x1 := 0.25;
       SampleModel.x2 := 10; SampleModel.x3 := 2 |} = 0%Z.
Proof.
  split.
  - apply (proj1 (labelling_rules (H := Decimal.builtins))).
    vm_compute. discriminate.
  - apply (proj1 (labelling_rules (H := Decimal.builtins))).
    vm_compute. discriminate.
Defined.

Lemma bidmc_record_fields_witness :
  exists rows,
    fst (Bidmc.load_bidmc_data (H := Decimal.builtins)
           BidmcMoreSamples.dataset BidmcSamples.start) = Ok rows /\
    rows
    = [[("subject_id", PInt 2); ("age", PInt 50); ("gender", PInt 1);
        ("breathing_rate", PFloat 1875); ("avg_amplitude", PFloat 4);
        ("max_amplitude", PInt 7); ("min_amplitude", PInt 1);
        ("avg_velocity", PFloat 4); ("amplitude_variability", PFloat 0.75);
        ("duration_variability", PFloat 0); ("abnormal", PInt 1)];
       [("subject_id", PInt 3); ("age", PInt 90); ("gender", PInt 0);
        ("breathing_rate", PFloat 15); ("avg_amplitude", PFloat 2);
        ("max_amplitude", PFloat 2); ("min_amplitude", PFloat 2);
        ("avg_velocity", PFloat 1); ("amplitude_variability", PFloat 0);
        ("duration_variability", PFloat 0); ("abnormal", PInt 0)];
       [("subject_id", PInt 5); ("age", PInt 61); ("gender", PInt 0);
        ("breathing_rate", PFloat 3750); ("avg_amplitude", PFloat (-1));
        ("max_amplitude", PInt (-1)); ("min_amplitude", PInt (-1));
        ("avg_velocity", PFloat 1); ("amplitude_variability", PInt 0);
        ("duration_variability", PFloat 0); ("abnormal", PInt 1)]] /\
    exists row,
      row ∈ rows /\
      dict_get row "subject_id" = Some (PInt 2) /\
      dict_get row "age" = Some (PInt 50) /\
      dict_get row "breathing_rate" = Some (PFloat 1875).
Proof.
  destruct (bidmc_record_fields (H := Decimal.builtins)
              BidmcMoreSamples.dataset BidmcSamples.start)
    as (rows & _ & Hrows & _ & Hkept & _).
  exists rows. split; [exact Hrows|]. split.
  - vm_compute in Hrows. injection Hrows as <-. reflexivity.
  - destruct (Hkept 2%Z (BidmcSamples.fix_lines "NaN" "M") 50%Z "M"
                {| Bidmc.breath_durations :=
                     [true_divide 4 125; true_divide 4 125];
                   Bidmc.breath_amplitudes := [NInt 7; NInt 1];
                   Bidmc.breath_velocities := [NInt 7; NInt 1] |})
      as (row & Hin & Hid & Hage & Hrate).
    + lia.
    + exists "NaN". split; [reflexivity|]. right.
      split; vm_compute; reflexivity.
    + split; [reflexivity|]. split; [reflexivity|].
      exists "micu", [("RESP", Pd.ColInt [3; 7; 2; 9; 5; 5; 6; 5]%Z)],
        (Pd.ColInt [3; 7; 2; 9; 5; 5; 6; 5]%Z),
        [("RESP", Pd.ColInt [18; 19]%Z)], (Pd.ColInt [18; 19]%Z),
        18.5%float,
        [("breath_start", Pd.ColInt [0; 4]%Z);
         ("breath_end", Pd.ColInt [4; 8]%Z)],
        (Pd.ColInt [0; 4]%Z), (Pd.ColInt [4; 8]%Z).
      repeat split; vm_compute; reflexivity.
    + discriminate.
    + exists row. split; [exact Hin|]. split; [exact Hid|].
      split; [exact Hage|]. rewrite Hrate. vm_compute. reflexivity.
Defined.


(** ** The grouping of load_qr_respiratory_data *)

Section GroupbyRuns.

Import Qr.

Lemma cumsum_from_bounds (a : Z) (bs : list bool) :
  Forall (Z.le a) (cumsum_from a bs)
  /\ StronglySorted Z.le (cumsum_from a bs).
Proof.
  revert a. induction bs as [|b bs IH]; intros a; cbn [cumsum_from].
  - split; constructor.
  - destruct (IH (if b then a + 1 else a)) as [Hge Hsorted].
    split.
    + constructor; [destruct b; lia|].
      eapply Forall_impl; [exact Hge|]. intros k Hk. destruct b; lia.
    + constructor; assumption.
Qed.

Lemma positions_cons (k0 : Z) (ids : list Z) (i : nat) (k : Z) :
  positions (k0 :: ids) i k
  = (if (k0 =? k)%Z then [i] else []) ++ positions ids (S i) k.
Proof.
  unfold positions. cbn [length seq zip_py List.filter fst].
  destruct (k0 =? k)%Z; reflexivity.
Qed.

Lemma positions_absent (ids : list Z) (i : nat) (k : Z) :
  k ∉ ids -> positions ids i k = [].
Proof.
  revert i. induction ids as [|k0 ids IH]; intros i Hk; [reflexivity|].
  rewrite positions_cons, IH by (intros ?; apply Hk; now right).
  destruct (Z.eqb_spec k0 k) as [->|]; [|reflexivity].
  exfalso. apply Hk. now left.
Qed.

Lemma remove_dups_head (x : Z) (l : list Z) :
  StronglySorted Z.le (x :: l) ->
  exists ks, remove_dups (x :: l) = x :: ks /\ x ∉ ks.
Proof.
  revert x. induction l as [|y l IH]; intros x Hs.
  - exists []. split; [reflexivity|]. apply not_elem_of_nil.
  - cbn [remove_dups]. destruct (decide_rel elem_of x (y :: l)) as [Hin|Hout].
    + apply StronglySorted_inv in Hs as [Hs Hx].
      assert (y = x) as ->.
      { apply Forall_cons in Hx as [Hxy Hx].
        apply StronglySorted_inv in Hs as [_ Hy].
        apply elem_of_cons in Hin as [->|Hin]; [reflexivity|].
        rewrite Forall_forall in Hy. specialize (Hy x Hin). lia. }
      apply IH. assumption.
    + exists (remove_dups (y :: l)). split; [reflexivity|].
      now rewrite elem_of_remove_dups.
Qed.

Lemma runs_from_nonempty (i : nat) (c : Pd.cell) (rest : list Pd.cell) :
  runs_from i (c :: rest) <> [].
Proof.
  cbn [runs_from]. destruct (runs_from (S i) rest); [discriminate|].
  destruct (cell_eqb _ _); discriminate.
Qed.

Lemma map_positions_skip (k0 : Z) (ids ks : list Z) (i : nat) :
  k0 ∉ ks ->
  map (positions (k0 :: ids) i) ks = map (positions ids (S i)) ks.
Proof.
  intros Hk. apply map_ext_in. intros k Hin. rewrite positions_cons.
  destruct (Z.eqb_spec k0 k) as [->|]; [|reflexivity].
  exfalso. apply Hk. now apply list_elem_of_In.
Qed.

Lemma runs_from_cons (i : nat) (c : Pd.cell) (rest : list Pd.cell) :
  runs_from i (c :: rest)
  = match runs_from (S i) rest with
    | [] => [[i]]
    | run :: others =>
        if cell_eqb (List.hd c rest) c then (i :: run) :: others
        else [i] :: run :: others
    end.
Proof. reflexivity. Qed.

Lemma groups_are_runs (cs : list Pd.cell) (a : Z) (prev : option Pd.cell)
    (i : nat) :
  map (positions (cumsum_from a (ne_shift_from prev cs)) i)
      (remove_dups (cumsum_from a (ne_shift_from prev cs)))
  = runs_from i cs.
Proof.
  revert a prev i. induction cs as [|c rest IH]; intros a prev i;
    [reflexivity|].
  cbn [ne_shift_from cumsum_from].
  set (a' := if match prev with
                | Some p => negb (cell_eqb c p)
                | None => true
                end then (a + 1)%Z else a).
  specialize (IH a' (Some c) (S i)).
  rewrite runs_from_cons.
  destruct rest as [|next rest'].
  - cbn [ne_shift_from cumsum_from remove_dups runs_from].
    destruct (decide_rel elem_of a' []) as [Hin|_];
      [now apply elem_of_nil in Hin|].
    cbn [map]. rewrite positions_cons, Z.eqb_refl. reflexivity.
  - pose proof (runs_from_nonempty (S i) next rest') as Hne.
    destruct (runs_from (S i) (next :: rest')) as [|run others];
      [contradiction|]. clear Hne.
    set (ids_r := cumsum_from a' (ne_shift_from (Some c) (next :: rest'))) in *.
    assert (Hhead : exists tail, ids_r
              = (if negb (cell_eqb next c) then (a' + 1)%Z else a') :: tail).
    { eexists. reflexivity. }
    destruct Hhead as [tail Hids].
    destruct (cumsum_from_bounds a' (ne_shift_from (Some c) (next :: rest')))
      as [Hge Hsorted]. fold ids_r in Hge, Hsorted.
    change (List.hd c (next :: rest')) with next.
    destruct (cell_eqb next c) eqn:Hsame; cbn [negb] in Hids.
    + (* the row continues the run of the row after it *)
      assert (Hin : a' ∈ ids_r) by (rewrite Hids; now left).
      cbn [remove_dups].
      destruct (decide_rel elem_of a' ids_r) as [_|Hout]; [|contradiction].
      rewrite Hids in Hsorted.
      destruct (remove_dups_head a' tail Hsorted) as (ks & Hks & Hfresh).
      rewrite <- Hids in Hks. rewrite Hks in IH |- *.
      cbn [map] in IH |- *. rewrite positions_cons, Z.eqb_refl.
      rewrite map_positions_skip by assumption.
      injection IH as <- <-. reflexivity.
    + (* the row is a run of its own *)
      assert (Hout : a' ∉ ids_r).
      { intros Hin. rewrite Hids in Hin, Hsorted.
        apply elem_of_cons in Hin as [Heq|Hin]; [lia|].
        apply StronglySorted_inv in Hsorted as [_ Ht].
        rewrite Forall_forall in Ht. specialize (Ht a' Hin). lia. }
      cbn [remove_dups].
      destruct (decide_rel elem_of a' ids_r) as [Hin|_]; [contradiction|].
      cbn [map]. rewrite positions_cons, Z.eqb_refl.
      rewrite positions_absent by assumption.
      rewrite map_positions_skip by now rewrite elem_of_remove_dups.
      rewrite IH. reflexivity.
Qed.

Lemma sorted_keys (l : list Z) :
  StronglySorted Z.le l -> merge_sort Z.le (remove_dups l) = remove_dups l.
Proof.
  intros Hs. apply (Sorted_unique Z.le).
  - apply Sorted_merge_sort. intros x y. lia.
  - apply StronglySorted_Sorted.
    induction l as [|x l IH]; [constructor|].
    apply StronglySorted_inv in Hs as [Hs Hx]. cbn [remove_dups].
    destruct (decide_rel elem_of x l); [auto|].
    constructor; [auto|].
    rewrite Forall_forall in Hx |- *. intros y Hy. apply Hx.
    now apply elem_of_remove_dups.
  - apply merge_sort_Permutation.
Qed.

(** The groups of [groupby] on the running count of phase changes are the
    runs of consecutive samples in the same phase. *)
Lemma groupby_runs (c : Pd.column) :
  map snd (groupby (cumsum (ne_shift c))) = runs c.
Proof.
  unfold groupby, cumsum, ne_shift, runs.
  rewrite sorted_keys by apply cumsum_from_bounds.
  rewrite map_map. cbn [snd].
  apply (groups_are_runs (Pd.cells c) 0 None 0).
Qed.

End GroupbyRuns.

(** ** load_qr_respiratory_data *)

Section QrProperties.

Context `{Builtins}.
Import Qr.

#[local] Open Scope float_scope.

Lemma quiet_refl (s : state) : quiet s s.
Proof.
  split; [reflexivity|]. split; [reflexivity|].
  exists []. split; [now rewrite app_nil_r|constructor].
Qed.

Lemma quiet_trans (s1 s2 s3 : state) : quiet s1 s2 -> quiet s2 s3 -> quiet s1 s3.
Proof.
  intros (Hp & Ha & d & Hd & Hpos) (Hp' & Ha' & d' & Hd' & Hpos').
  split; [congruence|]. split; [congruence|].
  exists (d ++ d'). split; [rewrite Hd', Hd; now rewrite app_assoc|].
  now apply Forall_app.
Qed.

Lemma quiet_set_header_index (i : nat) (s : state) :
  quiet s (snd (set_header_index i s)).
Proof.
  split; [reflexivity|]. split; [reflexivity|].
  exists []. split; [cbn; now rewrite app_nil_r|constructor].
Qed.

Lemma quiet_divide (a d : float) (s : state) :
  positive d -> quiet s (snd (divide a d s)).
Proof.
  intros Hd. split; [reflexivity|]. split; [reflexivity|].
  exists [d]. split; [reflexivity|]. now constructor.
Qed.

Lemma phase_loop_runs (df : Pd.dataframe) (groups : list (Z * list nat))
    (acc : list float) :
  phase_loop df groups acc
  = (ds ← run_durations df (map snd groups); Ok (acc ++ ds)).
Proof.
  revert acc. induction groups as [|[k group] groups IH]; intros acc.
  - cbn. now rewrite app_nil_r.
  - cbn [phase_loop map snd run_durations].
    destruct (1 <? length group)%nat; [|apply IH].
    unfold run_duration.
    destruct (Pd.getitem df "timestamp") as [timestamp|e]; [|reflexivity].
    cbn [mbind result_bind].
    destruct (list_index _ (List.hd _ _)) as [start_time|e]; [|reflexivity].
    cbn [mbind result_bind].
    destruct (list_index _ (List.last _ _)) as [end_time|e]; [|reflexivity].
    cbn [mbind result_bind].
    destruct (elapsed end_time start_time) as [d|e]; [|reflexivity].
    cbn [mbind result_bind]. rewrite IH.
    destruct (run_durations df (map snd groups)) as [ds|e]; [|reflexivity].
    cbn [mbind result_bind]. now rewrite <- app_assoc.
Qed.

Lemma parse_header_quiet (lines : list string) (i : nat) (h : header)
    (s : state) :
  quiet s (snd (parse_header lines i h s)).
Proof.
  revert i h. induction lines as [|line rest IH]; intros i h.
  - apply quiet_refl.
  - cbn [parse_header]. unfold io_bind, lift.
    destruct (header_line h line) as [h'|e]; [|apply quiet_refl].
    destruct (Str.contains "timestamp" line); [|apply IH].
    apply quiet_set_header_index.
Qed.

(** The metrics of a frame are those of its runs, and computing them records
    only denominators that passed the guard. *)
Lemma metrics_run (df : Pd.dataframe) (h : header) (s : state) :
  fst (metrics df h s) = expected_metrics df h
  /\ quiet s (snd (metrics df h s)).
Proof.
  unfold metrics, expected_metrics, io_bind, lift.
  destruct (Pd.getitem df "amplitude") as [amplitudes|e];
    [|split; [reflexivity|apply quiet_refl]].
  cbn [mbind result_bind].
  destruct (Pd.getitem df "velocity") as [velocity|e];
    [|split; [reflexivity|apply quiet_refl]].
  cbn [mbind result_bind].
  destruct (Pd.abs_values velocity) as [velocities|e];
    [|split; [reflexivity|apply quiet_refl]].
  cbn [mbind result_bind].
  set (amp := match avg_amplitude h with
              | Some avg => _
              | None => _
              end).
  assert (Hamp : exists r, fst (amp s) = r /\ quiet s (snd (amp s)) /\
            r = match avg_amplitude h with
                | None => Raise TypeError
                | Some avg =>
                    if 0 <? avg
                    then spread ← Pd.np_std amplitudes;
                         Ok (PFloat (spread / avg))
                    else Ok (PInt 0)
                end).
  { subst amp. destruct (avg_amplitude h) as [avg|].
    2: { eexists. split; [reflexivity|]. split; [apply quiet_refl|reflexivity]. }
    destruct (0 <? avg) eqn:Havg.
    2: { eexists. split; [reflexivity|]. split; [apply quiet_refl|reflexivity]. }
    unfold io_bind, lift.
    destruct (Pd.np_std amplitudes) as [spread|e].
    2: { eexists. split; [reflexivity|]. split; [apply quiet_refl|reflexivity]. }
    eexists. split; [reflexivity|].
    split; [exact (quiet_divide spread avg s Havg)|reflexivity]. }
  destruct Hamp as (r & Hr & Hq & ->).
  destruct (amp s) as [r s1]. cbn [fst snd] in Hr, Hq. subst r.
  destruct (avg_amplitude h) as [avg|]; [|split; [reflexivity|assumption]].
  destruct (match (0 <? avg) with true => _ | false => _ end)
    as [amplitude_variability|e]; [|split; [reflexivity|assumption]].
  cbn [mbind result_bind].
  destruct (Pd.getitem df "breathing_phase") as [breathing_phase|e];
    [|split; [reflexivity|assumption]].
  cbn [mbind result_bind].
  rewrite phase_loop_runs, groupby_runs.
  destruct (run_durations df (runs breathing_phase)) as [ds|e];
    [|split; [reflexivity|assumption]].
  cbn [mbind result_bind app].
  unfold coefficient_of_variation, variability.
  destruct ds as [|d ds];
    [destruct (Pd.np_mean_abs velocity); (split; [reflexivity|assumption])|].
  destruct (0 <? Np.mean (d :: ds)) eqn:Hmean;
    [|destruct (Pd.np_mean_abs velocity); (split; [reflexivity|assumption])].
  unfold io_bind. cbn [divide fst snd io_ret].
  pose proof (quiet_trans _ _ _ Hq
                (quiet_divide (Np.std (d :: ds)) (Np.mean (d :: ds)) s1
                   Hmean)) as Hq'.
  destruct (Pd.np_mean_abs velocity); (split; [reflexivity|exact Hq']).
Qed.

Lemma get_header_index_quiet (s : state) :
  snd (get_header_index s) = s.
Proof. unfold get_header_index. now destruct (header_index s). Qed.

(** Reading and measuring a file prints nothing and appends nothing; the row
    it returns is the summary of the metrics of the frame it read. *)
Lemma summarize_file_run (f : log_file) (s : state) :
  quiet s (snd (summarize f s)) /\
  forall h row,
    fst (summarize f s) = Ok (h, row) ->
    exists k df m,
      read_csv f k = Ok df /\
      expected_metrics df h = Ok m /\
      row = summary f h (fst (fst m)) (snd (fst m)) (snd m).
Proof.
  unfold summarize, io_bind, lift.
  destruct (content f) as [text|e];
    [|split; [apply quiet_refl|discriminate]].
  pose proof (parse_header_quiet
                (Str.split (String "010"%char EmptyString) text) 0 no_header s)
    as Hq1.
  destruct (parse_header _ 0 no_header s) as [[h|e] s1]; cbn [snd] in Hq1;
    [|split; [assumption|discriminate]].
  pose proof (get_header_index_quiet s1) as Hq2.
  destruct (get_header_index s1) as [[k|e] s2]; cbn [snd] in Hq2; subst s2;
    [|split; [assumption|discriminate]].
  destruct (read_csv f k) as [df|e] eqn:Hdf;
    [|split; [assumption|discriminate]].
  destruct (metrics_run df h s1) as [Hm Hq3].
  destruct (metrics df h s1) as [[m|e] s3]; cbn [fst snd] in Hm, Hq3.
  - split; [eapply quiet_trans; eassumption|].
    intros h' row Hrow. cbn in Hrow. injection Hrow as <- <-.
    exists k, df, m. auto.
  - split; [eapply quiet_trans; eassumption|discriminate].
Qed.

(** One turn of the loop never raises. A file that cannot be read and
    measured is reported and adds no row; a file that can adds its row, and
    is reported as processed when its header gives a breathing rate. *)
Lemma process_file_run (f : log_file) (s : state) :
  fst (process_file f s) = Ok tt /\
  (forall e, fst (summarize f s) = Raise e ->
     printed (snd (process_file f s))
     = printed s ++ [ErrorLoadingFile (file_path f) e] /\
     all_data (snd (process_file f s)) = all_data s) /\
  (forall h row, fst (summarize f s) = Ok (h, row) ->
     all_data (snd (process_file f s)) = all_data s ++ [row] /\
     forall rate, breathing_rate h = Some rate ->
       printed (snd (process_file f s))
       = printed s ++ [ProcessedFile (file_path f) rate]).
Proof.
  split; [apply try_except_total|].
  destruct (summarize_file_run f s) as [(Hp & Ha & _) _].
  unfold process_file, process_body, try_except, io_bind.
  destruct (summarize f s) as [[[h row]|e] s1]; cbn [fst snd] in *.
  - split; [discriminate|].
    intros h' row' Heq. injection Heq as <- <-.
    unfold report. destruct (breathing_rate h) as [rate|]; cbn; rewrite Ha.
    + split; [reflexivity|]. intros rate' Hr. injection Hr as <-.
      now rewrite Hp.
    + split; [reflexivity|discriminate].
  - split; [|discriminate].
    intros e' He. injection He as <-. cbn. now rewrite Hp, Ha.
Qed.

(** The rows only grow: a turn of the loop keeps every row appended before
    it. *)
Lemma process_file_keeps (f : log_file) (s : state) :
  all_data s `prefix_of` all_data (snd (process_file f s)).
Proof.
  destruct (process_file_run f s) as (_ & Hfail & Hok).
  destruct (fst (summarize f s)) as [[h row]|e] eqn:Hs.
  - destruct (Hok h row eq_refl) as [-> _]. now apply prefix_app_r.
  - destruct (Hfail e eq_refl) as [_ ->]. reflexivity.
Qed.

(** The state in which the loop over the files starts, and the state in
    which it ends. *)
Lemma load_qr_respiratory_data_run (files : list log_file) (s : state) :
  let final :=
    foldl (fun s f => snd (process_file f s))
          {| printed := printed s; all_data := []; header_index := None;
             denominators := denominators s |} files in
  load_qr_respiratory_data files s
  = (match all_data final with
     | [] => Raise ValueError
     | _ :: _ => Ok (all_data final)
     end, final).
Proof.
  intros final. unfold load_qr_respiratory_data, io_bind.
  rewrite for_each_total by (intros; apply process_file_run).
  fold final. cbn [fst snd]. now destruct (all_data final).
Qed.



Lemma np_std_floats (c : Pd.column) (spread : float) :
  Pd.np_std c = Ok spread ->
  exists xs, Pd.floats c = Ok xs /\ spread = Np.std xs.
Proof.
  unfold Pd.np_std. destruct (Pd.empty_objects c); [discriminate|].
  destruct (Pd.floats c) as [xs|e]; [|discriminate].
  intros [= <-]. eauto.
Qed.

Lemma np_mean_abs_floats (c : Pd.column) (centre : float) :
  Pd.np_mean_abs c = Ok centre ->
  exists xs, Pd.floats c = Ok xs /\ centre = Np.mean (map abs xs).
Proof.
  unfold Pd.np_mean_abs. destruct (Pd.empty_objects c); [discriminate|].
  destruct (Pd.floats c) as [xs|e]; [|discriminate].
  intros [= <-]. eauto.
Qed.

(** The fields of the row of a file that was read and measured. *)
Lemma session_metrics (f : log_file) (s : state) (h : header) (row : dict) :
  fst (summarize f s) = Ok (h, row) ->
  exists k df amplitudes velocity velocities breathing_phase durations avg,
    read_csv f k = Ok df /\
    Pd.getitem df "amplitude" = Ok amplitudes /\
    Pd.getitem df "velocity" = Ok velocity /\
    Pd.floats velocity = Ok velocities /\
    Pd.getitem df "breathing_phase" = Ok breathing_phase /\
    run_durations df (runs breathing_phase) = Ok durations /\
    avg_amplitude h = Some avg /\
    dict_get row "avg_velocity"
    = Some (PFloat (Np.mean (map abs velocities))) /\
    ((0 <? avg) = true ->
     exists xs, Pd.floats amplitudes = Ok xs /\
       dict_get row "amplitude_variability"
       = Some (PFloat (Np.std xs / avg))) /\
    ((0 <? avg) = false ->
     dict_get row "amplitude_variability" = Some (PInt 0)) /\
    dict_get row "duration_variability"
    = Some (coefficient_of_variation durations).
Proof.
  intros Hs.
  destruct (summarize_file_run f s) as [_ Hrow].
  destruct (Hrow h row Hs) as (k & df & m & Hdf & Hm & ->).
  unfold expected_metrics in Hm.
  destruct (Pd.getitem df "amplitude") as [amplitudes|e] eqn:Hamp;
    [|discriminate].
  cbn [mbind result_bind] in Hm.
  destruct (Pd.getitem df "velocity") as [velocity|e] eqn:Hvel;
    [|discriminate].
  cbn [mbind result_bind] in Hm.
  destruct (Pd.abs_values velocity) as [absolute|e]; [|discriminate].
  cbn [mbind result_bind] in Hm.
  destruct (avg_amplitude h) as [avg|] eqn:Havg; [|discriminate].
  destruct (0 <? avg) eqn:Hpos.
  - destruct (Pd.np_std amplitudes) as [spread|e] eqn:Hspread;
      [|discriminate].
    apply np_std_floats in Hspread as (xs & Hxs & ->).
    cbn [mbind result_bind] in Hm.
    destruct (Pd.getitem df "breathing_phase") as [phase|e] eqn:Hphase;
      [|discriminate].
    cbn [mbind result_bind] in Hm.
    destruct (run_durations df (runs phase)) as [ds|e] eqn:Hds;
      [|discriminate].
    cbn [mbind result_bind] in Hm.
    destruct (Pd.np_mean_abs velocity) as [centre|e] eqn:Hcentre;
      [|discriminate].
    apply np_mean_abs_floats in Hcentre as (velocities & Hvels & ->).
    cbn [mbind result_bind] in Hm. injection Hm as <-.
    exists k, df, amplitudes, velocity, velocities, phase, ds, avg.
    do 8 (split; [first [assumption|reflexivity]|]).
    split; [intros _; exists xs; split; [assumption|reflexivity]|].
    split; [congruence|reflexivity].
  - cbn [mbind result_bind] in Hm.
    destruct (Pd.getitem df "breathing_phase") as [phase|e] eqn:Hphase;
      [|discriminate].
    cbn [mbind result_bind] in Hm.
    destruct (run_durations df (runs phase)) as [ds|e] eqn:Hds;
      [|discriminate].
    cbn [mbind result_bind] in Hm.
    destruct (Pd.np_mean_abs velocity) as [centre|e] eqn:Hcentre;
      [|discriminate].
    apply np_mean_abs_floats in Hcentre as (velocities & Hvels & ->).
    cbn [mbind result_bind] in Hm. injection Hm as <-.
    exists k, df, amplitudes, velocity, velocities, phase, ds, avg.
    do 8 (split; [first [assumption|reflexivity]|]).
    split; [congruence|].
    split; [intros _; reflexivity|reflexivity].
Qed.

(** Claim C6, as the code has it. For every log that is read and measured
    without an exception, the loop appends one record, in which
    [avg_velocity] is the mean of the absolute values of the velocity
    samples; [amplitude_variability] is the standard deviation of the
    amplitude samples divided by the average amplitude of the header when
    that average is strictly positive, and 0 otherwise; and
    [duration_variability] is the coefficient of variation, guarded in the
    same way, of the durations (last timestamp minus first) of the runs of
    consecutive samples in the same breathing phase that have more than one
    sample. *)
Theorem session_record (f : log_file) (s : state) (h : header) (row : dict) :
  fst (summarize f s) = Ok (h, row) ->
  all_data (snd (process_file f s)) = all_data s ++ [row] /\
  exists k df amplitudes velocity velocities breathing_phase durations avg,
    read_csv f k = Ok df /\
    Pd.getitem df "amplitude" = Ok amplitudes /\
    Pd.getitem df "velocity" = Ok velocity /\
    Pd.floats velocity = Ok velocities /\
    Pd.getitem df "breathing_phase" = Ok breathing_phase /\
    run_durations df (runs breathing_phase) = Ok durations /\
    avg_amplitude h = Some avg /\
    dict_get row "avg_velocity"
    = Some (PFloat (Np.mean (map abs velocities))) /\
    ((0 <? avg) = true ->
     exists xs, Pd.floats amplitudes = Ok xs /\
       dict_get row "amplitude_variability"
       = Some (PFloat (Np.std xs / avg))) /\
    ((0 <? avg) = false ->
     dict_get row "amplitude_variability" = Some (PInt 0)) /\
    dict_get row "duration_variability"
    = Some (coefficient_of_variation durations).
Proof.
  intros Hs. split.
  - destruct (process_file_run f s) as (_ & _ & Hok).
    now destruct (Hok h row Hs) as [Hrows _].
  - exact (session_metrics f s h row Hs).
Qed.

End QrProperties.

(** ** download_coco_model.py *)

Section DownloadProperties.

Context `{Builtins}.
Import Download.

Lemma touches_only_refl (path : string) (w : world) : touches_only path w w.
Proof. split; [reflexivity|]. intros; reflexivity. Qed.

Lemma touches_only_trans (path : string) (w1 w2 w3 : world) :
  touches_only path w1 w2 -> touches_only path w2 w3 ->
  touches_only path w1 w3.
Proof.
  intros [Hl Hf] [Hl' Hf']. split; [congruence|].
  intros p Hp. now rewrite Hf', Hf.
Qed.

Lemma touches_only_say (path : string) (e : event) (w : world) :
  touches_only path w (say e w).
Proof. split; [reflexivity|]. intros; reflexivity. Qed.

Lemma touches_only_write (path : string) (f : file) (w : world) :
  touches_only path w (write_file path f w).
Proof.
  split; [reflexivity|]. intros p Hp. cbn. now rewrite lookup_insert_ne.
Qed.

Lemma write_chunk_run (path chunk : string) (w : world) :
  fst (write_chunk path chunk w) = Ok tt /\
  touches_only path w (snd (write_chunk path chunk w)).
Proof.
  unfold write_chunk.
  destruct (files w !! path) as [[]|]; split; try reflexivity;
    apply touches_only_write.
Qed.

Lemma write_chunks_touches (path : string) (total_size downloaded : Z)
    (chunks : list string) (broken : option exn) (w : world) :
  touches_only path w
    (snd (write_chunks path total_size downloaded chunks broken w)).
Proof.
  revert downloaded w. induction chunks as [|chunk rest IH];
    intros downloaded w; cbn [write_chunks].
  - destruct broken; apply touches_only_refl.
  - destruct (String.eqb chunk ""); [apply IH|].
    unfold io_bind.
    destruct (write_chunk_run path chunk w) as [Hr Ht].
    destruct (write_chunk path chunk w) as [r w1]. cbn [fst snd] in Hr, Ht.
    subst r.
    destruct (0 <? total_size)%Z; cbn.
    + eapply touches_only_trans; [exact Ht|].
      eapply touches_only_trans; [|apply IH]. apply touches_only_say.
    + eapply touches_only_trans; [exact Ht|apply IH].
Qed.

(** Whatever happens to a download, it is caught: the turn of the loop does
    not raise, and it leaves every other file as it was. *)
Lemma attempt_run (net : network) (m : model) (w : world) :
  fst (attempt net m w) = Ok tt /\
  touches_only (filename m) w (snd (attempt net m w)).
Proof.
  unfold attempt, io_bind. cbn [print fst snd].
  split; [apply try_except_total|].
  set (w0 := say (DownloadDescription (description m)) w).
  assert (H0 : touches_only (filename m) w w0) by apply touches_only_say.
  eapply touches_only_trans; [exact H0|]. clear H0. generalize w0. clear w0.
  intros w0. unfold try_except.
  assert (Hd : touches_only (filename m) w0
                 (snd (download_file net (url m) (filename m) w0))).
  { unfold download_file, io_bind, lift. cbn [print fst snd].
    set (w1 := say (Downloading (filename m)) w0).
    assert (H1 : touches_only (filename m) w0 w1) by apply touches_only_say.
    eapply touches_only_trans; [exact H1|]. clear H1. generalize w1. clear w1.
    intros w1.
    destruct (net (url m)) as [r|e]; [|apply touches_only_refl].
    destruct (status_ok r); [|apply touches_only_refl].
    destruct (content_length r) as [text|];
      [destruct (py_int text) as [total_size|e]; [|apply touches_only_refl]|];
      cbn [io_ret]; unfold open_wb;
      (destruct (decide (filename m ∈ locked w1));
       [apply touches_only_refl|]);
      match goal with
      | |- context [write_chunks ?p ?t ?d ?c ?b ?w] =>
          pose proof (write_chunks_touches p t d c b w) as Hw;
          destruct (write_chunks p t d c b w) as [[[]|e'] w2]
      end; cbn [snd] in Hw |- *;
      (eapply touches_only_trans; [apply touches_only_write|]);
      first [exact Hw
            | eapply touches_only_trans; [exact Hw|apply touches_only_say]]. }
  destruct (download_file net (url m) (filename m) w0) as [[[]|e] w1];
    cbn [snd] in Hd |- *; [exact Hd|].
  eapply touches_only_trans; [exact Hd|apply touches_only_say].
Qed.

Lemma write_chunks_complete (path : string) (total_size downloaded : Z)
    (chunks existing : list string) (w : world) :
  files w !! path = Some (FBinary existing) ->
  fst (write_chunks path total_size downloaded chunks None w) = Ok tt /\
  files (snd (write_chunks path total_size downloaded chunks None w)) !! path
  = Some (FBinary (existing ++ delivered chunks)).
Proof.
  revert downloaded existing w.
  induction chunks as [|chunk rest IH]; intros downloaded existing w Hfile;
    cbn [write_chunks delivered List.filter].
  - split; [reflexivity|]. cbn. now rewrite app_nil_r.
  - destruct (String.eqb chunk ""); cbn [negb]; [now apply IH|].
    unfold io_bind, write_chunk. rewrite Hfile.
    set (w1 := write_file path (FBinary (existing ++ [chunk])) w).
    assert (Hw1 : files w1 !! path = Some (FBinary (existing ++ [chunk])))
      by apply lookup_insert_eq.
    destruct (0 <? total_size)%Z; cbn [print io_ret fst snd];
      [pose proof (IH (downloaded + Z.of_nat (String.length chunk))%Z
                      (existing ++ [chunk])
                      (say (Progress
                              (downloaded + Z.of_nat (String.length chunk))
                              total_size) w1)) as IH'
      |pose proof (IH (downloaded + Z.of_nat (String.length chunk))%Z
                      (existing ++ [chunk]) w1) as IH'];
      rewrite <- app_assoc in IH'; apply IH'; exact Hw1.
Qed.

Lemma ready_locked (net : network) (m : model) (w w' : world) (r : response) :
  locked w' = locked w -> ready net m w r -> ready net m w' r.
Proof.
  intros Hl (Hn & Hs & Hb & Hc & Hw). repeat split; try assumption.
  now rewrite Hl.
Qed.

(** A download that goes through leaves the whole body in the file. *)
Lemma attempt_success (net : network) (m : model) (w : world) (r : response) :
  ready net m w r ->
  files (snd (attempt net m w)) !! filename m
  = Some (FBinary (delivered (body r))).
Proof.
  intros (Hn & Hs & Hb & Hc & Hw).
  unfold attempt, try_except, download_file, io_bind, lift.
  cbn [print fst snd]. rewrite Hn, Hs, Hb.
  set (w1 := say (Downloading (filename m))
               (say (DownloadDescription (description m)) w)).
  destruct (content_length r) as [text|];
    [destruct Hc as [n Hint]; rewrite Hint|];
    cbn [io_ret]; unfold open_wb;
    (destruct (decide (filename m ∈ locked w1)) as [Hin|_];
     [contradiction|]);
    match goal with
    | |- context [write_chunks ?p ?t ?d ?c None ?w2] =>
        destruct (write_chunks_complete p t d c [] w2) as [Hok Hfile];
        [apply lookup_insert_eq|];
        destruct (write_chunks p t d c None w2) as [[[]|e] w3]
    end; cbn [fst snd] in *; first [exact Hfile|discriminate].
Qed.

(** A download that raises is reported on the console: the report is the
    last line the turn prints. *)
Lemma attempt_failure (net : network) (m : model) (w : world) (e : exn) :
  fst (download_file net (url m) (filename m)
         (say (DownloadDescription (description m)) w)) = Raise e ->
  List.last (console (snd (attempt net m w))) (Say "")
  = FailedToDownload (filename m) e.
Proof.
  intros Hfail. unfold attempt, try_except, io_bind. cbn [print fst snd].
  destruct (download_file _ _ _ _) as [[[]|e'] w1]; cbn [fst] in Hfail;
    [discriminate|].
  injection Hfail as ->. cbn. apply last_last.
Qed.

Lemma attempts_elsewhere (net : network) (ms : list model) (w : world)
    (p : string) :
  p ∉ map filename ms ->
  locked (snd (for_each ms (attempt net) w)) = locked w /\
  files (snd (for_each ms (attempt net) w)) !! p = files w !! p.
Proof.
  revert w. induction ms as [|m ms IH]; intros w Hp; [split; reflexivity|].
  cbn [for_each]. unfold io_bind.
  destruct (attempt_run net m w) as [Hok [Hl Hf]].
  destruct (attempt net m w) as [r w1]. cbn [fst snd] in *. subst r.
  destruct (IH w1) as [Hl' Hf'].
  { intros Hin. apply Hp. cbn. now right. }
  split; [congruence|]. rewrite Hf'. apply Hf.
  intros ->. apply Hp. cbn. now left.
Qed.

Lemma attempts_locked (net : network) (ms : list model) (w : world) :
  locked (snd (for_each ms (attempt net) w)) = locked w.
Proof.
  revert w. induction ms as [|m ms IH]; intros w; [reflexivity|].
  cbn [for_each]. unfold io_bind.
  destruct (attempt_run net m w) as [Hok [Hl Hf]].
  destruct (attempt net m w) as [r w1]. cbn [fst snd] in *. subst r.
  now rewrite IH.
Qed.

(** Each model whose download goes through ends up on disk, whatever
    happens to the downloads before and after it. *)
Lemma downloads_independent (net : network) (ms : list model) (w : world)
    (m : model) (r : response) :
  NoDup (map filename ms) -> m ∈ ms -> ready net m w r ->
  fst (for_each ms (attempt net) w) = Ok tt /\
  files (snd (for_each ms (attempt net) w)) !! filename m
  = Some (FBinary (delivered (body r))).
Proof.
  intros Hnd Hin Hready.
  split.
  { rewrite for_each_total by (intros; apply attempt_run). reflexivity. }
  revert w Hready. induction ms as [|m0 ms IH]; intros w Hready.
  { now apply elem_of_nil in Hin. }
  cbn [map] in Hnd. apply NoDup_cons in Hnd as [Hfresh Hnd].
  cbn [for_each]. unfold io_bind.
  destruct (attempt_run net m0 w) as [Hok [Hl Hf]].
  pose proof (attempt_success net m0 w) as Hsucc.
  destruct (attempt net m0 w) as [r0 w1]. cbn [fst snd] in *. subst r0.
  apply elem_of_cons in Hin as [->|Hin].
  - destruct (attempts_elsewhere net ms w1 (filename m0) Hfresh) as [_ ->].
    now apply Hsucc.
  - apply IH; [assumption|assumption|].
    now apply (ready_locked net m w w1 r).
Qed.

Lemma backup_run (w : world) :
  fst (backup w) = Ok tt /\ locked (snd (backup w)) = locked w /\
  forall m, m ∈ models ->
    files (snd (backup w)) !! filename m = files w !! filename m.
Proof.
  unfold backup.
  destruct (files w !! (assets_dir +:+ "/qr_yolov5_tiny.tflite")) as [f|];
    [|repeat split].
  destruct (files w !! (assets_dir +:+ "/qr_yolov5_tiny.tflite.backup"));
    [repeat split|].
  cbn [print fst snd say world_console files locked].
  split; [reflexivity|]. split; [reflexivity|].
  intros m Hm.
  rewrite lookup_insert_ne, lookup_delete_ne; [reflexivity| |];
    repeat (apply elem_of_cons in Hm as [->|Hm]; [discriminate|]);
    now apply elem_of_nil in Hm.
Qed.

(** The downloader never raises, and each of its two models whose download
    goes through is on disk when it ends. *)
Lemma main_run (net : network) (w : world) :
  fst (main net w) = Ok tt /\
  forall m r, m ∈ models -> ready net m w r ->
    files (snd (main net w)) !! filename m
    = Some (FBinary (delivered (body r))).
Proof.
  unfold main, io_bind. cbn [print fst snd].
  set (w0 := say (Say "==================================================")
               (say (Say "YOLOv5 COCO Model Downloader") w)).
  destruct (backup_run w0) as (Hb & Hl & _).
  destruct (backup w0) as [rb w1]. cbn [fst snd] in Hb, Hl. subst rb.
  assert (Hloop : fst (for_each models (attempt net) w1) = Ok tt).
  { rewrite for_each_total by (intros; apply attempt_run). reflexivity. }
  pose proof (fun m r => downloads_independent net models w1 m r) as Hind.
  destruct (for_each models (attempt net) w1) as [rl w2].
  cbn [fst snd] in Hloop, Hind. subst rl. split; [reflexivity|].
  intros m r Hm Hready. cbn [snd say world_console files].
  apply Hind; [|assumption|].
  - apply (bool_decide_unpack _). vm_compute. reflexivity.
  - apply (ready_locked net m w w1 r); [|assumption]. now rewrite Hl.
Qed.

End DownloadProperties.

(** ** The guards of the variability metrics *)

Section Guards.

Context `{Builtins}.

#[local] Open Scope float_scope.



End Guards.

(** Claim C6, the counterexample. With an average amplitude of zero in the
    header the amplitude variability is the integer 0, not the quotient of
    the standard deviation by the average; and in a session whose first run
    has a single sample the duration variability is that of the two longer
    runs, 0, not that of the three runs. *)
Lemma session_variabilities_are_guarded_and_filtered :
  (exists h row,
      fst (Qr.summarize QrSamples.flat_log QrSamples.start) = Ok (h, row) /\
      Qr.avg_amplitude h = Some 0%float /\
      Pd.getitem QrSamples.frame "amplitude"
      = Ok (Pd.ColFloat [1; 3; 1; 3; 1; 3]%float) /\
      dict_get row "amplitude_variability" = Some (PInt 0) /\
      dict_get row "amplitude_variability"
      <> Some (PFloat (Np.std [1; 3; 1; 3; 1; 3] / 0)%float)) /\
  (exists h row phase,
      fst (Qr.summarize QrSamples.full_log QrSamples.start) = Ok (h, row) /\
      Pd.getitem QrSamples.frame "breathing_phase" = Ok phase /\
      runs phase = [[0]; [1; 2; 3]; [4; 5]]%nat /\
      all_run_durations QrSamples.frame (runs phase)
      = Ok [0; 2; 2]%float /\
      dict_get row "duration_variability" = Some (PFloat 0) /\
      (Np.std [0; 2; 2] / Np.mean [0; 2; 2] =? 0)%float = false).
Proof.
  split.
  - eexists. eexists. split; [vm_compute; reflexivity|].
    repeat split; try (vm_compute; reflexivity). discriminate.
  - eexists. eexists. eexists. split; [vm_compute; reflexivity|].
    split; [vm_compute; reflexivity|].
    repeat split; vm_compute; reflexivity.
Qed.

Lemma session_record_witness :
  exists row,
    Qr.all_data (snd (Qr.process_file QrSamples.full_log QrSamples.start))
    = Qr.all_data QrSamples.start ++ [row] /\
    dict_get row "avg_velocity" = Some (PFloat 2) /\
    dict_get row "amplitude_variability" = Some (PFloat 0.5).
Proof.
  eexists. split.
  - eapply (session_record (H := Decimal.builtins)
              QrSamples.full_log QrSamples.start).
    vm_compute. reflexivity.
  - split; vm_compute; reflexivity.
Defined.



(** ** Errors in one item do not stop the others *)

Section ContinueOnError.

Context `{Builtins}.

(** Claim C4, as the code has it. In each of the three loops an exception
    raised while one item is processed is caught and reported on the
    console, and the loop goes on with the items that remain.
    [load_bidmc_data] never raises and returns the records of the subjects,
    in order, that were read and measured without an exception and had a
    breath to measure. One turn of the loop of [load_qr_respiratory_data]
    never raises and keeps the records appended before it; it reports the
    exception of a file that cannot be read and measured and appends
    nothing for it, and it appends the record of a file that can and whose
    header gives a breathing rate. The loader returns the records appended
    when there is one, and raises [ValueError] when there is none. The
    downloader never raises, reports a download that fails, and leaves on
    disk every model whose download goes through. *)
Theorem continue_on_error :
  (forall (dataset : Z -> Bidmc.subject_files) (s : Bidmc.state),
      fst (Bidmc.load_bidmc_data dataset s)
      = Ok (concat (map (subject_rows dataset) (seqZ 1 53))) /\
      forall subject_id, (1 <= subject_id <= 53)%Z ->
        (forall e,
            Bidmc.measure (dataset subject_id) = Raise e ->
            subject_rows dataset subject_id = [] /\
            ErrorProcessingSubject subject_id e
              ∈ Bidmc.printed (snd (Bidmc.load_bidmc_data dataset s))) /\
        (forall age gender b,
            Bidmc.measure (dataset subject_id) = Ok (age, gender, b) ->
            subject_rows dataset subject_id
            = if measurable b
              then [expected_row subject_id age gender b] else [])) /\
  (forall (f : Qr.log_file) (s : Qr.state),
      fst (Qr.process_file f s) = Ok tt /\
      Qr.all_data s `prefix_of` Qr.all_data (snd (Qr.process_file f s)) /\
      (forall e,
          fst (Qr.summarize f s) = Raise e ->
          Qr.printed (snd (Qr.process_file f s))
          = Qr.printed s ++ [ErrorLoadingFile (Qr.file_path f) e] /\
          Qr.all_data (snd (Qr.process_file f s)) = Qr.all_data s) /\
      (forall h row rate,
          fst (Qr.summarize f s) = Ok (h, row) ->
          Qr.breathing_rate h = Some rate ->
          Qr.printed (snd (Qr.process_file f s))
          = Qr.printed s ++ [ProcessedFile (Qr.file_path f) rate] /\
          Qr.all_data (snd (Qr.process_file f s)) = Qr.all_data s ++ [row]))
  /\
  (forall (files : list Qr.log_file) (s : Qr.state),
      let final :=
        foldl (fun s f => snd (Qr.process_file f s))
              {| Qr.printed := Qr.printed s; Qr.all_data := [];
                 Qr.header_index := None;
                 Qr.denominators := Qr.denominators s |} files in
      Qr.load_qr_respiratory_data files s
      = (match Qr.all_data final with
         | [] => Raise ValueError
         | _ :: _ => Ok (Qr.all_data final)
         end, final)) /\
  (forall (net : Download.network) (w : world),
      fst (Download.main net w) = Ok tt /\
      (forall m r,
          m ∈ Download.models -> ready net m w r ->
          files (snd (Download.main net w)) !! Download.filename m
          = Some (FBinary (delivered (Download.body r)))) /\
      (forall m e,
          fst (Download.download_file net (Download.url m)
                 (Download.filename m)
                 (say (DownloadDescription (Download.description m)) w))
          = Raise e ->
          fst (Download.attempt net m w) = Ok tt /\
          List.last (console (snd (Download.attempt net m w))) (Say "")
          = FailedToDownload (Download.filename m) e)).
Proof.
  split; [|split; [|split]].
  - intros dataset s. rewrite load_bidmc_data_run. cbn [fst snd Bidmc.printed].
    split; [reflexivity|]. intros subject_id Hid. split.
    + intros e He. unfold subject_rows. rewrite He. split; [reflexivity|].
      apply elem_of_app. right. apply elem_of_app. left.
      apply list_elem_of_In, in_concat.
      exists (subject_events dataset subject_id). split.
      * apply in_map. apply list_elem_of_In, elem_of_seqZ. lia.
      * unfold subject_events. rewrite He. now left.
    + intros age gender b Hm. unfold subject_rows. now rewrite Hm.
  - intros f s. destruct (process_file_run f s) as (Hok & Hfail & Hrow).
    split; [exact Hok|]. split; [apply process_file_keeps|].
    split; [exact Hfail|].
    intros h row rate Hs Hrate. destruct (Hrow h row Hs) as [Hdata Hprint].
    split; [now apply Hprint|exact Hdata].
  - intros files s. apply load_qr_respiratory_data_run.
  - intros net w. destruct (main_run net w) as [Hok Hfiles].
    split; [exact Hok|]. split; [exact Hfiles|].
    intros m e He. split; [apply attempt_run|now apply attempt_failure].
Qed.

End ContinueOnError.

(** A log whose header gives no breathing rate: its record is appended, then
    the line that reports it raises, and the file is reported as an error
    with its record kept. *)
Lemma record_kept_when_report_raises :
  exists row,
    Qr.all_data (snd (Qr.process_file QrSamples.no_rate_log QrSamples.start))
    = [row] /\
    dict_get row "patient_id" = Some (PStr "19") /\
    Qr.printed (snd (Qr.process_file QrSamples.no_rate_log QrSamples.start))
    = [ErrorLoadingFile "respiratory_data/respiratory_data_3.csv" TypeError].
Proof.
  eexists. split; [vm_compute; reflexivity|].
  split; vm_compute; reflexivity.
Qed.

(** Claim C4, the counterexample. When the only file cannot be read, the
    exception is caught and reported, and the loader then raises
    [ValueError]: there is no result, empty or not. *)
Lemma load_qr_raises_when_every_file_fails :
  fst (Qr.process_file QrSamples.unreadable_log QrSamples.start) = Ok tt /\
  Qr.printed
    (snd (Qr.load_qr_respiratory_data [QrSamples.unreadable_log]
            QrSamples.start))
  = [ErrorLoadingFile "respiratory_data/respiratory_data_4.csv"
       PermissionError] /\
  fst (Qr.load_qr_respiratory_data [QrSamples.unreadable_log]
         QrSamples.start)
  = Raise ValueError.
Proof. repeat split; vm_compute; reflexivity. Qed.

Lemma continue_on_error_witness :
  subject_rows BidmcSamples.dataset 2 = [] /\
  ErrorProcessingSubject 2 FileNotFoundError
    ∈ Bidmc.printed
        (snd (Bidmc.load_bidmc_data BidmcSamples.dataset BidmcSamples.start))
  /\
  files (snd (Download.main DownloadSamples.small_model_only
                DownloadSamples.empty_disk))
    !! "app/src/main/assets/yolov5n_coco.tflite"
  = Some (FBinary ["ab"; "cd"]).
Proof.
  destruct (continue_on_error (H := Decimal.builtins))
    as (Hbidmc & _ & _ & Hdownload).
  destruct (Hbidmc BidmcSamples.dataset BidmcSamples.start) as [_ Hsubject].
  destruct (Hsubject 2%Z ltac:(lia)) as [Herror _].
  destruct (Herror FileNotFoundError ltac:(vm_compute; reflexivity))
    as [Hrows Hprinted].
  destruct (Hdownload DownloadSamples.small_model_only
              DownloadSamples.empty_disk) as (_ & Hfiles & _).
  split; [exact Hrows|]. split; [exact Hprinted|].
  apply (Hfiles DownloadSamples.small_model
           {| Download.status_ok := true;
              Download.content_length := Some "4";
              Download.body := ["ab"; ""; "cd"];
              Download.broken := None |}).
  - right. left.
  - repeat split; try (vm_compute; reflexivity).
    + exists 4%Z. vm_compute. reflexivity.
    + apply not_elem_of_empty.
Defined.

(** ** The breath loop and the rows of load_bidmc_data *)

Section BreathLoopProperties.

Context `{Builtins}.
Import Bidmc.

(** Property X1.
    The three lists of the breath loop stay in step: a duration is recorded
    with every amplitude, a velocity only with some of them, and no
    annotation gives more than one entry.  So a subject has a record exactly
    when a velocity was measured. *)
Theorem breath_lists_in_step (resp : Pd.column)
    (annotations : list (Pd.cell * Pd.cell)) (b : breaths) :
  breath_loop resp no_breaths annotations = Ok b ->
  length (breath_durations b) = length (breath_amplitudes b) /\
  (length (breath_velocities b) <= length (breath_durations b))%nat /\
  (length (breath_durations b) <= length annotations)%nat /\
  (measurable b = true <-> breath_velocities b <> []).
Proof.
  intros Hloop.
  destruct (breath_loop_invariant resp annotations no_breaths b Hloop
              eq_refl (le_n _)) as (Heq & Hle & Hn).
  repeat split; auto.
  - unfold measurable. intros Hm Hv. rewrite Hv in Hm.
    destruct (breath_durations b), (breath_amplitudes b); discriminate.
  - intros Hv. unfold measurable.
    destruct (breath_velocities b) as [|v vs]; [contradiction|].
    destruct (breath_durations b); [cbn in Hle; lia|].
    destruct (breath_amplitudes b); [discriminate|]. reflexivity.
Qed.

Lemma breath_lists_in_step_witness :
  exists b,
    breath_loop (Pd.ColFloat [1; 3; 2; 5]%float) no_breaths
      [(Pd.CInt 0, Pd.CInt 3); (Pd.CInt 3, Pd.CInt 4); (Pd.CInt 4, Pd.CInt 2)]
    = Ok b /\
    length (breath_durations b) = 2%nat /\
    length (breath_velocities b) = 1%nat /\
    (measurable b = true <-> breath_velocities b <> []).
Proof.
  eexists. split; [vm_compute; reflexivity|].
  split; [reflexivity|]. split; [reflexivity|].
  apply (breath_lists_in_step (Pd.ColFloat [1; 3; 2; 5]%float)
           [(Pd.CInt 0, Pd.CInt 3); (Pd.CInt 3, Pd.CInt 4);
            (Pd.CInt 4, Pd.CInt 2)]).
  vm_compute. reflexivity.
Defined.

Lemma slice_list_beyond {A} (l : list A) (start stop : Z) :
  (0 <= start)%Z -> (Z.of_nat (length l) <= start)%Z ->
  Pd.slice_list l start stop = [].
Proof.
  intros H0 Hn. unfold Pd.slice_list, Pd.slice_bound.
  destruct (start <? 0)%Z eqn:Hs; [lia|].
  rewrite drop_ge by lia. apply take_nil.
Qed.

Lemma len_slice (c : Pd.column) (start stop : Z) :
  Pd.len (Pd.slice c start stop)
  = length (Pd.slice_list (Pd.cells c) start stop).
Proof.
  unfold Pd.slice_list.
  destruct c; cbn; unfold Pd.slice_list;
    now rewrite !length_take, !length_drop, !length_map.
Qed.

(** Property X2.
    An annotation is passed over, without any error, when one of its two
    cells is not an integer, when it does not end after it starts, and when
    it starts at or beyond the end of the signal. *)
Theorem annotation_skipped (resp : Pd.column) (acc : breaths)
    (first last : Pd.cell) :
  skipped resp first last = true ->
  breath_step resp acc (first, last) = Ok acc.
Proof.
  intros Hskip. unfold breath_step, skipped in *.
  destruct first as [start| |], last as [stop| |]; try reflexivity.
  destruct (start <? stop)%Z eqn:Hlt; [|reflexivity].
  apply orb_prop in Hskip as [Hle|Hn]; [lia|].
  apply andb_prop in Hn as [H0 Hn].
  rewrite len_slice, slice_list_beyond; [reflexivity|lia|].
  destruct resp; cbn in *; rewrite length_map; lia.
Qed.

Lemma annotation_skipped_witness :
  breath_step (Pd.ColFloat [1; 3; 2; 5]%float) no_breaths
    (Pd.CInt 4, Pd.CInt 9) = Ok no_breaths.
Proof.
  apply (annotation_skipped (Pd.ColFloat [1; 3; 2; 5]%float) no_breaths
           (Pd.CInt 4) (Pd.CInt 9)).
  reflexivity.
Defined.

Lemma subject_rows_ids (dataset : Z -> subject_files) (l : list Z) :
  exists ids,
    map subject_id_of (concat (map (subject_rows dataset) l)) = map Some ids
    /\ ids `sublist_of` l.
Proof.
  induction l as [|subject_id l (ids & Hids & Hsub)].
  - exists []. split; [reflexivity|constructor].
  - cbn. rewrite map_app, Hids. unfold subject_rows.
    destruct (measure (dataset subject_id)) as [[[age gender] b]|e].
    + destruct (measurable b).
      * exists (subject_id :: ids). split; [reflexivity|now constructor].
      * exists ids. split; [reflexivity|now constructor].
    + exists ids. split; [reflexivity|now constructor].
Qed.

(** Property X3.
    The rows of the BIDMC frame follow the subjects: their subject ids are a
    subsequence of 1, ..., 53, so they increase, none comes twice, and there
    are at most 53 rows. *)
Theorem bidmc_rows_follow_subjects (dataset : Z -> subject_files)
    (s : state) :
  exists rows ids,
    fst (load_bidmc_data dataset s) = Ok rows /\
    map subject_id_of rows = map Some ids /\
    ids `sublist_of` seqZ 1 53 /\
    NoDup ids /\
    (length rows <= 53)%nat.
Proof.
  destruct (subject_rows_ids dataset (seqZ 1 53)) as (ids & Hids & Hsub).
  exists (bidmc_rows dataset), ids.
  split; [now rewrite load_bidmc_data_run|]. split; [exact Hids|].
  split; [exact Hsub|]. split.
  - eapply sublist_NoDup; [apply NoDup_seqZ|exact Hsub].
  - apply (f_equal length) in Hids. rewrite !length_map in Hids.
    unfold bidmc_rows in *. rewrite Hids.
    apply sublist_length in Hsub. now rewrite length_seqZ in Hsub.
Qed.

Lemma row_of_subject (dataset : Z -> subject_files) (row : dict)
    (subject_id : Z) :
  row ∈ bidmc_rows dataset ->
  subject_id_of row = Some subject_id ->
  exists age gender b,
    measure (dataset subject_id) = Ok (age, gender, b) /\
    measurable b = true /\
    row = expected_row subject_id age gender b.
Proof.
  intros Hrow Hid.
  destruct (bidmc_row_origin dataset row Hrow)
    as (subject_id' & age & gender & b & _ & Hm & Hb & ->).
  change (Some subject_id' = Some subject_id) in Hid.
  injection Hid as <-. now exists age, gender, b.
Qed.

Lemma subject_line (dataset : Z -> subject_files) (subject_id : Z) :
  (1 <= subject_id <= 53)%Z ->
  line_of (bidmc_rows dataset) subject_id (subject_events dataset subject_id).
Proof.
  intros Hid. unfold line_of, subject_events.
  destruct (measure (dataset subject_id)) as [[[age gender] b]|e] eqn:Hm.
  - destruct (measurable b) eqn:Hb.
    + right. right. exists (expected_row subject_id age gender b).
      split; [|split; [reflexivity|]].
      * apply (subject_row_in dataset subject_id); [exact Hid|].
        unfold subject_rows. rewrite Hm, Hb. now left.
      * unfold abnormal_of. cbn. now destruct (abnormal_of_breaths b).
    + left. split; [reflexivity|]. intros row Hrow Hrid.
      destruct (row_of_subject dataset row subject_id Hrow Hrid)
        as (age' & gender' & b' & Hm' & Hb' & _).
      congruence.
  - right. left. exists e. split; [reflexivity|]. intros row Hrow Hrid.
    destruct (row_of_subject dataset row subject_id Hrow Hrid)
      as (age' & gender' & b' & Hm' & _).
    congruence.
Qed.

Lemma abnormal_sum_count (dataset : Z -> subject_files) (l : list Z) :
  foldr Z.add 0%Z (map abnormal_of (concat (map (subject_rows dataset) l)))
  = Z.of_nat (length (List.filter (fun row => (abnormal_of row =? 1)%Z)
                        (concat (map (subject_rows dataset) l)))).
Proof.
  induction l as [|subject_id l IH]; [reflexivity|].
  cbn -[abnormal_of]. unfold subject_rows at 1 3.
  destruct (measure (dataset subject_id)) as [[[age gender] b]|e];
    [destruct (measurable b)|]; cbn -[abnormal_of]; auto.
  assert (Hrow : abnormal_of (expected_row subject_id age gender b)
                 = if abnormal_of_breaths b then 1%Z else 0%Z).
  { unfold abnormal_of. cbn. now destruct (abnormal_of_breaths b). }
  rewrite IH, Hrow.
  destruct (abnormal_of_breaths b); cbn -[abnormal_of]; lia.
Qed.

(** Property X4.
    What the BIDMC loader prints.  For each subject from 1 to 53, in this
    order, it prints at most one line, about that subject: the line of its
    label when the subject has a record, and nothing or the line of an
    exception when it has none.  Then, when there is a record, it prints one
    class distribution with the number of records labelled abnormal and the
    number of records; with no record, no distribution is printed. *)
Theorem class_distribution_counts (dataset : Z -> subject_files)
    (s : state) :
  exists records lines,
    all_subjects (snd (load_bidmc_data dataset s)) = records /\
    printed (snd (load_bidmc_data dataset s))
    = printed s ++ concat lines
      ++ match records with
         | [] => []
         | _ :: _ =>
             [ClassDistribution
                (Z.of_nat (length (List.filter
                                     (fun row => (abnormal_of row =? 1)%Z)
                                     records)))
                (Z.of_nat (length records))]
         end /\
    Forall2 (line_of records) (seqZ 1 53) lines.
Proof.
  exists (bidmc_rows dataset), (map (subject_events dataset) (seqZ 1 53)).
  rewrite load_bidmc_data_run. cbn [fst snd printed all_subjects].
  split; [reflexivity|]. split.
  - unfold bidmc_rows at 2. rewrite abnormal_sum_count. reflexivity.
  - apply Forall2_fmap_r, Forall_Forall2_diag, Forall_forall.
    intros subject_id Hid. apply elem_of_seqZ in Hid.
    apply subject_line. lia.
Qed.

Lemma measure_age (f : subject_files) (age : Z) (gender : string)
    (b : breaths) :
  measure f = Ok (age, gender, b) ->
  exists info, fix_txt f = Ok info /\ read_age info = Ok age.
Proof.
  unfold measure. intros Hm.
  destruct (fix_txt f) as [info|]; [|discriminate]. cbn in Hm.
  destruct (read_age info) as [age'|] eqn:Hage; [|discriminate].
  cbn in Hm. exists info. split; [reflexivity|].
  repeat match type of Hm with
  | (?r ≫= _) = _ => destruct r; [|discriminate]; cbn in Hm
  end.
  now injection Hm as -> _ _.
Qed.

(** Property X5.
    The age of every BIDMC record comes from the sixth line of the subject's
    [_Fix.txt]: the integer written there, or, when the text is not an
    integer, 90 if it contains [90+] and 50 if it does not.  A subject whose
    age is not an integer is not dropped for it: when its files are read
    and a velocity is measured, it has its record, with the age 90 or 50. *)
Theorem record_age (dataset : Z -> subject_files) (s : state) :
  exists records,
    all_subjects (snd (load_bidmc_data dataset s)) = records /\
    (forall row, row ∈ records ->
       exists subject_id info text age,
         dict_get row "subject_id" = Some (PInt subject_id) /\
         dict_get row "age" = Some (PInt age) /\
         fix_txt (dataset subject_id) = Ok info /\
         info_field info 5 = Ok text /\
         (py_int text = Ok age
          \/ py_int text = Raise ValueError
             /\ age = (if Str.contains "90+" text then 90 else 50)%Z)) /\
    (forall subject_id info text gender b,
       (1 <= subject_id <= 53)%Z ->
       info_field info 5 = Ok text ->
       py_int text = Raise ValueError ->
       measured_from (dataset subject_id) info gender b ->
       breath_velocities b <> [] ->
       exists row,
         row ∈ records /\
         dict_get row "subject_id" = Some (PInt subject_id) /\
         dict_get row "age"
         = Some (PInt (if Str.contains "90+" text then 90 else 50))).
Proof.
  exists (bidmc_rows dataset). rewrite load_bidmc_data_run.
  cbn [snd all_subjects]. split; [reflexivity|]. split.
  - intros row Hrow.
    destruct (bidmc_row_origin dataset row Hrow)
      as (subject_id & age & gender & b & _ & Hm & _ & ->).
    destruct (measure_age _ _ _ _ Hm) as (info & Hinfo & Hage).
    unfold read_age in Hage.
    destruct (info_field info 5) as [text|] eqn:Htext; [|discriminate].
    cbn in Hage. exists subject_id, info, text, age.
    do 4 (split; [first [assumption | reflexivity]|]).
    destruct (py_int text) as [z|[]]; try discriminate.
    + left. congruence.
    + right. split; [reflexivity|congruence].
  - intros subject_id info text gender b Hid Htext Hint Hread Hv.
    assert (Hm : measure (dataset subject_id)
                 = Ok ((if Str.contains "90+" text then 90 else 50)%Z,
                       gender, b)).
    { apply measure_reads. exists info. split; [|exact Hread].
      exists text. split; [exact Htext|]. right. now split. }
    apply (measured_velocities _ _ _ _ Hread) in Hv.
    exists (expected_row subject_id
              (if Str.contains "90+" text then 90 else 50)%Z gender b).
    split; [|split; reflexivity].
    apply (subject_row_in dataset subject_id); [exact Hid|].
    unfold subject_rows. rewrite Hm, Hv. now left.
Qed.

End BreathLoopProperties.

Lemma record_age_witness :
  exists row,
    row ∈ Bidmc.all_subjects
            (snd (Bidmc.load_bidmc_data (H := Decimal.builtins)
                    BidmcMoreSamples.dataset BidmcSamples.start)) /\
    py_int (Builtins := Decimal.builtins) "NaN" = Raise ValueError /\
    dict_get row "subject_id" = Some (PInt 2) /\
    dict_get row "age" = Some (PInt 50).
Proof.
  destruct (record_age (H := Decimal.builtins) BidmcMoreSamples.dataset
              BidmcSamples.start) as (records & <- & _ & Hkept).
  destruct (Hkept 2%Z (BidmcSamples.fix_lines "NaN" "M") "NaN" "M"
              {| Bidmc.breath_durations :=
                   [true_divide 4 125; true_divide 4 125];
                 Bidmc.breath_amplitudes := [NInt 7; NInt 1];
                 Bidmc.breath_velocities := [NInt 7; NInt 1] |})
    as (row & Hin & Hid & Hage).
  - lia.
  - reflexivity.
  - vm_compute. reflexivity.
  - split; [reflexivity|]. split; [reflexivity|].
    exists "micu", [("RESP", Pd.ColInt [3; 7; 2; 9; 5; 5; 6; 5]%Z)],
      (Pd.ColInt [3; 7; 2; 9; 5; 5; 6; 5]%Z),
      [("RESP", Pd.ColInt [18; 19]%Z)], (Pd.ColInt [18; 19]%Z),
      18.5%float,
      [("breath_start", Pd.ColInt [0; 4]%Z);
       ("breath_end", Pd.ColInt [4; 8]%Z)],
      (Pd.ColInt [0; 4]%Z), (Pd.ColInt [4; 8]%Z).
    repeat split; vm_compute; reflexivity.
  - discriminate.
  - exists row. split; [exact Hin|].
    split; [vm_compute; reflexivity|]. split; [exact Hid|exact Hage].
Defined.

(** ** The header and the rows of load_qr_respiratory_data *)

Section QrRows.

Context `{Builtins}.
Import Qr.

#[local] Open Scope float_scope.

Lemma process_file_row (f : log_file) (s : state) :
  all_data (snd (process_file f s)) = all_data s
  \/ exists h v a d,
       all_data (snd (process_file f s)) = all_data s ++ [summary f h v a d].
Proof.
  destruct (process_file_run f s) as (_ & Hfail & Hok).
  destruct (summarize_file_run f s) as [_ Hrow].
  destruct (fst (summarize f s)) as [[h row]|e] eqn:Hs.
  - right. destruct (Hok h row eq_refl) as [-> _].
    destruct (Hrow h row eq_refl) as (k & df & m & _ & _ & ->). eauto.
  - left. now destruct (Hfail e eq_refl) as [_ ->].
Qed.

Lemma process_files_rows (files : list log_file) (s : state) :
  exists kept rows,
    kept `sublist_of` files /\
    all_data (foldl (fun s f => snd (process_file f s)) s files)
    = all_data s ++ rows /\
    Forall2 (fun f row => exists h v a d, row = summary f h v a d) kept rows.
Proof.
  revert s. induction files as [|f files IH]; intros s.
  - exists [], []. cbn. rewrite app_nil_r. repeat split; constructor.
  - cbn [foldl].
    destruct (IH (snd (process_file f s))) as (kept & rows & Hsub & -> & Hall).
    destruct (process_file_row f s) as [->|(h & v & a & d & ->)].
    + exists kept, rows. repeat split; auto. now constructor.
    + exists (f :: kept), (summary f h v a d :: rows).
      rewrite <- app_assoc. repeat split; auto; [now constructor|].
      constructor; eauto.
Qed.

(** Property X6.
    The rows of the session frame follow the files: the files that gave a
    row are a subsequence of the files matched, each row carries the base
    name of its file, there is at least one row and at most one for each
    file. *)
Theorem session_rows_follow_files (files : list log_file) (s : state)
    (rows : list dict) :
  fst (load_qr_respiratory_data files s) = Ok rows ->
  rows <> [] /\
  (length rows <= length files)%nat /\
  exists kept,
    kept `sublist_of` files /\
    Forall2 (fun f row =>
               dict_get row "file_path"
               = Some (PStr (basename (file_path f)))) kept rows.
Proof.
  rewrite load_qr_respiratory_data_run. cbn [fst].
  destruct (process_files_rows files
              {| printed := printed s; all_data := []; header_index := None;
                 denominators := denominators s |})
    as (kept & rows' & Hsub & Hrows & Hall).
  rewrite Hrows. cbn [all_data app].
  destruct rows' as [|row rows']; [discriminate|]. intros [= <-].
  split; [discriminate|]. split.
  - apply Forall2_length in Hall. rewrite <- Hall. now apply sublist_length.
  - exists kept. split; [exact Hsub|].
    eapply Forall2_impl; [exact Hall|].
    intros f r (h & v & a & d & ->). reflexivity.
Qed.

(** Property X7.
    Every record that the session loader appends to [all_data], the list
    of which it builds its frame, has the twelve fields of the code, in its
    order; the patient id and the health status are texts that are not
    empty, the age is an integer, the gender is 0 or 1, and a number read
    from the header is kept as the integer 0 or as a float that is not
    zero. *)
Theorem session_row_fields (files : list log_file) (s : state)
    (row : dict) :
  row ∈ all_data (snd (load_qr_respiratory_data files s)) ->
  dict_keys row
  = ["patient_id"; "age"; "gender"; "health_status"; "breathing_rate";
     "avg_amplitude"; "max_amplitude"; "min_amplitude"; "avg_velocity";
     "amplitude_variability"; "duration_variability"; "file_path"] /\
  (exists p, dict_get row "patient_id" = Some (PStr p) /\ p <> "") /\
  (exists n, dict_get row "age" = Some (PInt n)) /\
  (dict_get row "gender" = Some (PInt 0)
   \/ dict_get row "gender" = Some (PInt 1)) /\
  (exists t, dict_get row "health_status" = Some (PStr t) /\ t <> "") /\
  Forall (fun k =>
            dict_get row k = Some (PInt 0)
            \/ exists x, dict_get row k = Some (PFloat x) /\ (x =? 0) = false)
         ["breathing_rate"; "avg_amplitude"; "max_amplitude";
          "min_amplitude"] /\
  (exists x, dict_get row "avg_velocity" = Some (PFloat x)).
Proof.
  rewrite load_qr_respiratory_data_run. cbn [snd].
  destruct (process_files_rows files
              {| printed := printed s; all_data := []; header_index := None;
                 denominators := denominators s |})
    as (kept & rows' & Hsub & Hrows & Hall).
  rewrite Hrows. cbn [all_data app]. intros Hrow.
  apply list_elem_of_lookup_1 in Hrow as [i Hi].
  destruct (Forall2_lookup_r _ _ _ _ _ Hall Hi)
    as (f & _ & h & v & a & d & ->).
  assert (Hnum : forall x : option float,
            float_or_zero x = PInt 0
            \/ exists y, float_or_zero x = PFloat y /\ (y =? 0) = false).
  { intros [y|]; [|now left]. cbn. destruct (y =? 0) eqn:Hy; eauto. }
  split; [reflexivity|]. split.
  { cbn. destruct (patient_id h) as [p|]; [|now eexists].
    destruct (String.eqb p "") eqn:Hp; [now eexists|].
    exists p. split; [reflexivity|]. now apply String.eqb_neq. }
  split; [now eexists|]. split.
  { cbn. destruct (gender h) as [g|]; [|now left].
    destruct (String.eqb g "Male"); auto. }
  split.
  { cbn. destruct (health_status h) as [p|]; [|now eexists].
    destruct (String.eqb p "") eqn:Hp; [now eexists|].
    exists p. split; [reflexivity|]. now apply String.eqb_neq. }
  split; [|now eexists].
  repeat (apply Forall_cons; split); [| | | |now apply Forall_nil];
    cbn -[float_or_zero].
  - destruct (Hnum (breathing_rate h)) as [->|(y & -> & Hy)]; eauto.
  - destruct (Hnum (avg_amplitude h)) as [->|(y & -> & Hy)]; eauto.
  - destruct (Hnum (max_amplitude h)) as [->|(y & -> & Hy)]; eauto.
  - destruct (Hnum (min_amplitude h)) as [->|(y & -> & Hy)]; eauto.
Qed.

(** Property X8.
    A log whose header has no breathing rate is kept and reported as failed
    at once: its row, with a breathing rate of 0, is appended before the
    line that announces the file raises. *)
Theorem row_kept_and_reported_failed (f : log_file) (s : state) (h : header)
    (row : dict) :
  fst (summarize f s) = Ok (h, row) ->
  breathing_rate h = None ->
  all_data (snd (process_file f s)) = all_data s ++ [row] /\
  dict_get row "breathing_rate" = Some (PInt 0) /\
  printed (snd (process_file f s))
  = printed s ++ [ErrorLoadingFile (file_path f) TypeError].
Proof.
  intros Hs Hrate.
  destruct (summarize_file_run f s) as [(Hp & Ha & _) Hrow].
  destruct (Hrow h row Hs) as (k & df & m & _ & _ & ->).
  revert Hs Hp Ha.
  unfold process_file, process_body, try_except, io_bind.
  destruct (summarize f s) as [[[h' row']|e] s1]; cbn [fst snd];
    [|discriminate].
  intros [= -> ->] Hp Ha. unfold report. rewrite Hrate. cbn.
  rewrite Ha, Hp, Hrate. auto.
Qed.

End QrRows.

Lemma session_rows_follow_files_witness :
  exists rows,
    fst (Qr.load_qr_respiratory_data (H := Decimal.builtins)
           [QrSamples.unreadable_log; QrSamples.full_log] QrSamples.start)
    = Ok rows /\
    rows <> [] /\ (length rows <= 2)%nat.
Proof.
  destruct (fst (Qr.load_qr_respiratory_data (H := Decimal.builtins)
                   [QrSamples.unreadable_log; QrSamples.full_log]
                   QrSamples.start)) as [rows|e] eqn:Hrun;
    [|vm_compute in Hrun; discriminate].
  exists rows. split; [reflexivity|].
  destruct (session_rows_follow_files (H := Decimal.builtins)
              [QrSamples.unreadable_log; QrSamples.full_log] QrSamples.start
              rows Hrun) as (Hne & Hlen & _).
  split; [exact Hne|exact Hlen].
Defined.

Lemma session_row_fields_witness :
  exists row,
    Qr.all_data (snd (Qr.load_qr_respiratory_data (H := Decimal.builtins)
                        [QrSamples.flat_log] QrSamples.start)) = [row] /\
    length (dict_keys row) = 12%nat /\
    dict_get row "gender" = Some (PInt 0) /\
    dict_get row "breathing_rate" = Some (PFloat 12) /\
    dict_get row "avg_amplitude" = Some (PInt 0).
Proof.
  assert (Hrun : exists row,
            Qr.all_data (snd (Qr.load_qr_respiratory_data
                                (H := Decimal.builtins)
                                [QrSamples.flat_log] QrSamples.start))
            = [row]).
  { eexists. vm_compute. reflexivity. }
  destruct Hrun as (row & Hrun). exists row. split; [exact Hrun|].
  destruct (session_row_fields (H := Decimal.builtins) [QrSamples.flat_log]
              QrSamples.start row) as (Hkeys & _ & _ & _ & _ & _ & _).
  { rewrite Hrun. now left. }
  split; [now rewrite Hkeys|].
  vm_compute in Hrun. injection Hrun as <-.
  repeat split; reflexivity.
Defined.

Lemma row_kept_and_reported_failed_witness :
  exists row,
    Qr.all_data (snd (Qr.process_file (H := Decimal.builtins)
                        QrSamples.no_rate_log QrSamples.start))
    = Qr.all_data QrSamples.start ++ [row] /\
    dict_get row "breathing_rate" = Some (PInt 0) /\
    Qr.printed (snd (Qr.process_file (H := Decimal.builtins)
                       QrSamples.no_rate_log QrSamples.start))
    = Qr.printed QrSamples.start
      ++ [ErrorLoadingFile (Qr.file_path QrSamples.no_rate_log) TypeError].
Proof.
  assert (Hrun : exists h row,
            fst (Qr.summarize (H := Decimal.builtins) QrSamples.no_rate_log
                   QrSamples.start) = Ok (h, row)
            /\ Qr.breathing_rate h = None).
  { eexists _, _. split; [vm_compute; reflexivity|reflexivity]. }
  destruct Hrun as (h & row & Hrun & Hrate).
  exists row.
  exact (row_kept_and_reported_failed (H := Decimal.builtins)
           QrSamples.no_rate_log QrSamples.start h row Hrun Hrate).
Defined.

(** ** The header loop and the grouping of a session log *)

Section QrHeader.

Context `{Builtins}.
Import Qr.

#[local] Open Scope float_scope.

Lemma parse_header_stops (before_it after_it : list string) (line : string)
    (i : nat) (h : header) (s : state) :
  forallb (fun l => negb (Str.contains "timestamp" l)) before_it = true ->
  Str.contains "timestamp" line = true ->
  parse_header (before_it ++ line :: after_it) i h s
  = parse_header (before_it ++ [line]) i h s
  /\ (forall h', fst (parse_header (before_it ++ [line]) i h s) = Ok h' ->
        header_index (snd (parse_header (before_it ++ [line]) i h s))
        = Some (i + length before_it)%nat).
Proof.
  intros Hpre Hline. revert i h.
  induction before_it as [|l rest IH]; intros i h.
  - cbn [app parse_header]. unfold io_bind, lift.
    destruct (header_line h line) as [h1|e]; [|split; [reflexivity|]].
    + rewrite Hline. split; [reflexivity|]. intros h' _. cbn.
      f_equal. lia.
    + intros h' Hr. discriminate.
  - cbn in Hpre. apply andb_prop in Hpre as [Hl Hrest].
    apply negb_true_iff in Hl.
    cbn [app parse_header]. unfold io_bind, lift.
    destruct (header_line h l) as [h1|e].
    + rewrite Hl. destruct (IH Hrest (S i) h1) as [-> Hindex].
      split; [reflexivity|]. intros h' Hr.
      rewrite (Hindex h' Hr). f_equal. cbn. lia.
    + split; [reflexivity|]. intros h' Hr. discriminate.
Qed.

(** Property X9.
    The header of a log ends at its first line that holds [timestamp]: what
    follows that line is never read as a header, whatever it holds, and the
    table is read from that line on. *)
Theorem header_ends_at_timestamp (f : log_file) (s : state)
    (before_it after_it : list string) (line text : string) :
  content f = Ok text ->
  Str.split (String "010"%char EmptyString) text
  = before_it ++ line :: after_it ->
  forallb (fun l => negb (Str.contains "timestamp" l)) before_it = true ->
  Str.contains "timestamp" line = true ->
  fst (summarize f s)
  = (h ← fst (parse_header (before_it ++ [line]) 0 no_header s);
     df ← read_csv f (length before_it);
     m ← expected_metrics df h;
     Ok (h, summary f h (fst (fst m)) (snd (fst m)) (snd m))).
Proof.
  intros Htext Hlines Hpre Hline. unfold summarize, io_bind, lift.
  rewrite Htext, Hlines.
  destruct (parse_header_stops before_it after_it line 0 no_header s
              Hpre Hline) as [-> Hindex].
  destruct (parse_header (before_it ++ [line]) 0 no_header s)
    as [[h|e] s1] eqn:Hparse; cbn [fst snd] in *; [|reflexivity].
  unfold get_header_index. rewrite (Hindex h eq_refl).
  cbn -[metrics expected_metrics summary].
  destruct (read_csv f (length before_it)) as [df|e]; [|reflexivity].
  cbn -[metrics expected_metrics summary].
  destruct (metrics_run df h s1) as [Hm _].
  destruct (metrics df h s1) as [[m|e] s2]; cbn [fst snd] in *;
    rewrite <- Hm; reflexivity.
Qed.

Lemma parse_header_without_timestamp (lines : list string) (i : nat)
    (h : header) (s : state) :
  forallb (fun l => negb (Str.contains "timestamp" l)) lines = true ->
  snd (parse_header lines i h s) = s.
Proof.
  revert i h. induction lines as [|l rest IH]; intros i h Hlines;
    [reflexivity|].
  cbn in Hlines. apply andb_prop in Hlines as [Hl Hrest].
  apply negb_true_iff in Hl.
  cbn [parse_header]. unfold io_bind, lift.
  destruct (header_line h l) as [h1|e]; [|reflexivity].
  rewrite Hl. now apply IH.
Qed.

Lemma parse_header_result (lines : list string) (i : nat) (h : header)
    (s s' : state) :
  fst (parse_header lines i h s) = fst (parse_header lines i h s').
Proof.
  revert i h. induction lines as [|l rest IH]; intros i h; [reflexivity|].
  cbn [parse_header]. unfold io_bind, lift.
  destruct (header_line h l) as [h1|e]; [|reflexivity].
  cbn [fst snd]. destruct (Str.contains "timestamp" l); [reflexivity|].
  apply IH.
Qed.

Lemma index_bind {A B} (m : io state A) (k : A -> io state B) :
  (forall s, header_index (snd (m s)) = header_index s) ->
  (forall a s, header_index (snd (k a s)) = header_index s) ->
  forall s, header_index (snd (io_bind m k s)) = header_index s.
Proof.
  intros Hm Hk s. unfold io_bind. specialize (Hm s).
  destruct (m s) as [[a|e] s1]; cbn [fst snd] in *; [rewrite Hk|];
    assumption.
Qed.

Lemma metrics_header_index (df : Pd.dataframe) (h : header) :
  forall s, header_index (snd (metrics df h s)) = header_index s.
Proof.
  unfold metrics. cbv zeta.
  repeat first
    [ apply index_bind; [|intros ?]
    | intros ?; reflexivity
    | match goal with
      | |- context [match ?x with _ => _ end] => destruct x
      end ].
Qed.

Lemma process_file_header_index (f : log_file) (s : state) (text : string) :
  content f = Ok text ->
  header_index (snd (process_file f s))
  = header_index
      (snd (parse_header (Str.split (String "010"%char EmptyString) text)
              0 no_header s)).
Proof.
  intros Htext.
  unfold process_file, process_body, try_except, summarize, io_bind, lift.
  rewrite Htext.
  destruct (parse_header (Str.split (String "010"%char EmptyString) text)
              0 no_header s) as [[h|e] s1]; cbn [fst snd]; [|reflexivity].
  unfold get_header_index.
  destruct (header_index s1) as [k|] eqn:Hk; cbn [fst snd];
    [|cbn; now rewrite Hk].
  destruct (read_csv f k) as [df|e]; cbn [fst snd]; [|cbn; now rewrite Hk].
  pose proof (metrics_header_index df h s1) as Hm.
  destruct (metrics df h s1) as [[m|e] s2]; cbn [fst snd] in *.
  - unfold io_ret, append, report. cbn [fst snd].
    destruct (breathing_rate h); cbn; congruence.
  - cbn. congruence.
Qed.

(** Property X10.
    [header_index] outlives the file that set it.  After a log whose header
    is read down to its line with [timestamp], the variable holds the
    number of lines before that line, whatever becomes of the rest of the
    file; a log with no line that holds [timestamp] that comes next is
    read with that number of lines skipped, and the same log raises
    [UnboundLocalError] when no log before it had such a line. *)
Theorem header_index_is_kept_between_files (first second : log_file)
    (s : state) (before_it after_it : list string) (line text text' : string)
    (h h' : header) :
  content first = Ok text ->
  Str.split (String "010"%char EmptyString) text
  = before_it ++ line :: after_it ->
  forallb (fun l => negb (Str.contains "timestamp" l)) before_it = true ->
  Str.contains "timestamp" line = true ->
  fst (parse_header (before_it ++ [line]) 0 no_header s) = Ok h ->
  content second = Ok text' ->
  forallb (fun l => negb (Str.contains "timestamp" l))
          (Str.split (String "010"%char EmptyString) text') = true ->
  fst (parse_header (Str.split (String "010"%char EmptyString) text')
         0 no_header s) = Ok h' ->
  header_index (snd (process_file first s)) = Some (length before_it) /\
  fst (summarize second (snd (process_file first s)))
  = (df ← read_csv second (length before_it);
     m ← expected_metrics df h';
     Ok (h', summary second h' (fst (fst m)) (snd (fst m)) (snd m))) /\
  (header_index s = None ->
   fst (summarize second s) = Raise UnboundLocalError /\
   printed (snd (process_file second s))
   = printed s ++ [ErrorLoadingFile (file_path second) UnboundLocalError]).
Proof.
  intros Htext Hlines Hpre Hline Hh Htext' Hlines' Hh'.
  assert (Hindex : header_index (snd (process_file first s))
                   = Some (length before_it)).
  { rewrite (process_file_header_index first s text Htext), Hlines.
    destruct (parse_header_stops before_it after_it line 0 no_header s
                Hpre Hline) as [-> Hset].
    exact (Hset h Hh). }
  assert (Hrun : forall s0,
            fst (summarize second s0)
            = match header_index s0 with
              | None => Raise UnboundLocalError
              | Some k =>
                  df ← read_csv second k;
                  m ← expected_metrics df h';
                  Ok (h', summary second h' (fst (fst m)) (snd (fst m))
                            (snd m))
              end).
  { intros s0. unfold summarize, io_bind, lift. rewrite Htext'.
    pose proof (parse_header_without_timestamp _ 0%nat no_header s0 Hlines')
      as Hstate.
    pose proof (parse_header_result
                  (Str.split (String "010"%char EmptyString) text')
                  0 no_header s0 s) as Hsame.
    rewrite Hh' in Hsame.
    destruct (parse_header (Str.split (String "010"%char EmptyString) text')
                0 no_header s0) as [[h0|e] s1]; cbn [fst snd] in *;
      [|discriminate].
    injection Hsame as ->. subst s1. unfold get_header_index.
    destruct (header_index s0) as [k|]; [|reflexivity].
    cbn -[metrics expected_metrics summary].
    destruct (read_csv second k) as [df|e]; [|reflexivity].
    cbn -[metrics expected_metrics summary].
    destruct (metrics_run df h' s0) as [Hm _].
    destruct (metrics df h' s0) as [[m|e] s2]; cbn [fst snd] in *;
      rewrite <- Hm; reflexivity. }
  split; [exact Hindex|]. split.
  - now rewrite Hrun, Hindex.
  - intros Hnone. pose proof (Hrun s) as Hs. rewrite Hnone in Hs.
    split; [exact Hs|].
    destruct (process_file_run second s) as (_ & Hfail & _).
    now destruct (Hfail UnboundLocalError Hs) as [-> _].
Qed.

End QrHeader.

Lemma header_ends_at_timestamp_witness :
  fst (Qr.summarize (H := Decimal.builtins) QrSamples.full_log
         QrSamples.start)
  = (h ← fst (Qr.parse_header (H := Decimal.builtins)
                (["Patient ID: 17"; "Age: 41"; "Gender: Male";
                  "Health Status: Healthy"; "Total Duration: 6.0 seconds";
                  "Breathing Rate: 15.5 breaths/minute";
                  "Average Amplitude: 2.0"; "Maximum Amplitude: 3.0";
                  "Minimum Amplitude: 1.0"; "Total Breaths: 2"]
                 ++ [QrSamples.table_header])
                0 Qr.no_header QrSamples.start);
     df ← Qr.read_csv QrSamples.full_log 10;
     m ← expected_metrics df h;
     Ok (h, Qr.summary QrSamples.full_log h (fst (fst m)) (snd (fst m))
              (snd m))).
Proof.
  apply (header_ends_at_timestamp (H := Decimal.builtins) QrSamples.full_log
           QrSamples.start
           ["Patient ID: 17"; "Age: 41"; "Gender: Male";
            "Health Status: Healthy"; "Total Duration: 6.0 seconds";
            "Breathing Rate: 15.5 breaths/minute";
            "Average Amplitude: 2.0"; "Maximum Amplitude: 3.0";
            "Minimum Amplitude: 1.0"; "Total Breaths: 2"]
           QrSamples.table_rows QrSamples.table_header
           (String.concat QrSamples.newline
              (["Patient ID: 17"; "Age: 41"; "Gender: Male";
                "Health Status: Healthy"; "Total Duration: 6.0 seconds";
                "Breathing Rate: 15.5 breaths/minute";
                "Average Amplitude: 2.0"; "Maximum Amplitude: 3.0";
                "Minimum Amplitude: 1.0"; "Total Breaths: 2"]
               ++ QrSamples.table_header :: QrSamples.table_rows))).
  - reflexivity.
  - vm_compute. reflexivity.
  - vm_compute. reflexivity.
  - vm_compute. reflexivity.
Defined.

Lemma header_index_is_kept_between_files_witness :
  Qr.header_index (snd (Qr.process_file (H := Decimal.builtins)
                          QrSamples.full_log QrSamples.start))
  = Some 10%nat /\
  fst (Qr.summarize (H := Decimal.builtins) QrMoreSamples.headless_log
         (snd (Qr.process_file (H := Decimal.builtins) QrSamples.full_log
                 QrSamples.start)))
  = Raise ValueError /\
  fst (Qr.summarize (H := Decimal.builtins) QrMoreSamples.headless_log
         QrSamples.start) = Raise UnboundLocalError /\
  Qr.printed (snd (Qr.load_qr_respiratory_data (H := Decimal.builtins)
                     [QrSamples.full_log; QrMoreSamples.headless_log]
                     QrSamples.start))
  = [ProcessedFile "respiratory_data/respiratory_data_1.csv" 15.5;
     ErrorLoadingFile "respiratory_data/respiratory_data_5.csv" ValueError]
  /\
  Qr.printed (snd (Qr.load_qr_respiratory_data (H := Decimal.builtins)
                     [QrMoreSamples.headless_log; QrSamples.full_log]
                     QrSamples.start))
  = [ErrorLoadingFile "respiratory_data/respiratory_data_5.csv"
       UnboundLocalError;
     ProcessedFile "respiratory_data/respiratory_data_1.csv" 15.5].
Proof.
  assert (Hfirst : exists h,
            fst (Qr.parse_header (H := Decimal.builtins)
                   (["Patient ID: 17"; "Age: 41"; "Gender: Male";
                     "Health Status: Healthy"; "Total Duration: 6.0 seconds";
                     "Breathing Rate: 15.5 breaths/minute";
                     "Average Amplitude: 2.0"; "Maximum Amplitude: 3.0";
                     "Minimum Amplitude: 1.0"; "Total Breaths: 2"]
                    ++ [QrSamples.table_header])
                   0 Qr.no_header QrSamples.start) = Ok h).
  { eexists. vm_compute. reflexivity. }
  assert (Hsecond : exists h,
            fst (Qr.parse_header (H := Decimal.builtins)
                   (Str.split (String "010"%char EmptyString)
                      (String.concat QrSamples.newline
                         ["Patient ID: 20"; "Average Amplitude: 2.0"]))
                   0 Qr.no_header QrSamples.start) = Ok h).
  { eexists. vm_compute. reflexivity. }
  destruct Hfirst as [h Hh]. destruct Hsecond as [h' Hh'].
  destruct (header_index_is_kept_between_files (H := Decimal.builtins)
              QrSamples.full_log QrMoreSamples.headless_log QrSamples.start
              ["Patient ID: 17"; "Age: 41"; "Gender: Male";
               "Health Status: Healthy"; "Total Duration: 6.0 seconds";
               "Breathing Rate: 15.5 breaths/minute";
               "Average Amplitude: 2.0"; "Maximum Amplitude: 3.0";
               "Minimum Amplitude: 1.0"; "Total Breaths: 2"]
              QrSamples.table_rows QrSamples.table_header
              (String.concat QrSamples.newline
                 (["Patient ID: 17"; "Age: 41"; "Gender: Male";
                   "Health Status: Healthy"; "Total Duration: 6.0 seconds";
                   "Breathing Rate: 15.5 breaths/minute";
                   "Average Amplitude: 2.0"; "Maximum Amplitude: 3.0";
                   "Minimum Amplitude: 1.0"; "Total Breaths: 2"]
                  ++ QrSamples.table_header :: QrSamples.table_rows))
              (String.concat QrSamples.newline
                 ["Patient ID: 20"; "Average Amplitude: 2.0"])
              h h')
    as (Hindex & Hnext & Halone).
  - reflexivity.
  - vm_compute. reflexivity.
  - vm_compute. reflexivity.
  - vm_compute. reflexivity.
  - exact Hh.
  - reflexivity.
  - vm_compute. reflexivity.
  - exact Hh'.
  - split; [exact Hindex|]. split; [rewrite Hnext; reflexivity|].
    split; [exact (proj1 (Halone eq_refl))|].
    split; vm_compute; reflexivity.
Defined.

Section QrGroups.

Import Qr.

#[local] Open Scope float_scope.

Lemma runs_from_partition (cs : list Pd.cell) (i : nat) :
  concat (runs_from i cs) = seq i (length cs)
  /\ Forall (fun run => run <> []) (runs_from i cs).
Proof.
  revert i. induction cs as [|c rest IH]; intros i.
  - split; [reflexivity|constructor].
  - rewrite runs_from_cons. destruct (IH (S i)) as [Hcat Hne].
    cbn [length seq]. rewrite <- Hcat.
    destruct (runs_from (S i) rest) as [|run others].
    + split; [reflexivity|]. repeat constructor. discriminate.
    + apply Forall_cons in Hne as [Hrun Hothers].
      destruct (cell_eqb (List.hd c rest) c).
      * split; [reflexivity|]. constructor; [discriminate|exact Hothers].
      * split; [reflexivity|].
        constructor; [discriminate|]. now constructor.
Qed.

(** Property X11.
    The groups of the breathing phase split the rows of a log: taken in the
    order of their keys they list every row once, in the order of the
    table, and no group is empty. *)
Theorem phase_groups_partition_the_rows (breathing_phase : Pd.column) :
  concat (map snd (groupby (cumsum (ne_shift breathing_phase))))
  = seq 0 (Pd.len breathing_phase)
  /\ Forall (fun group => snd group <> [])
            (groupby (cumsum (ne_shift breathing_phase))).
Proof.
  destruct (runs_from_partition (Pd.cells breathing_phase) 0) as [Hcat Hne].
  fold (runs breathing_phase) in Hcat, Hne.
  rewrite <- groupby_runs in Hcat, Hne. split.
  - rewrite Hcat. f_equal. destruct breathing_phase; cbn; apply length_map.
  - apply List.Forall_forall. intros group Hgroup.
    rewrite List.Forall_forall in Hne. apply Hne. now apply in_map.
Qed.

Lemma expected_metrics_duration (df : Pd.dataframe) (h : header)
    (m : float * pyval * pyval) :
  expected_metrics df h = Ok m ->
  exists breathing_phase durations,
    Pd.getitem df "breathing_phase" = Ok breathing_phase /\
    run_durations df (runs breathing_phase) = Ok durations /\
    snd m = coefficient_of_variation durations.
Proof.
  unfold expected_metrics. intros Hm.
  destruct (Pd.getitem df "amplitude") as [amplitudes|e]; [|discriminate].
  cbn [mbind result_bind] in Hm.
  destruct (Pd.getitem df "velocity") as [velocity|e]; [|discriminate].
  cbn [mbind result_bind] in Hm.
  destruct (Pd.abs_values velocity) as [velocities|e]; [|discriminate].
  cbn [mbind result_bind] in Hm.
  destruct (match avg_amplitude h with
            | Some avg => _
            | None => _
            end) as [amplitude_variability|e]; [|discriminate].
  cbn [mbind result_bind] in Hm.
  destruct (Pd.getitem df "breathing_phase") as [breathing_phase|e];
    [|discriminate].
  cbn [mbind result_bind] in Hm.
  destruct (run_durations df (runs breathing_phase)) as [durations|e]
    eqn:Hruns; [|discriminate].
  cbn [mbind result_bind] in Hm.
  destruct (Pd.np_mean_abs velocity) as [centre|e]; [|discriminate].
  cbn [mbind result_bind] in Hm. injection Hm as <-.
  exists breathing_phase, durations. auto.
Qed.

(** Property X12.
    A table of at most one row has no phase that lasts: the loop over the
    groups records no duration and reads no timestamp, so that the duration
    variability is the integer 0 whatever else the table holds. *)
Theorem short_table_has_no_duration (df : Pd.dataframe) (h : header)
    (s : state) (breathing_phase : Pd.column) (avg_velocity : float)
    (amplitude_variability duration_variability : pyval) :
  Pd.getitem df "breathing_phase" = Ok breathing_phase ->
  (Pd.len breathing_phase <= 1)%nat ->
  phase_loop df (groupby (cumsum (ne_shift breathing_phase))) [] = Ok [] /\
  (fst (metrics df h s)
   = Ok (avg_velocity, amplitude_variability, duration_variability) ->
   duration_variability = PInt 0).
Proof.
  intros Hphase Hlen.
  assert (Hruns : run_durations df (runs breathing_phase) = Ok []).
  { unfold runs.
    destruct breathing_phase as [[|x [|y l]]|[|x [|y l]]|[|x [|y l]]];
      cbn in Hlen; try lia; reflexivity. }
  split.
  - now rewrite phase_loop_runs, groupby_runs, Hruns.
  - destruct (metrics_run df h s) as [-> _]. intros Hm.
    destruct (expected_metrics_duration df h _ Hm)
      as (phase & durations & Hphase' & Hruns' & Hd).
    rewrite Hphase in Hphase'. injection Hphase' as <-.
    rewrite Hruns in Hruns'. injection Hruns' as <-. exact Hd.
Qed.

End QrGroups.

Lemma short_table_has_no_duration_witness :
  Qr.phase_loop [("breathing_phase", Pd.ColObj ["inhaling"])]
    (Qr.groupby (Qr.cumsum (Qr.ne_shift (Pd.ColObj ["inhaling"])))) []
  = Ok [].
Proof.
  apply (short_table_has_no_duration
           [("breathing_phase", Pd.ColObj ["inhaling"])] Qr.no_header
           QrSamples.start (Pd.ColObj ["inhaling"]) 0%float (PInt 0)
           (PInt 0)).
  - reflexivity.
  - cbn. lia.
Defined.

(** ** download_file and the backup of the model in place *)

Section DownloadMore.

Context `{Builtins}.
Import Download.

Lemma write_chunks_run (path : string) (total_size downloaded : Z)
    (chunks existing : list string) (broken : option exn) (w : world) :
  files w !! path = Some (FBinary existing) ->
  write_chunks path total_size downloaded chunks broken w
  = (match broken with
     | Some e => Raise e
     | None => Ok tt
     end,
     {| files := <[path := FBinary (existing ++ delivered chunks)]> (files w);
        locked := locked w;
        console :=
          console w
          ++ (if (0 <? total_size)%Z
              then map (fun d => Progress d total_size)
                       (running_totals downloaded (delivered chunks))
              else []) |}).
Proof.
  revert downloaded existing w.
  induction chunks as [|chunk rest IH]; intros downloaded existing w Hfile;
    cbn [write_chunks delivered List.filter].
  - rewrite !app_nil_r, insert_id by exact Hfile.
    destruct (0 <? total_size)%Z; cbn [running_totals map];
      rewrite app_nil_r; destruct w, broken; reflexivity.
  - destruct (String.eqb chunk ""); cbn [negb]; [now apply IH|].
    unfold io_bind, write_chunk. rewrite Hfile.
    set (w1 := write_file path (FBinary (existing ++ [chunk])) w).
    assert (Hw1 : files w1 !! path = Some (FBinary (existing ++ [chunk])))
      by apply lookup_insert_eq.
    cbn [running_totals].
    destruct (0 <? total_size)%Z eqn:Htotal; cbn [print io_ret fst snd].
    + rewrite (IH _ (existing ++ [chunk])) by exact Hw1. rewrite ?Htotal.
      cbn [say world_console files locked console w1 write_file map].
      now rewrite insert_insert_eq, <- !app_assoc.
    + rewrite (IH _ (existing ++ [chunk])) by exact Hw1. rewrite ?Htotal.
      cbn [files locked console w1 write_file].
      now rewrite insert_insert_eq, <- !app_assoc.
Qed.

Lemma download_file_run (net : network) (url filename : string) (w : world)
    (r : response) (total_size : Z) :
  net url = Ok r -> status_ok r = true -> announced r total_size ->
  filename ∉ locked w ->
  download_file net url filename w
  = (match broken r with
     | Some e => Raise e
     | None => Ok tt
     end,
     {| files := <[filename := FBinary (delivered (body r))]> (files w);
        locked := locked w;
        console :=
          console w ++ [Downloading filename]
          ++ progress_lines total_size (body r)
          ++ match broken r with
             | Some _ => []
             | None => [Downloaded filename]
             end |}).
Proof.
  intros Hnet Hstatus Hlength Hopen.
  unfold download_file, io_bind, print, lift. cbn [say world_console].
  rewrite Hnet, Hstatus. cbn [io_ret].
  unfold announced in Hlength.
  destruct (content_length r) as [text|]; [rewrite Hlength|subst total_size];
    cbn [io_ret]; unfold open_wb;
    change (locked (say (Downloading filename) w)) with (locked w);
    (destruct (decide (filename ∈ locked w)) as [Hin|_]; [contradiction|]);
    rewrite (write_chunks_run filename _ 0 (body r) [])
      by apply lookup_insert_eq;
    cbn [app write_file files locked console]; rewrite insert_insert_eq;
    unfold progress_lines;
    destruct (broken r); unfold say, world_console;
    cbn [files locked console];
    rewrite <- ?app_assoc; cbn [app]; rewrite ?app_nil_r; reflexivity.
Qed.

(** Property X13.
    A download that cannot start writes nothing: when the request raises,
    is answered with an error status or with a length that is not a number,
    or when the file cannot be opened, [download_file] raises after its
    first line and every file is as it was. *)
Theorem refused_download_writes_nothing (net : network)
    (url filename : string) (w : world) (e : exn) :
  refused net url filename w e ->
  download_file net url filename w = (Raise e, say (Downloading filename) w)
  /\ files (snd (download_file net url filename w)) = files w.
Proof.
  intros Hrefused.
  assert (Hrun : download_file net url filename w
                 = (Raise e, say (Downloading filename) w)).
  { unfold download_file, io_bind, print, lift.
    destruct Hrefused as [e Hnet|r Hnet Hstatus|r text e Hnet Hstatus Hlen Hint
                         |r total Hnet Hstatus Hlen Hopen]; rewrite Hnet.
    - reflexivity.
    - now rewrite Hstatus.
    - rewrite Hstatus, Hlen. cbn [io_ret]. now rewrite Hint.
    - rewrite Hstatus. cbn [io_ret]. unfold announced in Hlen.
      destruct (content_length r) as [text|]; [rewrite Hlen|];
        cbn [io_ret]; unfold open_wb; cbn [say world_console locked];
        now destruct (decide (filename ∈ locked w)). }
  split; [exact Hrun|]. now rewrite Hrun.
Qed.

(** Property X14.
    A stream that breaks leaves a truncated file: the exception is raised
    from [download_file], the file holds the chunks received before it, and
    the loop of [main] reports the failure and goes on. *)
Theorem broken_stream_leaves_a_partial_file (net : network) (m : model)
    (w : world) (r : response) (total_size : Z) (e : exn) :
  net (url m) = Ok r -> status_ok r = true -> announced r total_size ->
  filename m ∉ locked w -> broken r = Some e ->
  fst (download_file net (url m) (filename m) w) = Raise e /\
  files (snd (download_file net (url m) (filename m) w)) !! filename m
  = Some (FBinary (delivered (body r))) /\
  fst (attempt net m w) = Ok tt /\
  files (snd (attempt net m w)) !! filename m
  = Some (FBinary (delivered (body r))) /\
  List.last (console (snd (attempt net m w))) (Say "")
  = FailedToDownload (filename m) e.
Proof.
  intros Hnet Hstatus Hlength Hopen Hbroken.
  rewrite (download_file_run net (url m) (filename m) w r total_size)
    by assumption.
  rewrite Hbroken. cbn [fst snd files].
  split; [reflexivity|]. split; [apply lookup_insert_eq|].
  unfold attempt, io_bind, print, try_except.
  rewrite (download_file_run net (url m) (filename m) _ r total_size)
    by assumption.
  rewrite Hbroken. unfold say, world_console.
  cbn [fst snd files locked console].
  split; [reflexivity|]. split; [apply lookup_insert_eq|].
  apply List.last_last.
Qed.

(** Property X15.
    What a download that goes through prints: its first line, one line of
    progress for each chunk written when the length announced is positive
    and none otherwise, and its last line.  The count of a line of progress
    is the number of bytes written so far, whatever length was announced. *)
Theorem progress_counts_the_bytes_written (net : network)
    (url filename : string) (w : world) (r : response) (total_size : Z) :
  net url = Ok r -> status_ok r = true -> announced r total_size ->
  filename ∉ locked w -> broken r = None ->
  console (snd (download_file net url filename w))
  = console w ++ [Downloading filename]
    ++ (if (0 <? total_size)%Z
        then map (fun downloaded => Progress downloaded total_size)
                 (running_totals 0 (delivered (body r)))
        else [])
    ++ [Downloaded filename] /\
  List.last (0%Z :: running_totals 0 (delivered (body r))) 0%Z
  = total_bytes (body r).
Proof.
  intros Hnet Hstatus Hlength Hopen Hbroken.
  rewrite (download_file_run net url filename w r total_size) by assumption.
  rewrite Hbroken. split; [reflexivity|].
  assert (Hsum : forall chunks d,
            List.last (d :: running_totals d (delivered chunks)) 0%Z
            = (d + total_bytes chunks)%Z).
  { induction chunks as [|chunk rest IH]; intros d; [cbn; lia|].
    cbn [delivered List.filter total_bytes foldr].
    fold (total_bytes rest). fold (delivered rest).
    destruct (String.eqb chunk "") eqn:Hchunk; cbn [negb].
    - apply String.eqb_eq in Hchunk. subst chunk. rewrite IH. cbn. lia.
    - cbn [running_totals].
      change (List.last (d :: ?x :: ?l) 0%Z) with (List.last (x :: l) 0%Z).
      rewrite IH. lia. }
  rewrite Hsum. lia.
Qed.

Lemma backup_files (w : world) :
  files (snd (backup w))
  = match files w !! (assets_dir +:+ "/qr_yolov5_tiny.tflite"),
          files w !! (assets_dir +:+ "/qr_yolov5_tiny.tflite.backup") with
    | Some f, None =>
        <[assets_dir +:+ "/qr_yolov5_tiny.tflite.backup" := f]>
          (delete (assets_dir +:+ "/qr_yolov5_tiny.tflite") (files w))
    | _, _ => files w
    end.
Proof.
  unfold backup.
  destruct (files w !! (assets_dir +:+ "/qr_yolov5_tiny.tflite")) as [f|];
    [|reflexivity].
  now destruct (files w !! (assets_dir +:+ "/qr_yolov5_tiny.tflite.backup")).
Qed.

(** Property X16.
    The downloader never loses the model in place.  When it ends, the
    backup holds what it held before, or, when there was no backup, the
    model that was in place, which is then no longer under its own name; a
    backup is never overwritten, and the downloads touch neither file. *)
Theorem model_in_place_is_backed_up_once (net : network) (w : world) :
  files (snd (main net w)) !! (assets_dir +:+ "/qr_yolov5_tiny.tflite.backup")
  = match files w !! (assets_dir +:+ "/qr_yolov5_tiny.tflite.backup") with
    | Some kept => Some kept
    | None => files w !! (assets_dir +:+ "/qr_yolov5_tiny.tflite")
    end /\
  files (snd (main net w)) !! (assets_dir +:+ "/qr_yolov5_tiny.tflite")
  = match files w !! (assets_dir +:+ "/qr_yolov5_tiny.tflite.backup") with
    | Some _ => files w !! (assets_dir +:+ "/qr_yolov5_tiny.tflite")
    | None => None
    end /\
  files (snd (backup (snd (backup w)))) = files (snd (backup w)).
Proof.
  assert (Helse : forall p, p ∉ map filename models ->
            files (snd (main net w)) !! p
            = files (snd (backup w)) !! p).
  { intros p Hp. unfold main, io_bind. cbn [print fst snd].
    set (w0 := say (Say "==================================================")
                 (say (Say "YOLOv5 COCO Model Downloader") w)).
    destruct (backup_run w0) as (Hb & _ & _).
    pose proof (backup_files w0) as Hfiles.
    destruct (backup w0) as [rb w1]. cbn [fst snd] in Hb, Hfiles. subst rb.
    assert (Hloop : fst (for_each models (attempt net) w1) = Ok tt).
    { rewrite for_each_total by (intros; apply attempt_run). reflexivity. }
    destruct (attempts_elsewhere net models w1 p Hp) as [_ Hp'].
    destruct (for_each models (attempt net) w1) as [rl w2].
    cbn [fst snd] in Hloop, Hp'. subst rl.
    unfold print. cbn [snd say world_console files].
    rewrite Hp', Hfiles, backup_files. reflexivity. }
  rewrite !Helse by (apply (bool_decide_unpack _); vm_compute; reflexivity).
  rewrite !backup_files.
  destruct (files w !! (assets_dir +:+ "/qr_yolov5_tiny.tflite"))
    as [f|] eqn:Hqr;
    destruct (files w !! (assets_dir +:+ "/qr_yolov5_tiny.tflite.backup"))
      as [b|] eqn:Hbk; rewrite ?Hqr, ?Hbk; try (repeat split; assumption).
  split; [apply lookup_insert_eq|]. split.
  - rewrite lookup_insert_ne by discriminate. apply lookup_delete_eq.
  - rewrite lookup_insert_ne by discriminate.
    now rewrite lookup_delete_eq.
Qed.

End DownloadMore.

Lemma refused_download_writes_nothing_witness :
  Download.download_file (H := Decimal.builtins)
    DownloadSamples.small_model_only "https://example.org/model.tflite"
    "model.tflite" DownloadSamples.empty_disk
  = (Raise ConnectionError,
     say (Downloading "model.tflite") DownloadSamples.empty_disk).
Proof.
  apply (refused_download_writes_nothing (H := Decimal.builtins)
           DownloadSamples.small_model_only "https://example.org/model.tflite"
           "model.tflite" DownloadSamples.empty_disk ConnectionError).
  apply no_answer. reflexivity.
Defined.

Lemma broken_stream_leaves_a_partial_file_witness :
  files (snd (Download.attempt (H := Decimal.builtins)
                DownloadMoreSamples.cut_off DownloadSamples.small_model
                DownloadSamples.empty_disk))
  !! Download.filename DownloadSamples.small_model
  = Some (FBinary ["ab"]).
Proof.
  apply (broken_stream_leaves_a_partial_file (H := Decimal.builtins)
           DownloadMoreSamples.cut_off DownloadSamples.small_model
           DownloadSamples.empty_disk
           {| Download.status_ok := true;
              Download.content_length := Some "4";
              Download.body := ["ab"; ""];
              Download.broken := Some ConnectionError |}
           4 ConnectionError).
  - reflexivity.
  - reflexivity.
  - vm_compute. reflexivity.
  - apply not_elem_of_empty.
  - reflexivity.
Defined.

Lemma progress_counts_the_bytes_written_witness :
  console (snd (Download.download_file (H := Decimal.builtins)
                  DownloadSamples.small_model_only
                  (Download.url DownloadSamples.small_model)
                  (Download.filename DownloadSamples.small_model)
                  DownloadSamples.empty_disk))
  = [Downloading (Download.filename DownloadSamples.small_model);
     Progress 2 4; Progress 4 4;
     Downloaded (Download.filename DownloadSamples.small_model)].
Proof.
  apply (progress_counts_the_bytes_written (H := Decimal.builtins)
           DownloadSamples.small_model_only
           (Download.url DownloadSamples.small_model)
           (Download.filename DownloadSamples.small_model)
           DownloadSamples.empty_disk
           {| Download.status_ok := true;
              Download.content_length := Some "4";
              Download.body := ["ab"; ""; "cd"];
              Download.broken := None |}
           4).
  - reflexivity.
  - reflexivity.
  - vm_compute. reflexivity.
  - apply not_elem_of_empty.
  - reflexivity.
Defined.

(** ** export_model_weights, run again *)

Section ExportMore.

Import ExportWeights.

Lemma export_written (w : world) (mp op : string) (thr : option pyval) :
  returned w mp op thr
  = Ok (match written w mp op thr with
        | Some (FJson _) => true
        | _ => false
        end) /\
  files (world_after w mp op thr)
  = match written w mp op thr with
    | Some document => <[op := document]> (files w)
    | None => files w
    end /\
  locked (world_after w mp op thr) = locked w.
Proof.
  unfold returned, world_after, written, export_model_weights, try_except,
    export_body, io_bind, print, say, world_console, joblib_load.
  cbn [files locked console].
  destruct (files w !! mp) as [[[coef_ intercept_|cls]|[]|[]| ]|] eqn:Hf;
    cbn -[make_output make_weights json_encodable bundle].
  2-20: repeat split.
  unfold lift.
  destruct (extract_parameters coef_ intercept_) as [[fw b]|e] eqn:He;
    cbn -[make_output make_weights json_encodable bundle]; [|repeat split].
  rewrite warn_on_mismatch_run.
  unfold dump_json. cbn [files locked console].
  destruct (decide (op ∈ locked w)) as [Hl|Hl];
    cbn -[make_output make_weights json_encodable bundle]; [repeat split|].
  fold (bundle fw b thr).
  destruct (json_encodable (bundle fw b thr)) eqn:Hj;
    cbn -[make_output make_weights json_encodable bundle]; repeat split.
Qed.

(** Property X17.
    Exporting twice is exporting once, when the output is not written over
    the model: the second run returns what the first returned and leaves
    every file as the first left it. *)
Theorem export_twice_is_export_once (w : world) (mp op : string)
    (thr : option pyval) :
  mp <> op ->
  returned (world_after w mp op thr) mp op thr = returned w mp op thr /\
  files (world_after (world_after w mp op thr) mp op thr)
  = files (world_after w mp op thr).
Proof.
  intros Hpaths.
  destruct (export_written w mp op thr) as (Hr & Hf & Hl).
  destruct (export_written (world_after w mp op thr) mp op thr)
    as (Hr' & Hf' & _).
  assert (Hsame : written (world_after w mp op thr) mp op thr
                  = written w mp op thr).
  { assert (Hmp : files (world_after w mp op thr) !! mp = files w !! mp).
    { rewrite Hf. destruct (written w mp op thr); [|reflexivity].
      apply lookup_insert_ne. congruence. }
    unfold written. now rewrite Hl, Hmp. }
  rewrite Hr', Hf', Hsame, Hr, Hf. split; [reflexivity|].
  destruct (written w mp op thr); [apply insert_insert_eq|reflexivity].
Qed.

Lemma written_document (w : world) (mp op : string) (thr : option pyval)
    (document : pyval) :
  written w mp op thr = Some (FJson document) ->
  exists fw b, document = bundle fw b thr.
Proof.
  unfold written.
  destruct (files w !! mp) as [[[coef_ intercept_|cls]| | | ]|];
    try discriminate.
  destruct (extract_parameters coef_ intercept_) as [[fw b]|e];
    [|discriminate].
  destruct (decide (op ∈ locked w)); [discriminate|].
  destruct (json_encodable (bundle fw b thr)); intros [= <-]. eauto.
Qed.

(** Property X18.
    Exporting over the model destroys it.  When the output path is the path
    of the model and the run returns [True], the file holds the document and
    no model any more, and a second run cannot load it: the unpickler raises
    [KeyError] at the brace that opens the document, and the run reports
    it, returns [False] and changes no file. *)
Theorem export_over_the_model_destroys_it (w : world) (path : string)
    (thr : option pyval) :
  returned w path path thr = Ok true ->
  (exists fw b,
     files (world_after w path path thr) !! path
     = Some (FJson (bundle fw b thr))) /\
  returned (world_after w path path thr) path path thr = Ok false /\
  files (world_after (world_after w path path thr) path path thr)
  = files (world_after w path path thr) /\
  console (world_after (world_after w path path thr) path path thr)
  = console (world_after w path path thr)
    ++ [LoadingModel path; ErrorExporting KeyError].
Proof.
  intros Htrue.
  destruct (export_written w path path thr) as (Hr & Hf & _).
  rewrite Hr in Htrue.
  destruct (written w path path thr) as [[| document| |]|] eqn:Hw;
    try discriminate.
  destruct (written_document _ _ _ _ _ Hw) as (fw & b & ->).
  assert (Hfile : files (world_after w path path thr) !! path
                  = Some (FJson (bundle fw b thr)))
    by (rewrite Hf; apply lookup_insert_eq).
  split; [now exists fw, b|].
  revert Hfile. generalize (world_after w path path thr). intros w' Hfile.
  unfold returned, world_after, export_model_weights, try_except,
    export_body, io_bind, print, say, world_console, joblib_load.
  cbn [files locked console]. rewrite Hfile.
  cbn -[make_weights chosen_thresholds].
  rewrite <- app_assoc. repeat split.
Qed.

End ExportMore.

Lemma export_twice_is_export_once_witness :
  returned (world_after ExportSamples.four_feature_world "model.joblib"
              "weights.json" None) "model.joblib" "weights.json" None
  = returned ExportSamples.four_feature_world "model.joblib" "weights.json"
      None.
Proof.
  apply (export_twice_is_export_once ExportSamples.four_feature_world
           "model.joblib" "weights.json" None).
  discriminate.
Defined.

Lemma export_over_the_model_destroys_it_witness :
  returned (world_after ExportSamples.four_feature_world "model.joblib"
              "model.joblib" None) "model.joblib" "model.joblib" None
  = Ok false /\
  List.last
    (console (world_after
                (world_after ExportSamples.four_feature_world "model.joblib"
                   "model.joblib" None)
                "model.joblib" "model.joblib" None))
    (Say "")
  = ErrorExporting KeyError.
Proof.
  destruct (export_over_the_model_destroys_it
              ExportSamples.four_feature_world "model.joblib" None)
    as (_ & Hfalse & _ & Hconsole).
  - vm_compute. reflexivity.
  - split; [exact Hfalse|].
    rewrite Hconsole. vm_compute. reflexivity.
Defined.

Section ExportReports.

Import ExportWeights.

(** Property X21.
    An export never fails in silence and never raises.  A run that returns
    [False] ends with a line that says why, the class found in place of a
    logistic regression or the exception caught, and a run that returns
    [True] ends with the thresholds it wrote. *)
Theorem failed_export_is_reported (w : world) (mp op : string)
    (thr : option pyval) :
  match returned w mp op thr with
  | Ok true =>
      List.last (console (world_after w mp op thr)) (Say "")
      = ShowThresholds (chosen_thresholds thr)
  | Ok false =>
      (exists cls,
         List.last (console (world_after w mp op thr)) (Say "")
         = ExpectedLogisticRegression cls)
      \/ (exists e,
            List.last (console (world_after w mp op thr)) (Say "")
            = ErrorExporting e)
  | Raise _ => False
  end.
Proof.
  unfold returned, world_after, export_model_weights, try_except,
    export_body, io_bind, print, say, world_console, joblib_load.
  cbn [files locked console].
  destruct (files w !! mp) as [[[coef_ intercept_|cls]|[]|[]| ]|] eqn:Hf;
    cbn -[make_output make_weights json_encodable];
    rewrite ?List.last_last; eauto.
  unfold lift.
  destruct (extract_parameters coef_ intercept_) as [[fw b]|e] eqn:He;
    cbn -[make_output make_weights json_encodable];
    rewrite ?List.last_last; eauto.
  rewrite warn_on_mismatch_run.
  unfold dump_json. cbn [files locked console].
  destruct (decide (op ∈ locked w)) as [Hl|Hl];
    cbn -[make_output make_weights json_encodable];
    rewrite ?List.last_last; eauto.
  destruct (json_encodable (make_output _ _)) eqn:Hj;
    cbn -[make_output make_weights json_encodable];
    rewrite ?List.last_last; eauto.
Qed.

End ExportReports.

(** ** The report of analyze_breathing_patterns *)

Section AnalysisProperties.

Import Analysis.

#[local] Open Scope float_scope.

Lemma SFcompare_antisym (x y : spec_float) :
  SFcompare y x = option_map CompOpp (SFcompare x y).
Proof.
  destruct x as [[]|[]| |[] mx ex], y as [[]|[]| |[] my ey]; try reflexivity;
    cbn [SFcompare option_map]; f_equal;
    rewrite (Z.compare_antisym ex ey);
    destruct (ex ?= ey)%Z; cbn [CompOpp]; try reflexivity;
    rewrite (Pos.compare_cont_antisym mx my Eq); cbn [CompOpp];
    now rewrite ?CompOpp_involutive.
Qed.

Lemma leb_not_ltb (x y : float) : (x <=? y) = true -> (y <? x) = false.
Proof.
  rewrite FloatAxioms.leb_spec, FloatAxioms.ltb_spec. unfold SFleb, SFltb.
  rewrite (SFcompare_antisym (Prim2SF x) (Prim2SF y)).
  now destruct (SFcompare (Prim2SF x) (Prim2SF y)) as [[]|].
Qed.

Lemma SFcompare_none (x y : spec_float) :
  SFcompare x y = None -> SFcompare x x = None \/ SFcompare y y = None.
Proof.
  destruct x as [[]|[]| |[] mx ex], y as [[]|[]| |[] my ey];
    cbn [SFcompare]; intros Hc; try discriminate; auto.
Qed.

Lemma not_leb_ltb (x y : float) :
  (x =? x) = true -> (y =? y) = true ->
  (x <=? y) = false -> (y <? x) = true.
Proof.
  rewrite !FloatAxioms.eqb_spec, FloatAxioms.leb_spec, FloatAxioms.ltb_spec.
  unfold SFeqb, SFleb, SFltb.
  rewrite (SFcompare_antisym (Prim2SF x) (Prim2SF y)).
  intros Hx Hy.
  destruct (SFcompare (Prim2SF x) (Prim2SF y)) as [[]|] eqn:Hc;
    cbn [option_map CompOpp]; try congruence.
  apply SFcompare_none in Hc as [Hc|Hc]; rewrite Hc in *; discriminate.
Qed.

Lemma interpret_says (r : row) :
  says_normal_rate (interpret r)
  = (12 <=? breathing_rate r) && (breathing_rate r <=? 20) /\
  says_abnormal_rate (interpret r)
  = negb ((12 <=? breathing_rate r) && (breathing_rate r <=? 20)) /\
  says_bradypnea (interpret r) = (breathing_rate r <? 12) /\
  says_tachypnea (interpret r)
  = negb (breathing_rate r <? 12) && (20 <? breathing_rate r).
Proof.
  unfold says_normal_rate, says_abnormal_rate, says_bradypnea,
    says_tachypnea, interpret.
  rewrite !existsb_app.
  destruct ((12 <=? breathing_rate r) && (breathing_rate r <=? 20)),
    (breathing_rate r <? 12), (20 <? breathing_rate r),
    (0.3 <? amplitude_variability r), (0.3 <? duration_variability r);
    repeat split; reflexivity.
Qed.

(** Property X19.
    The report is consistent on the rate of a row.  A rate reported as
    normal comes with neither bradypnea nor tachypnea, the two are never
    printed together, and a rate reported as abnormal comes with one of
    them unless the rate is not a number, in which case it is reported as
    abnormal with no reason. *)
Theorem rate_status_matches_interpretation (r : row) :
  (says_normal_rate (interpret r) = true ->
   says_bradypnea (interpret r) = false
   /\ says_tachypnea (interpret r) = false) /\
  says_bradypnea (interpret r) && says_tachypnea (interpret r) = false /\
  says_normal_rate (interpret r) = negb (says_abnormal_rate (interpret r)) /\
  (says_abnormal_rate (interpret r) = true ->
   if breathing_rate r =? breathing_rate r
   then says_bradypnea (interpret r) || says_tachypnea (interpret r) = true
   else says_bradypnea (interpret r) = false
        /\ says_tachypnea (interpret r) = false).
Proof.
  destruct (interpret_says r) as (-> & -> & -> & ->).
  assert (H12 : (12 =? 12) = true) by reflexivity.
  assert (H20 : (20 =? 20) = true) by reflexivity.
  split; [|split; [|split]].
  - intros [Hlow Hhigh]%andb_prop.
    apply leb_not_ltb in Hlow, Hhigh. now rewrite Hlow, Hhigh.
  - now destruct (breathing_rate r <? 12).
  - now rewrite negb_involutive.
  - intros Hout%negb_true_iff.
    destruct (breathing_rate r =? breathing_rate r) eqn:Hnan.
    + apply andb_false_iff in Hout as [Hlow|Hhigh].
      * now rewrite (not_leb_ltb 12 (breathing_rate r) H12 Hnan Hlow).
      * rewrite (not_leb_ltb (breathing_rate r) 20 Hnan H20 Hhigh).
        now destruct (breathing_rate r <? 12).
    + assert (Hcmp : SFcompare (Prim2SF (breathing_rate r))
                       (Prim2SF (breathing_rate r)) <> Some Eq).
      { rewrite FloatAxioms.eqb_spec in Hnan. unfold SFeqb in Hnan.
        destruct (SFcompare _ _) as [[]|]; congruence. }
      assert (Hr : Prim2SF (breathing_rate r) = S754_nan).
      { destruct (Prim2SF (breathing_rate r)) as [[]|[]| |[] m e];
          try reflexivity; exfalso; apply Hcmp; cbn [SFcompare];
          rewrite ?Z.compare_refl, ?Pos.compare_cont_refl; reflexivity. }
      rewrite !FloatAxioms.ltb_spec, Hr. unfold SFltb.
      split; [reflexivity|].
      now destruct (Prim2SF 20) as [[]|[]| |[] m e].
Qed.

Lemma compare_cont_Eq_spec (p q : BinNums.positive) :
  CompareSpec (p = q) (p < q)%positive (q < p)%positive
              (Pos.compare_cont Eq p q).
Proof. exact (Pos.compare_spec p q). Qed.

Lemma SFltb_bands (s : spec_float) :
  (SFltb s (Prim2SF 10) = true -> SFltb s (Prim2SF 12) = true) /\
  (SFltb (Prim2SF 24) s = true -> SFltb (Prim2SF 20) s = true) /\
  (SFltb (Prim2SF 24) s = true -> SFltb s (Prim2SF 12) = false).
Proof.
  replace (Prim2SF 10) with (S754_finite false 5629499534213120 (-49))
    by (vm_compute; reflexivity).
  replace (Prim2SF 12) with (S754_finite false 6755399441055744 (-49))
    by (vm_compute; reflexivity).
  replace (Prim2SF 20) with (S754_finite false 5629499534213120 (-48))
    by (vm_compute; reflexivity).
  replace (Prim2SF 24) with (S754_finite false 6755399441055744 (-48))
    by (vm_compute; reflexivity).
  unfold SFltb, SFcompare.
  destruct s as [[]|[]| |[] m e]; try (repeat split; congruence).
  split; [|split].
  - destruct (Z.compare_spec e (-49)) as [->|He|He]; try congruence.
    destruct (compare_cont_Eq_spec m 5629499534213120) as [->|Hm|Hm];
      try congruence.
    intros _.
    destruct (compare_cont_Eq_spec m 6755399441055744) as [->|Hm'|Hm'];
      try reflexivity; exfalso.
    + vm_compute in Hm. discriminate.
    + pose proof (Pos.lt_trans _ _ _ Hm' Hm) as Hc.
      vm_compute in Hc. discriminate.
  - destruct (Z.compare_spec (-48) e) as [<-|He|He]; try congruence.
    destruct (compare_cont_Eq_spec 6755399441055744 m) as [<-|Hm|Hm];
      try congruence.
    intros _.
    destruct (compare_cont_Eq_spec 5629499534213120 m) as [<-|Hm'|Hm'];
      try reflexivity; exfalso.
    + vm_compute in Hm. discriminate.
    + pose proof (Pos.lt_trans _ _ _ Hm Hm') as Hc.
      vm_compute in Hc. discriminate.
  - destruct (Z.compare_spec (-48) e) as [<-|He|He]; try congruence.
    + intros _. reflexivity.
    + intros _. destruct (Z.compare_spec e (-49)); try reflexivity; lia.
Qed.

(** Property X20.
    The band of the report lies within the band of the labelling: a rate
    that the labelling rules count as abnormal, below 10 or above 24, is
    reported as abnormal, with bradypnea or tachypnea as the reason, and a
    rate reported as normal is not counted by the labelling rules. *)
Theorem labelled_rate_is_reported_abnormal (r : row) :
  (breathing_rate r <? 10) || (24 <? breathing_rate r) = true ->
  says_abnormal_rate (interpret r) = true /\
  says_normal_rate (interpret r) = false /\
  says_bradypnea (interpret r) = (breathing_rate r <? 10) /\
  says_tachypnea (interpret r) = (24 <? breathing_rate r).
Proof.
  destruct (interpret_says r) as (-> & -> & -> & ->).
  destruct (SFltb_bands (Prim2SF (breathing_rate r)))
    as (Hlow & Hhigh & Hnot).
  rewrite <- !FloatAxioms.ltb_spec in Hlow, Hhigh, Hnot.
  intros [Hrate|Hrate]%orb_prop.
  - rewrite Hrate, (ltb_10_24 _ Hrate), (Hlow Hrate).
    destruct (12 <=? breathing_rate r) eqn:Hle; [|repeat split].
    apply leb_not_ltb in Hle. rewrite (Hlow Hrate) in Hle. discriminate.
  - rewrite Hrate, (Hnot Hrate), (Hhigh Hrate).
    destruct (breathing_rate r <? 10) eqn:Hten.
    + apply ltb_10_24 in Hten. congruence.
    + destruct (breathing_rate r <=? 20) eqn:Hle.
      * apply leb_not_ltb in Hle. rewrite (Hhigh Hrate) in Hle.
        discriminate.
      * rewrite andb_false_r. repeat split.
Qed.

End AnalysisProperties.

Lemma rate_status_matches_interpretation_witness :
  says_bradypnea (Analysis.interpret AnalysisSamples.fast_row)
  || says_tachypnea (Analysis.interpret AnalysisSamples.fast_row) = true.
Proof.
  destruct (rate_status_matches_interpretation AnalysisSamples.fast_row)
    as (_ & _ & _ & Habnormal).
  assert (Hsays : says_abnormal_rate
                    (Analysis.interpret AnalysisSamples.fast_row) = true)
    by (vm_compute; reflexivity).
  exact (Habnormal Hsays).
Defined.

Lemma labelled_rate_is_reported_abnormal_witness :
  says_abnormal_rate (Analysis.interpret AnalysisSamples.fast_row) = true.
Proof.
  apply (labelled_rate_is_reported_abnormal AnalysisSamples.fast_row).
  vm_compute. reflexivity.
Defined.
